(** * Geolocation resolution and location-based project matching

  A shallow embedding of [ip_location.py]: the two TTL caches, the
  IP-geolocation provider chain, the venue geocoder, the haversine
  distance and the match scorer with its threshold and ranking.

  Python values are modelled as the interpreter has them:
  - [str] is a sequence of Unicode code points;
  - [float] is an IEEE-754 binary64 number ([spec_float] with precision 53
    and maximal exponent 1024), with the arithmetic of [SpecFloat];
  - [dict] is an insertion-ordered association list with unique keys;
  - exceptions that the code does not catch are results of the functions;
  - the worker threads of a batch share the venue cache without a lock and
    are modelled by the interleavings of their statements ([Workers]).

  What belongs to the Python runtime and not to this repository
  ([str.lower], [float(str)], [str(obj)], the C library's [sin], [cos],
  [asin] and [pow]) is a field of the record [runtime]; the network and the
  clock are oracles of the record [env]. *)

From Stdlib Require Import ZArith NArith List Bool Lia String Ascii.
From Stdlib Require Import Floats.SpecFloat Sorting.Sorted.
From stdpp Require Import base option list gmap.

Local Open Scope Z_scope.

(** ** Python strings *)

Module PyStr.

(** A string is the list of its code points. *)
Abbreviation str := (list N).

(** Decoding of the UTF-8 bytes of a literal of this file into code points,
    so that the literals of the source can be written as they are. *)
Fixpoint utf8_decode (bs : list N) : str :=
  match bs with
  | [] => []
  | b :: rest =>
      if (b <? 0x80)%N then b :: utf8_decode rest
      else if (b <? 0xE0)%N then
        match rest with
        | c1 :: r => ((b - 0xC0) * 64 + (c1 - 0x80))%N :: utf8_decode r
        | [] => [b]
        end
      else if (b <? 0xF0)%N then
        match rest with
        | c1 :: c2 :: r =>
            ((b - 0xE0) * 4096 + (c1 - 0x80) * 64 + (c2 - 0x80))%N :: utf8_decode r
        | _ => [b]
        end
      else
        match rest with
        | c1 :: c2 :: c3 :: r =>
            ((b - 0xF0) * 262144 + (c1 - 0x80) * 4096 + (c2 - 0x80) * 64 + (c3 - 0x80))%N
              :: utf8_decode r
        | _ => [b]
        end
  end.

Definition u (s : string) : str :=
  utf8_decode (List.map N_of_ascii (list_ascii_of_string s)).

(** [bool(s)]: a string is true when it is not empty. *)
Definition truthy (s : str) : bool :=
  match s with [] => false | _ => true end.

(** [a == b] *)
Definition eqb (a b : str) : bool := bool_decide (a = b).

Fixpoint startswith (s p : str) : bool :=
  match p, s with
  | [], _ => true
  | _ :: _, [] => false
  | c :: p', d :: s' => (c =? d)%N && startswith s' p'
  end.

(** [sub in s] *)
Fixpoint contains (sub s : str) : bool :=
  startswith s sub ||
  match s with
  | [] => false
  | _ :: t => contains sub t
  end.

Definition endswith (s suffix : str) : bool :=
  startswith (rev s) (rev suffix).

(** [s.replace(old, new)]: the occurrences of [old] are replaced from left
    to right and do not overlap. [skip] counts the characters of a matched
    occurrence that are still to be dropped. *)
Fixpoint replace_from (old new : str) (skip : nat) (s : str) : str :=
  match s with
  | [] => []
  | c :: t =>
      match skip with
      | S k => replace_from old new k t
      | O =>
          if startswith s old
          then new ++ replace_from old new (Nat.pred (length old)) t
          else c :: replace_from old new O t
      end
  end.

Definition replace (old new s : str) : str :=
  match old with
  | [] => new ++ flat_map (fun c => c :: new) s
  | _ :: _ => replace_from old new O s
  end.

(** [str.isspace] for one character: the code points whose bidirectional
    class is WS, B or S, or whose category is Zs. *)
Definition isspace (c : N) : bool :=
  ((0x09 <=? c) && (c <=? 0x0D) || (0x1C <=? c) && (c <=? 0x20)
   || (c =? 0x85) || (c =? 0xA0) || (c =? 0x1680)
   || (0x2000 <=? c) && (c <=? 0x200A)
   || (c =? 0x2028) || (c =? 0x2029) || (c =? 0x202F) || (c =? 0x205F)
   || (c =? 0x3000))%N.

Fixpoint lstrip (s : str) : str :=
  match s with
  | c :: t => if isspace c then lstrip t else s
  | [] => []
  end.

(** [s.strip()] *)
Definition strip (s : str) : str := rev (lstrip (rev (lstrip s))).

(** [s.split(sep)] for a separator of one character. *)
Fixpoint split (sep : N) (s : str) : list str :=
  match s with
  | [] => [[]]
  | c :: t =>
      if (c =? sep)%N then [] :: split sep t
      else
        match split sep t with
        | w :: ws => (c :: w) :: ws
        | [] => [[c]]
        end
  end.

(** Lowering of the letters A to Z only. It is [str.lower] on every string
    of ASCII characters and CJK ideographs, which have no case. *)
Definition ascii_lower (s : str) : str :=
  List.map (fun c => if ((0x41 <=? c) && (c <=? 0x5A))%N then (c + 32)%N else c) s.

End PyStr.

(** ** Python floats *)

Module PyFloat.

Abbreviation float := spec_float.

Definition prec : Z := 53.
Definition emax : Z := 1024.

Definition fadd : float -> float -> float := SFadd prec emax.
Definition fsub : float -> float -> float := SFsub prec emax.
Definition fmul : float -> float -> float := SFmul prec emax.
Definition fdiv : float -> float -> float := SFdiv prec emax.
Definition fsqrt : float -> float := SFsqrt prec emax.
Definition fopp : float -> float := SFopp.

Definition feq : float -> float -> bool := SFeqb.
Definition flt : float -> float -> bool := SFltb.
Definition fle : float -> float -> bool := SFleb.

(** The float nearest to an integer. *)
Definition of_int (z : Z) : float := binary_normalize prec emax z 0 false.

(** [float('inf')] *)
Definition inf : float := S754_infinity false.

(** [bool(x)]: a float is false when it is zero, of either sign. *)
Definition truthy (x : float) : bool :=
  match x with S754_zero _ => false | _ => true end.

Definition is_nan (x : float) : bool :=
  match x with S754_nan => true | _ => false end.

(** A number, as opposed to an infinity or a NaN. *)
Definition is_finite (x : float) : bool :=
  match x with S754_zero _ | S754_finite _ _ _ => true | _ => false end.

(** [int(x)]: truncation towards zero; infinities and NaN raise. *)
Definition to_int (x : float) : option Z :=
  match x with
  | S754_zero _ => Some 0
  | S754_finite s m e =>
      let a := match e with
               | Z0 => Zpos m
               | Zpos p => Z.shiftl (Zpos m) e
               | Zneg p => Z.shiftr (Zpos m) (Zpos p)
               end in
      Some (if s then - a else a)
  | _ => None
  end.

(** The literals of the source. *)
Definition f0_7 : float := fdiv (of_int 7) (of_int 10).
Definition f2 : float := of_int 2.
Definition f6371 : float := of_int 6371.
Definition f180 : float := of_int 180.
Definition pi : float := S754_finite false 0x1921FB54442D18 (-51).

(** [math.radians(x)] is [x * (pi / 180.0)]. *)
Definition degToRad : float := fdiv pi f180.
Definition radians (x : float) : float := fmul x degToRad.

End PyFloat.


Import PyStr PyFloat.

(** ** Python values, exceptions and dictionaries *)

Module Py.

(** The exceptions that the modelled code can let escape. *)
Inductive exn := TypeError | ValueError | OverflowError | AttributeError | KeyError.

Inductive result (A : Type) :=
| Ok (a : A)
| Raise (e : exn).
Arguments Ok {A} a.
Arguments Raise {A} e.

Definition bind {A B} (r : result A) (k : A -> result B) : result B :=
  match r with
  | Ok a => k a
  | Raise e => Raise e
  end.

(** A library function that signals its failure with one exception. *)
Definition or_raise {A} (e : exn) (o : option A) : result A :=
  match o with
  | Some a => Ok a
  | None => Raise e
  end.

(** The values that a decoded JSON document and the dictionaries built from
    it hold. *)
#[warnings="-register-all"] Inductive value :=
| VNone
| VBool (b : bool)
| VInt (z : Z)
| VFloat (x : float)
| VStr (s : str)
| VList (l : list value)
| VDict (items : list (str * value)).

(** [bool(v)] *)
Definition truthy (v : value) : bool :=
  match v with
  | VNone => false
  | VBool b => b
  | VInt z => negb (z =? 0)
  | VFloat x => PyFloat.truthy x
  | VStr s => PyStr.truthy s
  | VList l => match l with [] => false | _ => true end
  | VDict items => match items with [] => false | _ => true end
  end.

(** [a or b] *)
Definition or_else (a b : value) : value := if truthy a then a else b.

Fixpoint assoc (k : str) (items : list (str * value)) : option value :=
  match items with
  | [] => None
  | (k', v) :: rest => if PyStr.eqb k k' then Some v else assoc k rest
  end.

(** [d.get(k, default)] on the items of a dictionary. *)
Definition field (items : list (str * value)) (k : string) (default : value) : value :=
  match assoc (u k) items with
  | Some v => v
  | None => default
  end.

(** [v == s] for a string [s]. *)
Definition eq_str (v : value) (s : str) : bool :=
  match v with
  | VStr t => PyStr.eqb t s
  | _ => false
  end.

(** What the code takes from the Python runtime and the C library. *)
Record runtime := {
  (** [s.lower()] *)
  str_lower : str -> str;
  (** [str(v)] for a value that is not a string *)
  repr : value -> str;
  (** [float(s)]; [None] is its [ValueError] *)
  float_of_str : str -> option float;
  (** [math.sin], [math.cos], [math.asin], [math.sqrt]; [None] is
      [ValueError: math domain error] *)
  math_sin : float -> option float;
  math_cos : float -> option float;
  math_asin : float -> option float;
  math_sqrt : float -> option float;
  (** [x ** y] on floats; [None] is its [OverflowError] *)
  float_pow : float -> float -> option float
}.

(** [str(v)] *)
Definition to_str (rt : runtime) (v : value) : str :=
  match v with
  | VStr s => s
  | _ => repr rt v
  end.

(** The number that an arithmetic operation or a [math] function sees in a
    value; an integer too large for a float raises [OverflowError], a value
    that is not a number raises [TypeError]. *)
Definition as_float (v : value) : result float :=
  match v with
  | VFloat x => Ok x
  | VInt z => if is_finite (of_int z) then Ok (of_int z) else Raise OverflowError
  | VBool b => Ok (of_int (if b then 1 else 0))
  | _ => Raise TypeError
  end.

(** [a - b]: exact on integers, rounded on floats. *)
Definition sub (a b : value) : result value :=
  match a, b with
  | (VInt _ | VBool _), (VInt _ | VBool _) =>
      let z v := match v with VInt z => z | VBool true => 1 | _ => 0 end in
      Ok (VInt (z a - z b))
  | _, _ =>
      match a, b with
      | (VInt _ | VBool _ | VFloat _), (VInt _ | VBool _ | VFloat _) =>
          bind (as_float a) (fun x =>
          bind (as_float b) (fun y => Ok (VFloat (fsub x y))))
      | _, _ => Raise TypeError
      end
  end.

(** The keys of a dictionary: lists and dictionaries are not hashable. Keys
    are compared structurally; Python would also identify [1], [1.0] and
    [True], which no key of this code is. *)
Definition hashable (v : value) : bool :=
  match v with
  | VList _ | VDict _ => false
  | _ => true
  end.

Definition key_eqb (a b : value) : bool :=
  match a, b with
  | VNone, VNone => true
  | VBool x, VBool y => Bool.eqb x y
  | VInt x, VInt y => x =? y
  | VFloat x, VFloat y =>
      match x, y with
      | S754_zero s, S754_zero t => Bool.eqb s t
      | S754_infinity s, S754_infinity t => Bool.eqb s t
      | S754_nan, S754_nan => true
      | S754_finite s m e, S754_finite t n f =>
          Bool.eqb s t && (m =? n)%positive && (e =? f)
      | _, _ => false
      end
  | VStr s, VStr t => PyStr.eqb s t
  | _, _ => false
  end.

End Py.

Notation "'let*' x ':=' c 'in' k" := (Py.bind c (fun x => k))
  (at level 10, x name, k at level 200).

(** ** Insertion-ordered dictionaries

    [_location_cache] and [_hospital_cache] are dictionaries from a key to a
    pair of a result and the time of its insertion. The order of the items
    decides which of several oldest entries [min] returns. *)

Module Dict.

Section Dict.
Context {K V : Type} (keq : K -> K -> bool).

Definition dict := list (K * V).

(** [k in d] and [d[k]] *)
Fixpoint lookup (k : K) (d : dict) : option V :=
  match d with
  | [] => None
  | (k', v) :: rest => if keq k k' then Some v else lookup k rest
  end.

(** [d[k] = v]: a present key keeps its place, a new key goes last. *)
Fixpoint set (k : K) (v : V) (d : dict) : dict :=
  match d with
  | [] => [(k, v)]
  | (k', v') :: rest =>
      if keq k k' then (k', v) :: rest else (k', v') :: set k v rest
  end.

(** [del d[k]] *)
Fixpoint del (k : K) (d : dict) : dict :=
  match d with
  | [] => []
  | (k', v') :: rest =>
      if keq k k' then rest else (k', v') :: del k rest
  end.

(** [len(d)] *)
Definition len (d : dict) : Z := Z.of_nat (length d).

End Dict.
Arguments dict K V : clear implicits.

End Dict.

(** ** The two caches (lines 19-22, 99-106, 149-152, 318-325, 383-387) *)

Module Cache.

(** An entry is [(result, timestamp)]. *)
Abbreviation cache K := (Dict.dict K (Py.value * float)).

Definition _cache_ttl : float := of_int 3600.
Definition _max_workers : Z := 5.

Section Cache.
Context {K : Type} (keq : K -> K -> bool).

(** The item that [min(cache.items(), key=lambda x: x[1][1])] returns among
    [best] and the items after it: the first one with the least timestamp. *)
Fixpoint min_from (best : K * (Py.value * float)) (rest : cache K)
  : K * (Py.value * float) :=
  match rest with
  | [] => best
  | item :: rest' =>
      min_from (if flt (snd (snd item)) (snd (snd best)) then item else best) rest'
  end.

Definition oldest_key (c : cache K) : option K :=
  match c with
  | [] => None
  | item :: rest => Some (fst (min_from item rest))
  end.

(** The check of the cache: a hit younger than the time to live is returned,
    an older one is deleted. The clock is read only when the key is there. *)
Definition fresh (now timestamp : float) : bool :=
  flt (fsub now timestamp) _cache_ttl.

Definition get (now : float) (k : K) (c : cache K) : option Py.value * cache K :=
  match Dict.lookup keq k c with
  | Some (result, timestamp) =>
      if fresh now timestamp then (Some result, c) else (None, Dict.del keq k c)
  | None => (None, c)
  end.

(** The write of a result: the entry is stored and, when the cache has grown
    beyond [max_entries], the oldest entry is deleted. *)
Definition put (max_entries : Z) (now : float) (k : K) (result : Py.value)
  (c : cache K) : cache K :=
  let c1 := Dict.set keq k (result, now) c in
  if Dict.len c1 >? max_entries then
    match oldest_key c1 with
    | Some oldest => Dict.del keq oldest c1
    | None => c1
    end
  else c1.

End Cache.

End Cache.

(** ** The world outside: configuration, network, clock *)

Module World.

(** [requests.get(url, params=..., headers=..., timeout=...)] *)
Record request := {
  url : str;
  params : list (str * str);
  headers : list (str * str);
  timeout : Z
}.

(** An answer: its status, its text, and what [response.json()] returns,
    [None] when it raises. *)
Record response := {
  status_code : Z;
  text : str;
  json : option Py.value
}.

(** The environment of a run. The [n]-th request of the run is answered by
    [http_get n], with [None] for an exception of [requests.get]; the [n]-th
    reading of the clock is [time_time n]. *)
Record env := {
  AMAP_API_KEY : str;
  http_get : nat -> request -> option response;
  time_time : nat -> float
}.

(** The state of the module and the trace of what the run did. *)
Record world := {
  _location_cache : Cache.cache Py.value;
  _hospital_cache : Cache.cache str;
  sent : list request;
  clock_reads : nat
}.

Definition io (A : Type) : Type := world -> A * world.

Definition ret {A} (a : A) : io A := fun w => (a, w).

Definition bind {A B} (c : io A) (k : A -> io B) : io B :=
  fun w => let '(a, w1) := c w in k a w1.

Definition requests_get (e : env) (rq : request) : io (option response) :=
  fun w =>
    (http_get e (length (sent w)) rq,
     {| _location_cache := _location_cache w;
        _hospital_cache := _hospital_cache w;
        sent := sent w ++ [rq];
        clock_reads := clock_reads w |}).

Definition time (e : env) : io float :=
  fun w =>
    (time_time e (clock_reads w),
     {| _location_cache := _location_cache w;
        _hospital_cache := _hospital_cache w;
        sent := sent w;
        clock_reads := S (clock_reads w) |}).

Definition get_location_cache : io (Cache.cache Py.value) :=
  fun w => (_location_cache w, w).

Definition set_location_cache (c : Cache.cache Py.value) : io unit :=
  fun w =>
    (tt, {| _location_cache := c;
            _hospital_cache := _hospital_cache w;
            sent := sent w;
            clock_reads := clock_reads w |}).

Definition get_hospital_cache : io (Cache.cache str) :=
  fun w => (_hospital_cache w, w).

Definition set_hospital_cache (c : Cache.cache str) : io unit :=
  fun w =>
    (tt, {| _location_cache := _location_cache w;
            _hospital_cache := c;
            sent := sent w;
            clock_reads := clock_reads w |}).

End World.

Notation "'let!' x ':=' c 'in' k" := (World.bind c (fun x => k))
  (at level 10, x name, k at level 200).

Import World.

(** ** The resolvers (lines 24-398) *)

Module Resolver.

Section Resolver.
Variable rt : Py.runtime.
Variable e : env.

Definition user_agent : list (str * str) :=
  [(u "User-Agent", u "Mozilla/5.0 (Windows NT 10.0; Win64; x64) AppleWebKit/537.36")].

Definition empty : Py.value := Py.VStr [].

(** The body of an answer with status 200 as a dictionary; anything else
    leaves the [try] block without a result. *)
Definition answer (r : option response) : option (list (str * Py.value)) :=
  match r with
  | Some resp =>
      if status_code resp =? 200 then
        match json resp with
        | Some (Py.VDict items) => Some items
        | _ => None
        end
      else None
  | None => None
  end.

(** *** [get_public_ip] (lines 24-67) *)

Definition ip_services : list str :=
  [u "https://api.ipify.org?format=json";
   u "https://api.ip.sb/ip";
   u "https://ifconfig.me/ip";
   u "https://icanhazip.com";
   u "http://ip-api.com/json/?fields=query"].

(** What one service yields (lines 45-61). *)
Definition public_ip_of (service_url : str) (r : option response) : option Py.value :=
  match r with
  | Some resp =>
      if status_code resp =? 200 then
        let data := strip (text resp) in
        if endswith service_url (u "json") then
          match json resp with
          | Some (Py.VDict items) =>
              let ip := Py.or_else (Py.field items "ip" Py.VNone) (Py.field items "query" Py.VNone) in
              if Py.truthy ip then Some ip else None
          | _ => None
          end
        else if PyStr.truthy data && (length (split 0x2E data) =? 4)%nat
             then Some (Py.VStr data) else None
      else None
  | None => None
  end.

Fixpoint get_public_ip_from (services : list str) : io Py.value :=
  match services with
  | [] => ret Py.VNone
  | service_url :: rest =>
      let! r := requests_get e
                  {| url := service_url; params := []; headers := []; timeout := 3 |} in
      match public_ip_of service_url r with
      | Some ip => ret ip
      | None => get_public_ip_from rest
      end
  end.

Definition get_public_ip : io Py.value := get_public_ip_from ip_services.

(** *** [get_location_by_ip] (lines 69-239) *)

(** [x[0] if x else ''] for a list [x] (lines 124-127). *)
Definition first_of_list (v : Py.value) : Py.value :=
  match v with
  | Py.VList (x :: _) => x
  | Py.VList [] => empty
  | _ => v
  end.

(** [str(x) if x else ''] (lines 130-131, 143-144). *)
Definition str_or_empty (v : Py.value) : str :=
  if Py.truthy v then Py.to_str rt v else [].

(** The record that the answer of the keyed provider yields (lines 116-146);
    [None] when the [try] block ends without one. *)
Definition amap_location (ip_address : Py.value) (r : option response)
  : option Py.value :=
  match answer r with
  | Some data =>
      if Py.eq_str (Py.field data "status" Py.VNone) (u "1")
         && Py.eq_str (Py.field data "info" Py.VNone) (u "OK") then
        let province := str_or_empty (first_of_list (Py.field data "province" empty)) in
        let city := str_or_empty (first_of_list (Py.field data "city" empty)) in
        if negb (PyStr.truthy province) && negb (PyStr.truthy city) then None
        else Some (Py.VDict
          [(u "city", Py.VStr city);
           (u "region", Py.VStr province);
           (u "country", Py.VStr (u "中国"));
           (u "country_code", Py.VStr (u "CN"));
           (u "ip", ip_address);
           (u "adcode", Py.VStr (str_or_empty (Py.field data "adcode" Py.VNone)));
           (u "rectangle", Py.VStr (str_or_empty (Py.field data "rectangle" Py.VNone)));
           (u "success", Py.VBool true)])
      else None
  | None => None
  end.

(** [float(part) if len(loc) == 2 and part else None] (lines 174-175); the
    outer [None] is the [ValueError] of [float]. *)
Definition coordinate_of (loc : list str) (part : str) : option Py.value :=
  if (length loc =? 2)%nat && PyStr.truthy part then
    match Py.float_of_str rt part with
    | Some x => Some (Py.VFloat x)
    | None => None
    end
  else Some Py.VNone.

(** The record of the first free provider (lines 169-188). *)
Definition ipinfo_location (ip_address : Py.value) (r : option response)
  : option Py.value :=
  match answer r with
  | Some data =>
      if Py.truthy (Py.or_else (Py.field data "city" Py.VNone) (Py.field data "region" Py.VNone)) then
        match Py.field data "loc" empty with
        | Py.VStr s =>
            let loc := split 0x2C s in
            match coordinate_of loc (nth 0 loc []) with
            | Some latitude =>
                match coordinate_of loc (nth 1 loc []) with
                | Some longitude =>
                    Some (Py.VDict
                      [(u "city", Py.field data "city" empty);
                       (u "region", Py.field data "region" empty);
                       (u "country", Py.field data "country" empty);
                       (u "country_code", Py.field data "country" empty);
                       (u "ip", Py.field data "ip" ip_address);
                       (u "latitude", latitude);
                       (u "longitude", longitude);
                       (u "timezone", Py.field data "timezone" empty);
                       (u "isp", Py.field data "org" empty);
                       (u "success", Py.VBool true)])
                | None => None
                end
            | None => None
            end
        | _ => None
        end
      else None
  | None => None
  end.

(** The record of the second free provider (lines 211-225). *)
Definition ipapi_location (ip_address : Py.value) (r : option response)
  : option Py.value :=
  match answer r with
  | Some data =>
      if negb (Py.truthy (Py.field data "error" Py.VNone)) then
        Some (Py.VDict
          [(u "city", Py.field data "city" empty);
           (u "region", Py.field data "region" empty);
           (u "country", Py.field data "country_name" empty);
           (u "country_code", Py.field data "country_code" empty);
           (u "ip", Py.field data "ip" ip_address);
           (u "latitude", Py.field data "latitude" Py.VNone);
           (u "longitude", Py.field data "longitude" Py.VNone);
           (u "timezone", Py.field data "timezone" empty);
           (u "isp", Py.field data "org" empty);
           (u "success", Py.VBool true)])
      else None
  | None => None
  end.

(** The record of the last provider (lines 259-273). *)
Definition ipsb_location (ip_address : Py.value) (r : option response)
  : option Py.value :=
  match answer r with
  | Some data =>
      if Py.truthy (Py.or_else (Py.field data "city" Py.VNone) (Py.field data "region" Py.VNone)) then
        Some (Py.VDict
          [(u "city", Py.field data "city" empty);
           (u "region", Py.field data "region" empty);
           (u "country", Py.field data "country" empty);
           (u "country_code", Py.field data "country_code" empty);
           (u "ip", Py.field data "ip" (Py.or_else ip_address empty));
           (u "latitude", Py.field data "latitude" Py.VNone);
           (u "longitude", Py.field data "longitude" Py.VNone);
           (u "timezone", Py.field data "timezone" empty);
           (u "isp", Py.field data "isp" empty);
           (u "success", Py.VBool true)])
      else None
  | None => None
  end.

(** The record of a failed resolution (lines 280-287). *)
Definition no_location (ip_address : Py.value) : Py.value :=
  Py.VDict
    [(u "city", empty);
     (u "region", empty);
     (u "country", empty);
     (u "country_code", empty);
     (u "ip", Py.or_else ip_address empty);
     (u "success", Py.VBool false)].

(** [_get_location_fallback] (lines 241-287). *)
Definition _get_location_fallback (ip_address : Py.value) : io Py.value :=
  let url :=
    if Py.truthy ip_address
    then u "https://api.ip.sb/geoip/" ++ Py.to_str rt ip_address
    else u "https://api.ip.sb/geoip" in
  let! r := requests_get e
              {| url := url; params := []; headers := user_agent; timeout := 5 |} in
  match ipsb_location ip_address r with
  | Some location_result => ret location_result
  | None => ret (no_location ip_address)
  end.

(** The check of the IP cache (lines 98-106). *)
Definition cached_location (cache_key : Py.value) : io (option Py.value) :=
  let! c := get_location_cache in
  match Dict.lookup Py.key_eqb cache_key c with
  | Some _ =>
      let! now := time e in
      let! _ := set_location_cache (snd (Cache.get Py.key_eqb now cache_key c)) in
      ret (fst (Cache.get Py.key_eqb now cache_key c))
  | None => ret None
  end.

(** The write of an accepted record (lines 149-153, 191-195, 228-232). *)
Definition store_location (ip_address location_result : Py.value) : io Py.value :=
  let! now := time e in
  let! c := get_location_cache in
  let! _ := set_location_cache (Cache.put Py.key_eqb 100 now ip_address location_result c) in
  ret location_result.

(** Lines 97-239: the resolution of a known address. A key that cannot be
    hashed raises at the check of the cache. *)
Definition locate (ip_address : Py.value) : io (Py.result Py.value) :=
  if negb (Py.hashable ip_address) then ret (Py.Raise Py.TypeError)
  else
    let! hit := cached_location ip_address in
    match hit with
    | Some result => ret (Py.Ok result)
    | None =>
        let api_key := AMAP_API_KEY e in
        let! first :=
          (if PyStr.truthy api_key then
             let! r := requests_get e
                         {| url := u "https://restapi.amap.com/v3/ip?ip="
                                   ++ Py.to_str rt ip_address ++ u "&key=" ++ api_key;
                            params := []; headers := []; timeout := 5 |} in
             ret (amap_location ip_address r)
           else ret None) in
        match first with
        | Some location_result =>
            let! l := store_location ip_address location_result in ret (Py.Ok l)
        | None =>
            let! r := requests_get e
                        {| url := u "https://ipinfo.io/" ++ Py.to_str rt ip_address ++ u "/json";
                           params := []; headers := user_agent; timeout := 5 |} in
            match ipinfo_location ip_address r with
            | Some location_result =>
                let! l := store_location ip_address location_result in ret (Py.Ok l)
            | None =>
                let! r := requests_get e
                            {| url := u "https://ipapi.co/" ++ Py.to_str rt ip_address ++ u "/json/";
                               params := []; headers := user_agent; timeout := 5 |} in
                match ipapi_location ip_address r with
                | Some location_result =>
                    let! l := store_location ip_address location_result in ret (Py.Ok l)
                | None =>
                    let! l := _get_location_fallback ip_address in ret (Py.Ok l)
                end
            end
        end
    end.

Definition get_location_by_ip (ip_address : Py.value) : io (Py.result Py.value) :=
  if Py.truthy ip_address then locate ip_address
  else
    let! ip := get_public_ip in
    if Py.truthy ip then locate ip
    else let! l := _get_location_fallback Py.VNone in ret (Py.Ok l).

(** *** [get_hospital_location] (lines 289-398) *)

(** [a or b] and [bool(a)] on an optional string. *)
Definition opt_truthy (a : option str) : bool :=
  match a with Some s => PyStr.truthy s | None => false end.

Definition opt_or (a b : option str) : option str :=
  if opt_truthy a then a else b.

Definition opt_str (a : option str) : str :=
  match a with Some s => s | None => [] end.

(** The record that the answer of the geocoder yields (lines 346-379). *)
Definition geocode_location (r : option response) : option Py.value :=
  match answer r with
  | Some data =>
      if Py.eq_str (Py.field data "status" Py.VNone) (u "1")
         && negb (Py.eq_str (Py.field data "count" Py.VNone) (u "0")) then
        match Py.field data "geocodes" (Py.VList [Py.VDict []]) with
        | Py.VList (Py.VDict geocode :: _) =>
            match Py.field geocode "location" empty with
            | Py.VStr location_str =>
                match split 0x2C location_str with
                | [a; b] =>
                    if PyStr.truthy location_str then
                      match Py.float_of_str rt a, Py.float_of_str rt b with
                      | Some lon, Some lat =>
                          Some (Py.VDict
                            [(u "city", Py.field geocode "city" empty);
                             (u "region", Py.field geocode "province" empty);
                             (u "district", Py.field geocode "district" empty);
                             (u "formatted_address", Py.field geocode "formatted_address" empty);
                             (u "latitude", Py.VFloat lat);
                             (u "longitude", Py.VFloat lon);
                             (u "success", Py.VBool true)])
                      | _, _ => None
                      end
                    else None
                | _ => None
                end
            | _ => None
            end
        | _ => None
        end
      else None
  | None => None
  end.

(** The check of the venue cache (lines 318-325). *)
Definition cached_hospital (cache_key : str) : io (option Py.value) :=
  let! c := get_hospital_cache in
  match Dict.lookup PyStr.eqb cache_key c with
  | Some _ =>
      let! now := time e in
      let! _ := set_hospital_cache (snd (Cache.get PyStr.eqb now cache_key c)) in
      ret (fst (Cache.get PyStr.eqb now cache_key c))
  | None => ret None
  end.

(** The write of a geocode (lines 383-387). *)
Definition store_hospital (cache_key : str) (location_result : Py.value) : io Py.value :=
  let! now := time e in
  let! c := get_hospital_cache in
  let! _ := set_hospital_cache (Cache.put PyStr.eqb 200 now cache_key location_result c) in
  ret location_result.

Definition get_hospital_location (hospital_name project_name city : option str)
  : io Py.value :=
  let api_key := AMAP_API_KEY e in
  if negb (PyStr.truthy api_key) then ret Py.VNone
  else
    let query_keyword := opt_or hospital_name project_name in
    if negb (opt_truthy query_keyword) then ret Py.VNone
    else
      let cache_key := opt_str query_keyword ++ u "_" ++ opt_str (opt_or city (Some [])) in
      let! hit := cached_hospital cache_key in
      match hit with
      | Some result => ret result
      | None =>
          let query_keyword :=
            if opt_truthy city then opt_str city ++ opt_str query_keyword
            else opt_str query_keyword in
          let! r := requests_get e
                      {| url := u "https://restapi.amap.com/v3/geocode/geo";
                         params := [(u "key", api_key);
                                    (u "address", query_keyword);
                                    (u "output", u "json")];
                         headers := []; timeout := 5 |} in
          match geocode_location r with
          | Some location_result => store_hospital cache_key location_result
          | None => ret Py.VNone
          end
      end.

End Resolver.

End Resolver.

(** ** The distance and the matcher (lines 400-715) *)

Module Matcher.

Section Matcher.
Variable rt : Py.runtime.

(** [math.radians(v)] *)
Definition math_radians (v : Py.value) : Py.result float :=
  let* x := Py.as_float v in Py.Ok (radians x).

Definition sin (x : float) : Py.result float := Py.or_raise Py.ValueError (Py.math_sin rt x).
Definition cos (x : float) : Py.result float := Py.or_raise Py.ValueError (Py.math_cos rt x).
Definition asin (x : float) : Py.result float := Py.or_raise Py.ValueError (Py.math_asin rt x).
Definition sqrt (x : float) : Py.result float := Py.or_raise Py.ValueError (Py.math_sqrt rt x).
Definition pow (x y : float) : Py.result float := Py.or_raise Py.OverflowError (Py.float_pow rt x y).

(** [calculate_distance] (lines 400-429): [None] when a coordinate is
    missing, the haversine distance in kilometres otherwise. *)
Definition calculate_distance (lat1 lon1 lat2 lon2 : Py.value) : Py.result (option float) :=
  if negb (forallb Py.truthy [lat1; lon1; lat2; lon2]) then Py.Ok None
  else
    let* lat1_rad := math_radians lat1 in
    let* lat2_rad := math_radians lat2 in
    let* dlat := Py.sub lat2 lat1 in
    let* delta_lat := math_radians dlat in
    let* dlon := Py.sub lon2 lon1 in
    let* delta_lon := math_radians dlon in
    let* sin_lat := sin (fdiv delta_lat f2) in
    let* sin_lat2 := pow sin_lat f2 in
    let* cos1 := cos lat1_rad in
    let* cos2 := cos lat2_rad in
    let* sin_lon := sin (fdiv delta_lon f2) in
    let* sin_lon2 := pow sin_lon f2 in
    let a := fadd sin_lat2 (fmul (fmul cos1 cos2) sin_lon2) in
    let* root := sqrt a in
    let* angle := asin root in
    let c := fmul f2 angle in
    let R := f6371 in
    Py.Ok (Some (fmul R c)).

(** The removal of the administrative suffixes (lines 496-497, 587-588, 658). *)
Definition normalize_city (s : str) : str :=
  replace (u "盟") []
    (replace (u "地区") []
      (replace (u "自治州") []
        (replace (u "区") []
          (replace (u "县") []
            (replace (u "市") [] s))))).

Definition normalize_region (s : str) : str :=
  replace (u "壮族") []
    (replace (u "回族") []
      (replace (u "维吾尔") []
        (replace (u "特别行政区") []
          (replace (u "自治区") []
            (replace (u "市") []
              (replace (u "省") [] s)))))).

Definition lower (s : str) : str := Py.str_lower rt s.

(** A field of the client's record as a clean string (lines 459-482). *)
Definition text_of (raw : Py.value) : str :=
  strip
    match raw with
    | Py.VList (x :: _) => Py.to_str rt x
    | Py.VList [] => []
    | _ => if Py.truthy raw then Py.to_str rt raw else []
    end.

(** What the matcher keeps of the client's location (lines 484-502). *)
Record client := {
  ip_city_lower : str;
  ip_region_lower : str;
  ip_country_lower : str;
  ip_city_normalized : str;
  ip_region_normalized : str;
  ip_lat : Py.value;
  ip_lon : Py.value
}.

Definition client_of (location_info : list (str * Py.value)) : client :=
  let ip_city := text_of (Py.field location_info "city" (Py.VStr [])) in
  let ip_region := text_of (Py.field location_info "region" (Py.VStr [])) in
  let ip_country := text_of (Py.field location_info "country" (Py.VStr [])) in
  {| ip_city_lower := lower ip_city;
     ip_region_lower := lower ip_region;
     ip_country_lower := lower ip_country;
     ip_city_normalized := normalize_city (lower ip_city);
     ip_region_normalized := normalize_region (lower ip_region);
     ip_lat := Py.field location_info "latitude" Py.VNone;
     ip_lon := Py.field location_info "longitude" Py.VNone |}.

(** Line 500. *)
Definition is_vpn (c : client) : bool :=
  PyStr.truthy (ip_country_lower c)
  && negb (contains (u "china") (ip_country_lower c))
  && negb (contains (u "中国") (ip_country_lower c)).

(** A candidate, as [Project.to_dict] gives it; the fields are named as the
    variables that hold them. *)
Record project := {
  project_id : Z;
  project_name : option str;
  hospital_name : option str;
  project_region : option str
}.

(** [(project.get(k) or '').strip()] *)
Definition clean (field : option str) : str :=
  strip (match field with
         | Some s => if PyStr.truthy s then s else []
         | None => []
         end).

(** Lines 508-515. *)
Definition valid (p : project) : bool :=
  PyStr.truthy (clean (project_name p)) || PyStr.truthy (clean (hospital_name p)).

(** [v.strip()] of a value taken from a geocode (lines 579-580). *)
Definition str_strip (v : Py.value) : Py.result str :=
  match v with
  | Py.VStr s => Py.Ok (strip s)
  | _ => Py.Raise Py.AttributeError
  end.

(** The four tiers of a comparison of two names, [a] and [b] lowered, [an] and
    [bn] normalized (lines 591-608 for the city, 611-628 for the region). *)
Definition tier (exact normalized_exact part normalized_part : Z)
  (a an b bn : str) : Z :=
  if PyStr.truthy a && PyStr.truthy b then
    if PyStr.eqb a b then exact
    else if PyStr.truthy an && PyStr.truthy bn && PyStr.eqb an bn then normalized_exact
    else if contains a b || contains b a then part
    else if PyStr.truthy an && PyStr.truthy bn then
      if contains an bn || contains bn an then normalized_part else 0
    else 0
  else 0.

Definition city_tier (c : client) (hospital_city_lower : str) : Z :=
  tier 50 45 40 35
    (ip_city_lower c) (ip_city_normalized c)
    hospital_city_lower (normalize_city hospital_city_lower).

Definition region_tier (c : client) (hospital_region_lower : str) : Z :=
  tier 30 25 20 15
    (ip_region_lower c) (ip_region_normalized c)
    hospital_region_lower (normalize_region hospital_region_lower).

(** Lines 640-651. *)
Definition distance_tier (distance_km : float) : Z :=
  if fle distance_km (of_int 10) then 30
  else if fle distance_km (of_int 50) then 20
  else if fle distance_km (of_int 100) then 10
  else if fle distance_km (of_int 200) then 5
  else 0.

(** The score and the distance of a candidate with a geocode (lines 578-652). *)
Definition score_geocoded (c : client) (hospital_location : list (str * Py.value))
  : Py.result (Z * option float) :=
  let* hospital_city := str_strip (Py.field hospital_location "city" (Py.VStr [])) in
  let* hospital_region := str_strip (Py.field hospital_location "region" (Py.VStr [])) in
  let hospital_lat := Py.field hospital_location "latitude" Py.VNone in
  let hospital_lon := Py.field hospital_location "longitude" Py.VNone in
  let score := city_tier c (lower hospital_city) + region_tier c (lower hospital_region) in
  if Py.truthy (ip_lat c) && Py.truthy (ip_lon c)
     && Py.truthy hospital_lat && Py.truthy hospital_lon then
    let* distance_km := calculate_distance (ip_lat c) (ip_lon c) hospital_lat hospital_lon in
    match distance_km with
    | Some d => Py.Ok (score + distance_tier d, Some d)
    | None => Py.Ok (score, None)
    end
  else Py.Ok (score, None).

(** The score of a candidate without a geocode (lines 654-683). *)
Definition hint_tier (c : client) (project_region_lower : str) : Z :=
  let project_region_normalized := normalize_city project_region_lower in
  if PyStr.truthy (ip_city_lower c) && PyStr.truthy project_region_lower then
    if PyStr.eqb (ip_city_lower c) project_region_lower then 30
    else if contains (ip_city_lower c) project_region_lower
            || contains project_region_lower (ip_city_lower c) then 25
    else if PyStr.truthy (ip_city_normalized c) && PyStr.truthy project_region_normalized then
      if PyStr.eqb (ip_city_normalized c) project_region_normalized then 28
      else if contains (ip_city_normalized c) project_region_normalized
              || contains project_region_normalized (ip_city_normalized c) then 22
      else 0
    else 0
  else 0.

Definition name_points (points : Z) (normalized search_text : str) : Z :=
  if PyStr.truthy normalized && (2 <=? length normalized)%nat
     && contains normalized search_text
  then points else 0.

Definition score_text (c : client) (p : project) : Z :=
  let project_region := clean (project_region p) in
  let project_region_lower :=
    if PyStr.truthy project_region then lower project_region else [] in
  let search_text := lower (clean (project_name p) ++ u " " ++ clean (hospital_name p)) in
  hint_tier c project_region_lower
  + name_points 15 (ip_city_normalized c) search_text
  + name_points 10 (ip_region_normalized c) search_text.

(** [int(score * 0.7)] (line 688). *)
Definition vpn_score (score : Z) : Py.result Z :=
  let* x := Py.as_float (Py.VInt score) in
  match to_int (fmul x f0_7) with
  | Some z => Py.Ok z
  | None => Py.Raise (if is_nan (fmul x f0_7) then Py.ValueError else Py.OverflowError)
  end.

(** [hospital_location and hospital_location.get('success')] (line 577): the
    items of a geocode that succeeded. *)
Definition geocode_of (hospital_location : Py.value)
  : Py.result (option (list (str * Py.value))) :=
  match hospital_location with
  | Py.VDict items =>
      Py.Ok (if Py.truthy hospital_location && Py.truthy (Py.field items "success" Py.VNone)
             then Some items else None)
  | _ => if Py.truthy hospital_location then Py.Raise Py.AttributeError else Py.Ok None
  end.

(** [hospital_locations]: the geocode of each candidate by its id. *)
Abbreviation locations := (gmap Z Py.value).

(** The tiers before the penalty (lines 571-683). *)
Definition raw_score (c : client) (hospital_locations : locations) (p : project)
  : Py.result (Z * option float) :=
  let hospital_location := default Py.VNone (hospital_locations !! project_id p) in
  let* geocode := geocode_of hospital_location in
  match geocode with
  | Some items => score_geocoded c items
  | None => Py.Ok (score_text c p, None)
  end.

(** The final score and the distance of a candidate (lines 563-691). *)
Definition score_project (c : client) (hospital_locations : locations) (p : project)
  : Py.result (Z * option float) :=
  let* sd := raw_score c hospital_locations p in
  let* score := (if is_vpn c then vpn_score (fst sd) else Py.Ok (fst sd)) in
  Py.Ok (score, snd sd).

(** An element of [matched_projects] (lines 695-699). *)
Record matched := {
  project_of : project;
  score : Z;
  distance_km : option float
}.

(** The loop of lines 563-702: the candidates are scored in their order and
    those that reach the threshold are kept; the first exception ends it. *)
Fixpoint score_all (c : client) (hospital_locations : locations)
  (valid_projects : list project) : Py.result (list matched) :=
  match valid_projects with
  | [] => Py.Ok []
  | p :: rest =>
      let* sd := score_project c hospital_locations p in
      let* matched_projects := score_all c hospital_locations rest in
      Py.Ok (if fst sd >=? 10
             then {| project_of := p; score := fst sd; distance_km := snd sd |}
                  :: matched_projects
             else matched_projects)
  end.

(** The key of the sort (lines 705-708). *)
Definition sort_key (m : matched) : Z * float :=
  (- score m, match distance_km m with Some d => d | None => inf end).

(** [a < b] on the keys, as tuples compare: the first components that differ
    decide. *)
Definition key_lt (a b : Z * float) : bool :=
  if fst a =? fst b then
    if feq (snd a) (snd b) then false else flt (snd a) (snd b)
  else fst a <? fst b.

(** [list.sort(key=...)] is a stable sort by [<] on the keys; on keys that
    [<] orders (no NaN among them) its result is that of this insertion sort. *)
Fixpoint insert (x : matched) (l : list matched) : list matched :=
  match l with
  | [] => [x]
  | y :: l' =>
      if key_lt (sort_key y) (sort_key x) then y :: insert x l' else x :: y :: l'
  end.

Definition sort (l : list matched) : list matched := foldr insert [] l.

(** [hospital_locations] as the loop of lines 549-557 fills it from the
    lookups in the order of their completion. *)
Definition collect (completed : list (project * Py.value)) : locations :=
  foldl (fun m ph => <[project_id (fst ph) := snd ph]> m) ∅ completed.

(** The ranked elements of [matched_projects] (lines 454-708), given the
    lookups that the worker threads completed. *)
Definition ranked (location_info : Py.value) (projects : list project)
  (completed : list (project * Py.value)) : Py.result (list matched) :=
  match location_info with
  | Py.VDict info =>
      if negb (Py.truthy (Py.field info "success" Py.VNone)) then Py.Ok []
      else
        let c := client_of info in
        let valid_projects := List.filter valid projects in
        match valid_projects with
        | [] => Py.Ok []
        | _ :: _ =>
            let* matched_projects := score_all c (collect completed) valid_projects in
            Py.Ok (sort matched_projects)
        end
  | _ => Py.Raise Py.AttributeError
  end.

(** [match_projects_by_location] (lines 431-715). *)
Definition match_projects_by_location (location_info : Py.value)
  (projects : list project) (completed : list (project * Py.value))
  : Py.result (list project) :=
  let* matched_projects := ranked location_info projects completed in
  Py.Ok (List.map project_of matched_projects).

(** The task of a worker thread (lines 524-537). *)
Definition query_hospital_location (e : env) (p : project) : io (project * Py.value) :=
  let! hospital_location :=
    Resolver.get_hospital_location rt e
      (Some (clean (hospital_name p)))
      (Some (clean (project_name p)))
      (Some (clean (project_region p))) in
  ret (p, hospital_location).

End Matcher.

End Matcher.

(** ** The worker threads (lines 539-557)

    [match_projects_by_location] hands the lookups of the candidates to a
    pool of five threads, which share [_hospital_cache] without a lock: a
    thread can be suspended between any two statements of
    [get_hospital_location]. A [point] is where a thread stands in this
    function, with the local variables that it still needs; [step] executes
    the statements up to the next one that reads or writes the cache, the
    clock or the network. *)

Module Workers.

Import Resolver Matcher.

Inductive point :=
| Called (hospital_name project_name city : option str)          (* line 303 *)
| Reading (cache_key address : str)                               (* line 319 *)
| Comparing (cache_key address : str) (result : Py.value) (timestamp : float)
                                                                  (* line 320 *)
| Expiring (cache_key address : str)                              (* line 325 *)
| Requesting (cache_key address : str)                            (* line 345 *)
| Storing (cache_key : str) (location_result : Py.value)          (* line 383 *)
| Measuring (location_result : Py.value)                          (* line 385 *)
| Choosing (location_result : Py.value)                           (* line 386 *)
| Deleting (location_result : Py.value) (oldest_key : str)        (* line 387 *)
| Returned (result : Py.value)
| Raised (exception : Py.exn).

Section Workers.
Variable rt : Py.runtime.
Variable e : env.

(** The next statement of a thread. The [KeyError] of lines 319 and 325 is
    raised outside the [try] and ends the task; the [ValueError] of line 386
    and the [KeyError] of line 387 are caught at line 394, after which the
    function returns [None] (line 398). *)
Definition step (at_point : point) : io point :=
  match at_point with
  | Called hospital_name project_name city =>
      let api_key := AMAP_API_KEY e in
      if negb (PyStr.truthy api_key) then ret (Returned Py.VNone)
      else
        let query_keyword := opt_or hospital_name project_name in
        if negb (opt_truthy query_keyword) then ret (Returned Py.VNone)
        else
          let cache_key := opt_str query_keyword ++ u "_" ++ opt_str (opt_or city (Some [])) in
          let address :=
            if opt_truthy city then opt_str city ++ opt_str query_keyword
            else opt_str query_keyword in
          let! c := get_hospital_cache in
          match Dict.lookup PyStr.eqb cache_key c with
          | Some _ => ret (Reading cache_key address)
          | None => ret (Requesting cache_key address)
          end
  | Reading cache_key address =>
      let! c := get_hospital_cache in
      match Dict.lookup PyStr.eqb cache_key c with
      | Some (result, timestamp) => ret (Comparing cache_key address result timestamp)
      | None => ret (Raised Py.KeyError)
      end
  | Comparing cache_key address result timestamp =>
      let! now := time e in
      if Cache.fresh now timestamp then ret (Returned result)
      else ret (Expiring cache_key address)
  | Expiring cache_key address =>
      let! c := get_hospital_cache in
      match Dict.lookup PyStr.eqb cache_key c with
      | Some _ =>
          let! _ := set_hospital_cache (Dict.del PyStr.eqb cache_key c) in
          ret (Requesting cache_key address)
      | None => ret (Raised Py.KeyError)
      end
  | Requesting cache_key address =>
      let! r := requests_get e
                  {| url := u "https://restapi.amap.com/v3/geocode/geo";
                     params := [(u "key", AMAP_API_KEY e);
                                (u "address", address);
                                (u "output", u "json")];
                     headers := []; timeout := 5 |} in
      match geocode_location rt r with
      | Some location_result => ret (Storing cache_key location_result)
      | None => ret (Returned Py.VNone)
      end
  | Storing cache_key location_result =>
      let! now := time e in
      let! c := get_hospital_cache in
      let! _ := set_hospital_cache (Dict.set PyStr.eqb cache_key (location_result, now) c) in
      ret (Measuring location_result)
  | Measuring location_result =>
      let! c := get_hospital_cache in
      if Dict.len c >? 200 then ret (Choosing location_result)
      else ret (Returned location_result)
  | Choosing location_result =>
      let! c := get_hospital_cache in
      match Cache.oldest_key c with
      | Some oldest_key => ret (Deleting location_result oldest_key)
      | None => ret (Returned Py.VNone)
      end
  | Deleting location_result oldest_key =>
      let! c := get_hospital_cache in
      match Dict.lookup PyStr.eqb oldest_key c with
      | Some _ =>
          let! _ := set_hospital_cache (Dict.del PyStr.eqb oldest_key c) in
          ret (Returned location_result)
      | None => ret (Returned Py.VNone)
      end
  | Returned _ | Raised _ => ret at_point
  end.

(** [n] statements of one thread in a row. *)
Fixpoint steps (n : nat) (at_point : point) : io point :=
  match n with
  | O => ret at_point
  | S n' => let! next := step at_point in steps n' next
  end.

(** The pool: the candidates whose task no thread has taken yet, the tasks
    that the threads are at, and the lookups that the loop of lines 549-557
    has recorded, in the order of their completion. *)
Record pool := {
  waiting : list project;
  working : list (project * point);
  recorded : list (project * Py.value)
}.

(** The call of [query_hospital_location] for a candidate (lines 524-535). *)
Definition task (p : project) : project * point :=
  (p, Called (Some (clean (hospital_name p)))
             (Some (clean (project_name p)))
             (Some (clean (project_region p)))).

(** Lines 543-547: at most [_max_workers] tasks are in progress. *)
Definition submit (valid_projects : list project) : pool :=
  {| waiting := drop (Z.to_nat Cache._max_workers) valid_projects;
     working := List.map task (take (Z.to_nat Cache._max_workers) valid_projects);
     recorded := [] |}.

(** The thread [i] is through with the candidate [p]: the lookup is recorded
    (lines 551-552, or 557 with [None] after an exception) and the thread
    takes the next task, if one is waiting. *)
Definition hand_over (i : nat) (p : project) (hospital_location : Py.value) (s : pool)
  : pool :=
  match waiting s with
  | next :: rest =>
      {| waiting := rest;
         working := <[i := task next]> (working s);
         recorded := recorded s ++ [(p, hospital_location)] |}
  | [] =>
      {| waiting := [];
         working := delete i (working s);
         recorded := recorded s ++ [(p, hospital_location)] |}
  end.

(** The thread [i] executes its next statement. *)
Definition move (i : nat) (s : pool) : io pool :=
  match working s !! i with
  | None => ret s
  | Some (p, at_point) =>
      let! next := step at_point in
      match next with
      | Returned hospital_location => ret (hand_over i p hospital_location s)
      | Raised _ => ret (hand_over i p Py.VNone s)
      | _ => ret {| waiting := waiting s;
                    working := <[i := (p, next)]> (working s);
                    recorded := recorded s |}
      end
  end.

(** The threads move in the order [schedule]. *)
Fixpoint run (schedule : list nat) (s : pool) : io pool :=
  match schedule with
  | [] => ret s
  | i :: rest => let! s' := move i s in run rest s'
  end.

End Workers.

End Workers.

(** ** Notions used in the statements *)

Module Facts.

(** The place of a float that is not a NaN in the order of the floats: the
    comparisons of [SpecFloat] are the lexicographic order of these triples. *)
Definition rank (x : float) : Z * Z * Z :=
  match x with
  | S754_infinity true => (-2, 0, 0)
  | S754_finite true m e => (-1, - e, - Zpos m)
  | S754_zero _ => (0, 0, 0)
  | S754_finite false m e => (1, e, Zpos m)
  | S754_infinity false => (2, 0, 0)
  | S754_nan => (3, 0, 0)
  end.

Definition lex_lt (a b : Z * Z * Z) : Prop :=
  fst (fst a) < fst (fst b)
  \/ fst (fst a) = fst (fst b)
     /\ (snd (fst a) < snd (fst b) \/ snd (fst a) = snd (fst b) /\ snd a < snd b).

(** The timestamp of an entry of a cache. *)
Definition stamp {K} (item : K * (Py.value * float)) : float := snd (snd item).

(** [m] was inserted before [x]; [m] was not inserted after [x]. *)
Definition older {K} (m x : K * (Py.value * float)) : Prop :=
  flt (stamp m) (stamp x) = true.

Definition not_younger {K} (m x : K * (Py.value * float)) : Prop :=
  fle (stamp m) (stamp x) = true.

(** The entries of a cache are in order: the keys are distinct and hashable
    and the timestamps are numbers. *)
Record entries_ok {K} (keq : K -> K -> bool) (c : Cache.cache K) : Prop := {
  keys_distinct : NoDup (List.map fst c);
  keys_hashable : Forall (fun item => keq (fst item) (fst item) = true) c;
  stamps_numbers : Forall (fun item => is_nan (stamp item) = false) c
}.

(** A cache in order holds at most [max_entries] entries. *)
Definition cache_ok {K} (keq : K -> K -> bool) (max_entries : Z) (c : Cache.cache K) : Prop :=
  entries_ok keq c /\ Dict.len c <= max_entries.

(** A boolean equality of keys that holds of equal keys only. *)
Definition sound {K} (keq : K -> K -> bool) : Prop :=
  forall a b, keq a b = true -> a = b.

(** The caches of a world are in order. *)
Definition world_ok (w : world) : Prop :=
  cache_ok Py.key_eqb 100 (_location_cache w)
  /\ cache_ok PyStr.eqb 200 (_hospital_cache w).

(** The clock of an environment gives numbers. *)
Definition clock_ok (e : env) : Prop :=
  forall n, is_nan (time_time e n) = false.

(** The clock of an environment is not behind the entries of the IP cache. *)
Definition clock_ahead (e : env) (w : world) : Prop :=
  forall n item, In item (_location_cache w) -> fle (stamp item) (time_time e n) = true.

(** The requests of a run: those sent between two worlds. *)
Definition requests_of (w w' : world) : list request :=
  drop (length (sent w)) (sent w').

(** A request to the last provider of the chain. *)
Definition to_last_provider (rq : request) : bool :=
  startswith (url rq) (u "https://api.ip.sb/geoip").

(** The world [w2] comes after [w]: no entry was added to the IP cache, the
    venue cache is the same, and the requests [new] were sent. *)
Definition after (w w2 : world) (new : list request) : Prop :=
  (forall item, In item (_location_cache w2) -> In item (_location_cache w))
  /\ _hospital_cache w2 = _hospital_cache w
  /\ sent w2 = sent w ++ new.

Definition not_last (rq : request) : Prop := to_last_provider rq = false.

(** The requests of the chain for the address [ip] (lines 112, 166, 206 and
    252). *)
Definition amap_request (rt : Py.runtime) (e : env) (ip : Py.value) : request :=
  {| url := u "https://restapi.amap.com/v3/ip?ip=" ++ Py.to_str rt ip
            ++ u "&key=" ++ AMAP_API_KEY e;
     params := []; headers := []; timeout := 5 |}.

Definition ipinfo_request (rt : Py.runtime) (ip : Py.value) : request :=
  {| url := u "https://ipinfo.io/" ++ Py.to_str rt ip ++ u "/json";
     params := []; headers := Resolver.user_agent; timeout := 5 |}.

Definition ipapi_request (rt : Py.runtime) (ip : Py.value) : request :=
  {| url := u "https://ipapi.co/" ++ Py.to_str rt ip ++ u "/json/";
     params := []; headers := Resolver.user_agent; timeout := 5 |}.

Definition ipsb_request (rt : Py.runtime) (ip : Py.value) : request :=
  {| url := u "https://api.ip.sb/geoip/" ++ Py.to_str rt ip;
     params := []; headers := Resolver.user_agent; timeout := 5 |}.

(** The first record of a list of results of providers, [d] without one. *)
Fixpoint first_accepted (l : list (option Py.value)) (d : Py.value) : Py.value :=
  match l with
  | [] => d
  | Some v :: _ => v
  | None :: l => first_accepted l d
  end.

(** What the chain yields for [ip] when [n] requests were sent before: the
    keyed provider is asked when there is a key, then the two free providers,
    then the last one, each with the next request of the run. *)
Definition chain_result (rt : Py.runtime) (e : env) (ip : Py.value) (n : nat) : Py.value :=
  let keyed := PyStr.truthy (AMAP_API_KEY e) in
  let k := if keyed then S n else n in
  first_accepted
    [if keyed then Resolver.amap_location rt ip (http_get e n (amap_request rt e ip))
     else None;
     Resolver.ipinfo_location rt ip (http_get e k (ipinfo_request rt ip));
     Resolver.ipapi_location ip (http_get e (S k) (ipapi_request rt ip));
     Resolver.ipsb_location ip (http_get e (S (S k)) (ipsb_request rt ip))]
    (Resolver.no_location ip).

(** What a run of the resolver for the address [ip] guarantees: the caches
    stay in order, and a record that is returned without a request to the
    last provider is in the IP cache under [ip]. *)
Definition resolved (e : env) (ip : Py.value) (w : world) (r : Py.result Py.value)
  (w' : world) : Prop :=
  world_ok w'
  /\ _hospital_cache w' = _hospital_cache w
  /\ exists new,
       sent w' = sent w ++ new
       /\ forall v, r = Py.Ok v -> clock_ahead e w -> Forall not_last new ->
            exists t, Dict.lookup Py.key_eqb ip (_location_cache w') = Some (v, t).

(** A record that says where the address is: it succeeded and its city or its
    region is not empty. *)
Definition located (v : Py.value) : Prop :=
  exists items,
    v = Py.VDict items
    /\ Py.field items "success" Py.VNone = Py.VBool true
    /\ (Py.truthy (Py.field items "city" Py.VNone) = true
        \/ Py.truthy (Py.field items "region" Py.VNone) = true).

(** The squared sine of half a difference of angles in degrees, the term of
    [calculate_distance] for the latitudes and for the longitudes. *)
Definition half (rt : Py.runtime) (x : float) : Py.result float :=
  let* s := Matcher.sin rt (fdiv (radians x) f2) in Matcher.pow rt s f2.

(** The distance of an element is a number when it is known. *)
Definition distance_known (m : Matcher.matched) : Prop :=
  forall d, Matcher.distance_km m = Some d -> is_nan d = false.

(** [a] does not sort after [b]. *)
Definition key_le (a b : Matcher.matched) : Prop :=
  is_nan (snd (Matcher.sort_key a)) = false
  /\ is_nan (snd (Matcher.sort_key b)) = false
  /\ Matcher.key_lt (Matcher.sort_key b) (Matcher.sort_key a) = false.

(** [a] may stand before [b] in the ranking: its score is higher, or the
    scores are equal and its distance is not greater, an unknown distance
    counting as infinite. *)
Definition ranked_before (a b : Matcher.matched) : Prop :=
  Matcher.score b < Matcher.score a
  \/ Matcher.score a = Matcher.score b
     /\ match Matcher.distance_km a, Matcher.distance_km b with
        | Some x, Some y => fle x y = true
        | Some _, None => True
        | None, None => True
        | None, Some y => y = inf
        end.

(** The integer part of the product of a score between 0 and 110 and 0.7 in
    binary64: the product of 90 and 0.7 is rounded to the float before 63. *)
Definition penalized (s : Z) : Z := if s =? 90 then 62 else 7 * s / 10.

Definition vpn_agrees (s : Z) : bool :=
  match Matcher.vpn_score s with
  | Py.Ok z => z =? penalized s
  | Py.Raise _ => false
  end.

(** A geocode in [city] and [region] at the floats [lat] and [lon], neither of
    which is zero. *)
Definition venue_at (hospital_location : list (str * Py.value)) (city region : str)
  (lat lon : float) : Prop :=
  Py.field hospital_location "city" (Py.VStr []) = Py.VStr city
  /\ Py.field hospital_location "region" (Py.VStr []) = Py.VStr region
  /\ Py.field hospital_location "latitude" Py.VNone = Py.VFloat lat
  /\ Py.field hospital_location "longitude" Py.VNone = Py.VFloat lon
  /\ PyFloat.truthy lat = true /\ PyFloat.truthy lon = true.

(** [s] without the characters of [chars]. *)
Definition without (chars s : str) : str :=
  List.filter (fun ch => negb (existsb (N.eqb ch) chars)) s.

(** The haversine distance in kilometres of two points given in degrees on a
    sphere of radius 6371, as the specification names it:
    [6371 * 2 * asin (sqrt (sin² (dlat / 2) + cos lat1 * cos lat2 * sin² (dlon / 2)))],
    in binary64 and with the functions of the C library. *)
Definition haversine (rt : Py.runtime) (lat1 lon1 lat2 lon2 : float) : Py.result float :=
  let* sin_lat2 := half rt (fsub lat2 lat1) in
  let* cos1 := Matcher.cos rt (radians lat1) in
  let* cos2 := Matcher.cos rt (radians lat2) in
  let* sin_lon2 := half rt (fsub lon2 lon1) in
  let* root := Matcher.sqrt rt (fadd sin_lat2 (fmul (fmul cos1 cos2) sin_lon2)) in
  let* angle := Matcher.asin rt root in
  Py.Ok (fmul (of_int 6371) (fmul (of_int 2) angle)).

(** The cache [c'] is [c1] cut back to [max_entries] entries: [c1] itself when
    it holds no more than that, and otherwise [c1] without one entry, the
    first of those with the least timestamp, so that the entries before it
    are younger and those after it are not older. *)
Definition cut_back {K} (max_entries : Z) (c1 c' : Cache.cache K) : Prop :=
  (Dict.len c1 <= max_entries -> c' = c1)
  /\ (max_entries < Dict.len c1 ->
      exists l1 oldest l2,
        c1 = l1 ++ oldest :: l2 /\ c' = l1 ++ l2
        /\ Forall (older oldest) l1 /\ Forall (not_younger oldest) l2).

(** The tier of the city read without a condition on the normalized names:
    the first of the four comparisons that holds decides. *)
Definition claimed_city_tier (a b : str) : Z :=
  if PyStr.eqb a b then 50
  else if PyStr.eqb (Matcher.normalize_city a) (Matcher.normalize_city b) then 45
  else if contains a b || contains b a then 40
  else if contains (Matcher.normalize_city a) (Matcher.normalize_city b)
          || contains (Matcher.normalize_city b) (Matcher.normalize_city a) then 35
  else 0.

(** A key is or is not in a dictionary; an item is absent from a value. *)
Definition absent (v : Py.value) : Prop :=
  v = Py.VNone \/ v = Py.VInt 0 \/ exists s, v = Py.VFloat (S754_zero s).

(** A runtime for the examples: [str.lower] lowers the letters A to Z, the
    sine and the arc sine are the identity and the cosine is one (their
    approximations of the first order near zero), the square root is that of
    IEEE 754, [x ** y] is the square of [x], the only power that the code
    takes, and no string is read as a number. The examples that do not
    compute a distance from coordinates depend on [str.lower] alone. *)
Definition small_angle : Py.runtime :=
  {| Py.str_lower := ascii_lower;
     Py.repr := fun _ => [];
     Py.float_of_str := fun _ => None;
     Py.math_sin := fun x => Some x;
     Py.math_cos := fun _ => Some (of_int 1);
     Py.math_asin := fun x => Some x;
     Py.math_sqrt := fun x => if is_nan (fsqrt x) && negb (is_nan x) then None
                              else Some (fsqrt x);
     Py.float_pow := fun x _ => Some (fmul x x) |}.

(** What the theorems on the distance take from the C library: the sine is
    odd, the square is even, and zero is mapped to zero. *)
Record libm_ok (rt : Py.runtime) : Prop := {
  sin_odd : forall x, Py.math_sin rt (fopp x) = fopp <$> Py.math_sin rt x;
  square_even : forall x, Py.float_pow rt (fopp x) f2 = Py.float_pow rt x f2;
  sin_zero : Py.math_sin rt (S754_zero false) = Some (S754_zero false);
  square_zero : Py.float_pow rt (S754_zero false) f2 = Some (S754_zero false);
  sqrt_zero : Py.math_sqrt rt (S754_zero false) = Some (S754_zero false);
  asin_zero : Py.math_asin rt (S754_zero false) = Some (S754_zero false)
}.

End Facts.

(** ** Examples *)

Module Examples.

Import Matcher.

(** The float nearest to [n / 10000]. *)
Definition decimal4 (n : Z) : float := fdiv (of_int n) (of_int 10000).

Definition venue (city region : string) (latitude longitude : Z)
  : list (str * Py.value) :=
  [(u "city", Py.VStr (u city));
   (u "region", Py.VStr (u region));
   (u "district", Py.VStr []);
   (u "formatted_address", Py.VStr (u city));
   (u "latitude", Py.VFloat (decimal4 latitude));
   (u "longitude", Py.VFloat (decimal4 longitude));
   (u "success", Py.VBool true)].

Definition candidate (n : Z) (name hospital region : string) : project :=
  {| project_id := n;
     project_name := Some (u name);
     hospital_name := Some (u hospital);
     project_region := Some (u region) |}.

(** A client in the centre of Beijing, as the second free provider gives it. *)
Definition tiananmen : list (str * Py.value) :=
  [(u "city", Py.VStr (u "Beijing"));
   (u "region", Py.VStr (u "Beijing"));
   (u "country", Py.VStr (u "China"));
   (u "country_code", Py.VStr (u "CN"));
   (u "ip", Py.VStr (u "203.0.113.7"));
   (u "latitude", Py.VFloat (decimal4 399163));
   (u "longitude", Py.VFloat (decimal4 1163971));
   (u "timezone", Py.VStr (u "Asia/Shanghai"));
   (u "isp", Py.VStr []);
   (u "success", Py.VBool true)].

Definition near_venue : list (str * Py.value) := venue "北京市" "北京市" 399205 1164100.
Definition suburb_venue : list (str * Py.value) := venue "北京市" "北京市" 401000 1166500.
Definition far_venue : list (str * Py.value) := venue "上海市" "上海市" 312304 1214737.

Definition near_project : project := candidate 1 "协和医院信息化" "北京协和医院" "北京".
Definition suburb_project : project := candidate 2 "顺义区医院项目" "北京市顺义区医院" "北京".
Definition far_project : project := candidate 3 "瑞金医院项目" "上海瑞金医院" "上海".
Definition nameless_project : project :=
  {| project_id := 4; project_name := None; hospital_name := Some [];
     project_region := Some (u "北京") |}.

Definition some_projects : list project :=
  [far_project; suburb_project; nameless_project; near_project].

Definition some_lookups : list (project * Py.value) :=
  [(near_project, Py.VDict near_venue); (far_project, Py.VDict far_venue);
   (suburb_project, Py.VDict suburb_venue)].

(** The ranking of these candidates for a client in the centre of Beijing:
    the distances are those that the example runtime gives. *)
Definition some_ranking : list matched :=
  [{| project_of := near_project; score := 30;
      distance_km := Some (S754_finite false 6793798441819646 (-52)) |};
   {| project_of := suburb_project; score := 20;
      distance_km := Some (S754_finite false 4891602555089843 (-47)) |}].

(** Elements with equal scores, one of them without a distance. *)
Definition tied : list matched :=
  [{| project_of := far_project; score := 30; distance_km := None |};
   {| project_of := near_project; score := 30; distance_km := Some (of_int 3) |};
   {| project_of := suburb_project; score := 45; distance_km := None |}].

(** The first scenario: a client in "北京市" and a geocode in "北京", without
    regions and without coordinates of the client. *)
Definition scenario1_client : list (str * Py.value) :=
  [(u "city", Py.VStr (u "北京市"));
   (u "region", Py.VStr []);
   (u "country", Py.VStr []);
   (u "country_code", Py.VStr []);
   (u "ip", Py.VStr (u "203.0.113.7"));
   (u "success", Py.VBool true)].

Definition scenario1_venue : list (str * Py.value) :=
  [(u "city", Py.VStr (u "北京"));
   (u "region", Py.VStr []);
   (u "district", Py.VStr []);
   (u "formatted_address", Py.VStr (u "北京"));
   (u "latitude", Py.VFloat (decimal4 399042));
   (u "longitude", Py.VFloat (decimal4 1164074));
   (u "success", Py.VBool true)].

(** Two names made of administrative suffixes only. *)
Definition suffix_client : list (str * Py.value) :=
  [(u "city", Py.VStr (u "市区"));
   (u "region", Py.VStr []);
   (u "country", Py.VStr (u "中国"));
   (u "success", Py.VBool true)].

Definition suffix_venue : list (str * Py.value) :=
  [(u "city", Py.VStr (u "县"));
   (u "region", Py.VStr []);
   (u "success", Py.VBool true)].

(** The fourth scenario: a client abroad whose city contains that of the
    geocode. *)
Definition abroad_client : list (str * Py.value) :=
  [(u "city", Py.VStr (u "New York City"));
   (u "region", Py.VStr []);
   (u "country", Py.VStr (u "United States"));
   (u "success", Py.VBool true)].

Definition abroad_venue : list (str * Py.value) :=
  [(u "city", Py.VStr (u "New York"));
   (u "region", Py.VStr []);
   (u "success", Py.VBool true)].

(** A point on the equator. *)
Definition equator_lat : Py.value := Py.VFloat (S754_zero false).
Definition equator_lon : Py.value := Py.VFloat (decimal4 1000000).

(** A client in Pontianak, a hundredth of a degree north of the equator, and
    two positions of a venue on its meridian: three hundredths of a degree
    north, and on the equator itself. *)
Definition pontianak : list (str * Py.value) :=
  [(u "city", Py.VStr (u "Pontianak"));
   (u "region", Py.VStr (u "West Kalimantan"));
   (u "country", Py.VStr (u "Indonesia"));
   (u "latitude", Py.VFloat (decimal4 100));
   (u "longitude", Py.VFloat (decimal4 1093300));
   (u "success", Py.VBool true)].

Definition north_venue : list (str * Py.value) := venue "Pontianak" "" 300 1093300.
Definition equator_venue : list (str * Py.value) := venue "Pontianak" "" 0 1093300.

(** Environments without a key in which one provider answers, with one
    document, the requests whose address begins with [prefix], and a clock
    that advances by one second at each reading. *)
Definition answering (prefix : string) (document : list (str * Py.value)) (key : string)
  : env :=
  {| AMAP_API_KEY := u key;
     http_get := fun _ rq =>
       if startswith (url rq) (u prefix)
       then Some {| status_code := 200; text := []; json := Some (Py.VDict document) |}
       else None;
     time_time := fun n => of_int (1700000000 + Z.of_nat n) |}.

Definition empty_world : world :=
  {| _location_cache := []; _hospital_cache := []; sent := []; clock_reads := O |}.

Definition an_address : Py.value := Py.VStr (u "203.0.113.7").

(** An answer of the second free provider without any field. *)
Definition ipapi_empty : env := answering "https://ipapi.co/" [] "".

(** An answer of the last provider with a city. *)
Definition ipsb_paris : env :=
  answering "https://api.ip.sb/geoip" [(u "city", Py.VStr (u "Paris"))] "".

(** An answer of the first free provider with a city. *)
Definition ipinfo_hangzhou : env :=
  answering "https://ipinfo.io/"
    [(u "city", Py.VStr (u "Hangzhou")); (u "region", Py.VStr (u "Zhejiang"));
     (u "country", Py.VStr (u "CN"))] "".

(** A cache of three entries, the second of which is the oldest. *)
Definition three_entries : Cache.cache str :=
  [(u "a", (Py.VNone, of_int 30)); (u "b", (Py.VNone, of_int 10));
   (u "c", (Py.VNone, of_int 20))].

End Examples.

(** ** Further notions: the requests, the records and the worlds of the runs *)

Module Notions.

(** ** Further notions used in the statements *)


(** The request of [get_public_ip] to a service (line 43). *)
Definition service_request (service_url : str) : request :=
  {| url := service_url; params := []; headers := []; timeout := 3 |}.

(** The world after the requests [new] were sent. *)
Definition with_sent (w : world) (new : list request) : world :=
  {| _location_cache := _location_cache w;
     _hospital_cache := _hospital_cache w;
     sent := sent w ++ new;
     clock_reads := clock_reads w |}.

(** The answer of the [j]-th service of [services] when [n] requests were
    sent before the first of them. *)
Definition service_answer (e : env) (services : list str) (n j : nat) : option Py.value :=
  match services !! j with
  | Some s => Resolver.public_ip_of s (http_get e (n + j) (service_request s))
  | None => None
  end.

(** The world after a reading of the clock. *)
Definition tick (w : world) : world :=
  {| _location_cache := _location_cache w;
     _hospital_cache := _hospital_cache w;
     sent := sent w;
     clock_reads := S (clock_reads w) |}.

Definition with_location_cache (w : world) (c : Cache.cache Py.value) : world :=
  {| _location_cache := c;
     _hospital_cache := _hospital_cache w;
     sent := sent w;
     clock_reads := clock_reads w |}.

Definition with_hospital_cache (w : world) (c : Cache.cache str) : world :=
  {| _location_cache := _location_cache w;
     _hospital_cache := c;
     sent := sent w;
     clock_reads := clock_reads w |}.

(** The reading of the clock that a run in the world [w] gets next. *)
Definition now (e : env) (w : world) : float := time_time e (clock_reads w).

(** A provider of the chain: its request and what it makes of the answer. *)
Definition provider : Type := request * (option response -> option Py.value).

(** The providers that [get_location_by_ip] asks for the address [ip], in
    their order (lines 109-239). *)
Definition providers (rt : Py.runtime) (e : env) (ip : Py.value) : list provider :=
  (if PyStr.truthy (AMAP_API_KEY e)
   then [(Facts.amap_request rt e ip, Resolver.amap_location rt ip)] else [])
  ++ [(Facts.ipinfo_request rt ip, Resolver.ipinfo_location rt ip);
      (Facts.ipapi_request rt ip, Resolver.ipapi_location ip);
      (Facts.ipsb_request rt ip, Resolver.ipsb_location ip)].

(** The record that the [j]-th provider of [ps] yields when [n] requests were
    sent before the first of them. *)
Definition provider_answer (e : env) (ps : list provider) (n j : nat) : option Py.value :=
  match ps !! j with
  | Some p => snd p (http_get e (n + j) (fst p))
  | None => None
  end.

(** The keys that every branch of the resolver sets in its record. *)
Definition has_keys (items : list (str * Py.value)) : bool :=
  forallb (fun k => match Py.assoc (u k) items with Some _ => true | None => false end)
    ["city"%string; "region"%string; "country"%string; "country_code"%string;
     "ip"%string; "success"%string].

(** A record of the resolver: a dictionary with these keys whose flag is a
    boolean; one that succeeded; one that failed. *)
Definition location_record (v : Py.value) : Prop :=
  exists items b,
    v = Py.VDict items /\ Py.field items "success" Py.VNone = Py.VBool b
    /\ has_keys items = true.

Definition success_record (v : Py.value) : Prop :=
  exists items,
    v = Py.VDict items /\ Py.field items "success" Py.VNone = Py.VBool true
    /\ has_keys items = true.

Definition failed (v : Py.value) : Prop :=
  exists items, v = Py.VDict items /\ Py.field items "success" Py.VNone = Py.VBool false.

(** Every entry of the IP cache holds a record that succeeded. *)
Definition records_ok (w : world) : Prop :=
  Forall (fun item => success_record (fst (snd item))) (_location_cache w).

(** The request of the last provider without an address (line 254). *)
Definition ipsb_request_any : request :=
  {| url := u "https://api.ip.sb/geoip";
     params := []; headers := Resolver.user_agent; timeout := 5 |}.

(** The seconds that the requests [rs] may take together. *)
Definition total_timeout (rs : list request) : Z :=
  fold_right Z.add 0 (List.map timeout rs).

(** What the runs of [locate] and [get_location_by_ip] keep and return. *)
Definition records_kept (run : Py.result Py.value * world) : Prop :=
  records_ok (snd run)
  /\ match fst run with
     | Py.Ok v => location_record v /\ (failed v -> exists ip', v = Resolver.no_location ip')
     | Py.Raise ex => ex = Py.TypeError
     end.

(** The key of the venue cache (line 316) and the request to the geocoder
    (lines 328-345) for a venue. *)
Definition hospital_key (hospital_name project_name city : option str) : str :=
  Resolver.opt_str (Resolver.opt_or hospital_name project_name)
  ++ u "_" ++ Resolver.opt_str (Resolver.opt_or city (Some [])).

Definition geocode_request (e : env) (hospital_name project_name city : option str)
  : request :=
  {| url := u "https://restapi.amap.com/v3/geocode/geo";
     params :=
       [(u "key", AMAP_API_KEY e);
        (u "address",
         if Resolver.opt_truthy city
         then Resolver.opt_str city
              ++ Resolver.opt_str (Resolver.opt_or hospital_name project_name)
         else Resolver.opt_str (Resolver.opt_or hospital_name project_name));
        (u "output", u "json")];
     headers := []; timeout := 5 |}.

(** A geocode of a venue: a record that succeeded, with coordinates that are
    floats. *)
Definition geocode_record (v : Py.value) : Prop :=
  exists items lat lon,
    v = Py.VDict items
    /\ Py.field items "success" Py.VNone = Py.VBool true
    /\ Py.field items "latitude" Py.VNone = Py.VFloat lat
    /\ Py.field items "longitude" Py.VNone = Py.VFloat lon.

(** Every entry of the venue cache holds a geocode. *)
Definition geocodes_ok (w : world) : Prop :=
  Forall (fun item => geocode_record (fst (snd item))) (_hospital_cache w).

(** The clock is not behind the entries of the venue cache. *)
Definition venue_clock_ahead (e : env) (w : world) : Prop :=
  forall n item, In item (_hospital_cache w) -> fle (Facts.stamp item) (time_time e n) = true.


(** The id of the candidate of a lookup. *)
Definition lookup_id (ph : Matcher.project * Py.value) : Z := Matcher.project_id (fst ph).

(** A value that arithmetic takes for a number. *)
Definition numeric (v : Py.value) : bool :=
  match v with
  | Py.VInt _ | Py.VFloat _ | Py.VBool _ => true
  | _ => false
  end.

(** An exception of arithmetic on values: a value that is not a number, or an
    integer too large for a float. *)
Definition arithmetic_error {A} (r : Py.result A) : Prop :=
  r = Py.Raise Py.TypeError \/ r = Py.Raise Py.OverflowError.

(** A thread at [at_point] has not sent the request of its task yet. *)
Definition before_request (at_point : Workers.point) : bool :=
  match at_point with
  | Workers.Called _ _ _ | Workers.Reading _ _ | Workers.Comparing _ _ _ _
  | Workers.Expiring _ _ | Workers.Requesting _ _ => true
  | _ => false
  end.

(** The number of tasks of a pool that can still send a request: those that
    wait and those of the threads that have not sent theirs. *)
Definition requests_left (s : Workers.pool) : nat :=
  length (Workers.waiting s)
  + length (List.filter (fun t => before_request (snd t)) (Workers.working s)).

(** The candidates of a pool: those whose lookup is recorded, those that the
    threads are at and those that wait. *)
Definition candidates (s : Workers.pool) : list Matcher.project :=
  List.map fst (Workers.recorded s) ++ List.map fst (Workers.working s) ++ Workers.waiting s.

(** A request to the geocoder, with its timeout of five seconds. *)
Definition to_geocoder (rq : request) : Prop :=
  url rq = u "https://restapi.amap.com/v3/geocode/geo" /\ timeout rq = 5.

(** A pool whose threads are all through has no task that waits. *)
Definition settled (s : Workers.pool) : Prop :=
  Workers.working s = [] -> Workers.waiting s = [].

End Notions.

(** ** Further examples *)

Module Samples.

Import Facts Resolver Matcher Examples Notions.

(** An environment without a key in which no service answers. *)
Definition silent : env := answering "https://nowhere.invalid/" [] "".



(** A world whose IP cache holds one record for [an_address], stored at the
    time [t]. *)
Definition one_record (t : Z) : world :=
  {| _location_cache := [(an_address, (Py.VDict tiananmen, of_int t))];
     _hospital_cache := []; sent := []; clock_reads := O |}.

(** The runtime of the examples with a [float] that reads the two numbers of
    the sample geocode. *)
Definition reading : Py.runtime :=
  {| Py.str_lower := Py.str_lower small_angle;
     Py.repr := Py.repr small_angle;
     Py.float_of_str := fun s =>
       if PyStr.eqb s (u "116.4100") then Some (decimal4 1164100)
       else if PyStr.eqb s (u "39.9205") then Some (decimal4 399205)
       else None;
     Py.math_sin := Py.math_sin small_angle;
     Py.math_cos := Py.math_cos small_angle;
     Py.math_asin := Py.math_asin small_angle;
     Py.math_sqrt := Py.math_sqrt small_angle;
     Py.float_pow := Py.float_pow small_angle |}.

(** An environment with a key in which the geocoder answers with one venue in
    Beijing, and one with a key in which nothing answers. *)
Definition geocoder : env :=
  answering "https://restapi.amap.com/v3/geocode/geo"
    [(u "status", Py.VStr (u "1"));
     (u "count", Py.VStr (u "1"));
     (u "geocodes",
      Py.VList
        [Py.VDict
           [(u "city", Py.VStr (u "北京市"));
            (u "province", Py.VStr (u "北京市"));
            (u "location", Py.VStr (u "116.4100,39.9205"))]])]
    "key".

Definition deaf : env := answering "https://nowhere.invalid/" [] "key".

(** The names of a venue. *)
Definition union_hospital : option str := Some (u "北京协和医院").
Definition beijing : option str := Some (u "北京").

(** A venue cache that is full: two hundred geocodes of venues with names of
    one character, stored one second after the other, all of them younger
    than the time to live at the readings of the clock of the examples. *)
Definition full_cache : Cache.cache str :=
  List.map (fun n => ((0x4E00 + N.of_nat n)%N :: u "_",
                      (Py.VDict near_venue, of_int (1699999000 + Z.of_nat n))))
           (seq 0 200).

Definition full_world : world :=
  {| _location_cache := []; _hospital_cache := full_cache; sent := []; clock_reads := O |}.

(** Two threads, each at one statement in turn. *)
Definition in_turn : list nat := [0; 1; 0; 1; 0; 1; 0; 1; 0; 1; 0; 0]%nat.

(** A geocode whose city is an empty list, as the geocoder writes a field
    that it cannot fill. *)
Definition listed_venue : list (str * Py.value) :=
  [(u "city", Py.VList []);
   (u "region", Py.VStr (u "北京市"));
   (u "latitude", Py.VFloat (decimal4 399205));
   (u "longitude", Py.VFloat (decimal4 1164100));
   (u "success", Py.VBool true)].


(** An answer of the keyed provider for an address in Beijing. *)
Definition amap_beijing : response :=
  {| status_code := 200; text := [];
     json := Some (Py.VDict
       [(u "status", Py.VStr (u "1")); (u "info", Py.VStr (u "OK"));
        (u "province", Py.VStr (u "北京市")); (u "city", Py.VStr (u "北京市"))]) |}.

(** An answer of the first free provider for an address in Hangzhou. *)
Definition ipinfo_answer : response :=
  {| status_code := 200; text := [];
     json := Some (Py.VDict
       [(u "city", Py.VStr (u "Hangzhou")); (u "region", Py.VStr (u "Zhejiang"));
        (u "country", Py.VStr (u "CN"))]) |}.

End Samples.

(** * Theorems *)

Import Facts.

(** ** The floats: their order and their arithmetic *)

Module FloatFacts.

Lemma compare_rank (a b : float) :
  is_nan a = false -> is_nan b = false ->
  SFcompare a b =
    Some (match Z.compare (fst (fst (rank a))) (fst (fst (rank b))) with
          | Eq => match Z.compare (snd (fst (rank a))) (snd (fst (rank b))) with
                  | Eq => Z.compare (snd (rank a)) (snd (rank b))
                  | c => c
                  end
          | c => c
          end).
Proof.
  destruct a as [sa|sa| |sa ma ea], b as [sb|sb| |sb mb eb]; try discriminate;
    intros _ _; try destruct sa; try destruct sb; try reflexivity;
    unfold SFcompare, rank, fst, snd; f_equal;
    change (Pos.compare_cont Eq ma mb) with (Z.compare (Zpos ma) (Zpos mb)).
  - destruct (Z.compare_spec ea eb), (Z.compare_spec (- ea) (- eb)),
      (Z.compare_spec (Zpos ma) (Zpos mb)), (Z.compare_spec (- Zpos ma) (- Zpos mb));
      try reflexivity; cbn; lia.
Qed.

Lemma flt_rank a b : is_nan a = false -> is_nan b = false ->
  flt a b = true <-> lex_lt (rank a) (rank b).
Proof.
  intros Ha Hb. unfold flt, SFltb. rewrite (compare_rank a b Ha Hb). unfold lex_lt.
  destruct (rank a) as [[a1 a2] a3], (rank b) as [[b1 b2] b3]; cbn.
  destruct (Z.compare_spec a1 b1), (Z.compare_spec a2 b2), (Z.compare_spec a3 b3);
    split; intros; try discriminate; try reflexivity; lia.
Qed.

Lemma feq_rank a b : is_nan a = false -> is_nan b = false ->
  feq a b = true <-> rank a = rank b.
Proof.
  intros Ha Hb. unfold feq, SFeqb. rewrite (compare_rank a b Ha Hb).
  destruct (rank a) as [[a1 a2] a3], (rank b) as [[b1 b2] b3]; cbn.
  destruct (Z.compare_spec a1 b1), (Z.compare_spec a2 b2), (Z.compare_spec a3 b3);
    split; intros E; try discriminate; try reflexivity;
    try (injection E; intros); try lia; subst; reflexivity.
Qed.

Lemma fle_rank a b : is_nan a = false -> is_nan b = false ->
  fle a b = true <-> lex_lt (rank a) (rank b) \/ rank a = rank b.
Proof.
  intros Ha Hb. unfold fle, SFleb. rewrite (compare_rank a b Ha Hb). unfold lex_lt.
  destruct (rank a) as [[a1 a2] a3], (rank b) as [[b1 b2] b3]; cbn.
  destruct (Z.compare_spec a1 b1), (Z.compare_spec a2 b2), (Z.compare_spec a3 b3);
    split; intros E; try discriminate; try reflexivity; subst; auto;
    try (left; lia);
    destruct E as [E|E]; try lia; injection E; intros; lia.
Qed.

Lemma fle_numbers a b : fle a b = true -> is_nan a = false /\ is_nan b = false.
Proof. destruct a, b; cbn; try discriminate; auto. Qed.

Lemma flt_numbers a b : flt a b = true -> is_nan a = false /\ is_nan b = false.
Proof. destruct a, b; cbn; try discriminate; auto. Qed.

Lemma lex_lt_trans a b c : lex_lt a b -> lex_lt b c -> lex_lt a c.
Proof. unfold lex_lt. lia. Qed.

Lemma lex_lt_irrefl a : ~ lex_lt a a.
Proof. unfold lex_lt. lia. Qed.

Lemma lex_total a b : lex_lt a b \/ a = b \/ lex_lt b a.
Proof.
  destruct a as [[a1 a2] a3], b as [[b1 b2] b3]. unfold lex_lt; cbn.
  destruct (Z.lt_total a1 b1) as [?|[?|?]], (Z.lt_total a2 b2) as [?|[?|?]],
    (Z.lt_total a3 b3) as [?|[?|?]]; subst; auto; try (left; lia); right; right; lia.
Qed.

Lemma fle_trans a b c : fle a b = true -> fle b c = true -> fle a c = true.
Proof.
  intros H1 H2. destruct (fle_numbers _ _ H1) as [Ha Hb], (fle_numbers _ _ H2) as [_ Hc].
  apply fle_rank in H1, H2; try assumption. apply fle_rank; try assumption.
  destruct H1 as [H1|H1], H2 as [H2|H2].
  - left. eapply lex_lt_trans; eassumption.
  - left. rewrite <- H2. assumption.
  - left. rewrite H1. assumption.
  - right. congruence.
Qed.

Lemma flt_false a b : is_nan a = false -> is_nan b = false ->
  flt a b = false <-> fle b a = true.
Proof.
  intros Ha Hb. rewrite <- not_true_iff_false, (flt_rank a b Ha Hb), (fle_rank b a Hb Ha).
  pose proof (lex_total (rank a) (rank b)) as T.
  pose proof (lex_lt_irrefl (rank a)).
  split.
  - intros N. destruct T as [T|[T|T]]; auto. tauto.
  - intros [L|E] L'.
    + apply (lex_lt_irrefl (rank a)). eapply lex_lt_trans; eassumption.
    + rewrite E in L'. apply (lex_lt_irrefl _ L').
Qed.

Lemma fle_false a b : is_nan a = false -> is_nan b = false ->
  fle a b = false <-> flt b a = true.
Proof.
  intros Ha Hb. rewrite <- not_true_iff_false, (fle_rank a b Ha Hb), (flt_rank b a Hb Ha).
  pose proof (lex_total (rank a) (rank b)) as T.
  split.
  - intros N. destruct T as [T|[T|T]]; tauto.
  - intros L [L'|E].
    + apply (lex_lt_irrefl (rank a)). eapply lex_lt_trans; eassumption.
    + rewrite E in L. apply (lex_lt_irrefl _ L).
Qed.

Lemma flt_trans a b c : flt a b = true -> flt b c = true -> flt a c = true.
Proof.
  intros H1 H2. destruct (flt_numbers _ _ H1) as [Ha Hb], (flt_numbers _ _ H2) as [_ Hc].
  apply flt_rank in H1, H2; try assumption. apply flt_rank; try assumption.
  eapply lex_lt_trans; eassumption.
Qed.

Lemma flt_fle_trans a b c : flt a b = true -> fle b c = true -> flt a c = true.
Proof.
  intros H1 H2. destruct (flt_numbers _ _ H1) as [Ha Hb], (fle_numbers _ _ H2) as [_ Hc].
  apply flt_rank in H1; try assumption. apply fle_rank in H2; try assumption.
  apply flt_rank; try assumption.
  destruct H2 as [H2|H2]; [eapply lex_lt_trans; eassumption|]. rewrite <- H2. assumption.
Qed.

Lemma fle_refl a : is_nan a = false -> fle a a = true.
Proof. intros Ha. apply fle_rank; auto. Qed.

Lemma binary_round_aux_opp s m e l :
  binary_round_aux prec emax (negb s) m e l = SFopp (binary_round_aux prec emax s m e l).
Proof.
  unfold binary_round_aux.
  destruct (shr_fexp prec emax m e l) as [mrs' e'].
  destruct (shr_fexp prec emax _ e' loc_Exact) as [mrs'' e''].
  destruct (shr_m mrs''); try reflexivity.
  destruct (e'' <=? emax - prec); reflexivity.
Qed.

Lemma binary_round_opp s m e :
  binary_round prec emax (negb s) m e = SFopp (binary_round prec emax s m e).
Proof.
  unfold binary_round. destruct (shl_align _ _ _) as [mz ez]. apply binary_round_aux_opp.
Qed.

Lemma binary_normalize_opp z e :
  binary_normalize prec emax (- z) e false =
    if z =? 0 then S754_zero false else SFopp (binary_normalize prec emax z e false).
Proof.
  destruct z as [|p|p]; cbn [Z.opp binary_normalize Z.eqb]; try reflexivity.
  - apply (binary_round_opp false).
  - rewrite <- (binary_round_opp true). reflexivity.
Qed.

Lemma fopp_involutive x : fopp (fopp x) = x.
Proof. destruct x as [[]|[]| |[] m e]; reflexivity. Qed.

Lemma fmul_opp_l x y : fmul (fopp x) y = fopp (fmul x y).
Proof.
  destruct x as [sx|sx| |sx mx ex], y as [sy|sy| |sy my ey]; try reflexivity;
    cbn; try (destruct sx, sy; reflexivity).
  rewrite <- binary_round_aux_opp. destruct sx, sy; reflexivity.
Qed.

Lemma fdiv_opp_l x y : fdiv (fopp x) y = fopp (fdiv x y).
Proof.
  destruct x as [sx|sx| |sx mx ex], y as [sy|sy| |sy my ey]; try reflexivity;
    cbn; try (destruct sx, sy; reflexivity).
  destruct (SFdiv_core_binary prec emax (Z.pos mx) ex (Z.pos my) ey) as [[mz ez] lz].
  rewrite <- binary_round_aux_opp. destruct sx, sy; reflexivity.
Qed.

Lemma fmul_comm x y : fmul x y = fmul y x.
Proof.
  destruct x as [sx|sx| |sx mx ex], y as [sy|sy| |sy my ey]; try reflexivity;
    cbn; try (destruct sx, sy; reflexivity).
  rewrite Pos.mul_comm, Z.add_comm, xorb_comm. reflexivity.
Qed.

(** Swapping the operands of a subtraction negates the difference, unless
    this one is a zero or a NaN of which both orders give the same. *)
Lemma fsub_swap x y :
  fsub y x = fopp (fsub x y)
  \/ fsub y x = fsub x y /\ (fsub x y = S754_zero false \/ fsub x y = S754_nan).
Proof.
  destruct x as [sx|sx| |sx mx ex], y as [sy|sy| |sy my ey];
    try (cbn; destruct sx; cbn; auto; destruct sy; cbn; auto; fail);
    try (cbn; destruct sy; cbn; auto; fail); try (cbn; auto; fail).
  unfold fsub, SFsub. rewrite (Z.min_comm ey ex).
  set (a := cond_Zopp sx (Z.pos (fst (shl_align mx ex (Z.min ex ey))))).
  set (b := cond_Zopp sy (Z.pos (fst (shl_align my ey (Z.min ex ey))))).
  replace (b - a) with (- (a - b)) by lia.
  rewrite binary_normalize_opp. destruct (Z.eqb_spec (a - b) 0) as [E|E]; [|auto].
  right. rewrite E. cbn. auto.
Qed.

Lemma fsub_diag x : is_finite x = true -> fsub x x = S754_zero false.
Proof.
  destruct x as [[]| | |s m e]; try discriminate; intros _; try reflexivity.
  unfold fsub, SFsub. rewrite Z.sub_diag. reflexivity.
Qed.

Lemma fmul_zero_r x : is_finite x = true -> exists s, fmul x (S754_zero false) = S754_zero s.
Proof.
  destruct x as [s| | |s m e]; try discriminate; intros _; eexists; reflexivity.
Qed.

Lemma shr_1_nonneg mrs : 0 <= shr_m mrs -> 0 <= shr_m (shr_1 mrs).
Proof.
  destruct mrs as [m r s]. cbn. destruct m as [|[p|p|]|[p|p|]]; cbn; lia.
Qed.

Lemma iter_pos_nonneg p mrs : 0 <= shr_m mrs -> 0 <= shr_m (SpecFloat.iter_pos shr_1 p mrs).
Proof.
  revert mrs. induction p as [p IH|p IH|]; intros mrs H; cbn.
  - apply IH, IH, shr_1_nonneg, H.
  - apply IH, IH, H.
  - apply shr_1_nonneg, H.
Qed.

Lemma shr_fexp_nonneg m e l : 0 <= m -> 0 <= shr_m (fst (shr_fexp prec emax m e l)).
Proof.
  intros H. unfold shr_fexp, shr.
  assert (R : 0 <= shr_m (shr_record_of_loc m l)) by (destruct l as [|[]]; exact H).
  destruct (_ - e); cbn [fst]; try exact R. apply iter_pos_nonneg, R.
Qed.

Lemma binary_round_aux_number s m e l :
  0 <= m -> is_nan (binary_round_aux prec emax s m e l) = false.
Proof.
  intros H. unfold binary_round_aux.
  pose proof (shr_fexp_nonneg m e l H) as H1.
  destruct (shr_fexp prec emax m e l) as [mrs' e']. cbn [fst] in H1.
  assert (H2 : 0 <= round_nearest_even (shr_m mrs') (loc_of_shr_record mrs')).
  { unfold round_nearest_even. destruct (loc_of_shr_record mrs') as [|[]];
      try destruct (Z.even _); lia. }
  pose proof (shr_fexp_nonneg _ e' loc_Exact H2) as H3.
  destruct (shr_fexp prec emax _ e' loc_Exact) as [mrs'' e'']. cbn [fst] in H3.
  destruct (shr_m mrs''); [reflexivity| |lia].
  destruct (_ <=? _); reflexivity.
Qed.

Lemma of_int_number z : is_nan (of_int z) = false.
Proof.
  unfold of_int, binary_normalize. destruct z; [reflexivity| |];
    unfold binary_round; destruct (shl_align _ _ _); apply binary_round_aux_number; lia.
Qed.

End FloatFacts.

Import FloatFacts.

(** ** The ranking *)

Module Ranking.

Import Matcher.

Lemma key_lt_spec (a b : Z * float) :
  is_nan (snd a) = false -> is_nan (snd b) = false ->
  key_lt a b = true <-> fst a < fst b \/ fst a = fst b /\ lex_lt (rank (snd a)) (rank (snd b)).
Proof.
  intros Ha Hb. unfold key_lt.
  destruct (Z.eqb_spec (fst a) (fst b)) as [E|E].
  - destruct (feq (snd a) (snd b)) eqn:Q.
    + apply feq_rank in Q; try assumption. split; [discriminate|].
      intros [L|[_ L]]; [lia|]. rewrite Q in L. destruct (lex_lt_irrefl _ L).
    + rewrite (flt_rank _ _ Ha Hb). split; [auto|]. intros [L|[_ L]]; [lia|assumption].
  - rewrite Z.ltb_lt. split; [auto|]. intros [L|[L _]]; [assumption|contradiction].
Qed.

Lemma key_le_spec (a b : matched) :
  key_le a b <->
  is_nan (snd (sort_key a)) = false /\ is_nan (snd (sort_key b)) = false
  /\ (score b < score a
      \/ score a = score b /\ fle (snd (sort_key a)) (snd (sort_key b)) = true).
Proof.
  unfold key_le. split; intros (Ha & Hb & H); (split; [exact Ha|split; [exact Hb|]]).
  - rewrite <- not_true_iff_false, (key_lt_spec _ _ Hb Ha) in H. cbn [fst sort_key] in H.
    rewrite (fle_rank _ _ Ha Hb).
    pose proof (lex_total (rank (snd (sort_key a))) (rank (snd (sort_key b)))) as T.
    destruct (Z.lt_total (score a) (score b)) as [L|[L|L]].
    + exfalso. apply H. left. lia.
    + right. split; [assumption|]. destruct T as [T|[T|T]]; auto.
      exfalso. apply H. right. split; [lia|assumption].
    + left. assumption.
  - rewrite <- not_true_iff_false, (key_lt_spec _ _ Hb Ha). cbn [fst sort_key].
    rewrite (fle_rank _ _ Ha Hb) in H.
    intros [L|[E L]]; destruct H as [H|[E' [H|H]]]; try lia.
    + apply (lex_lt_irrefl (rank (snd (sort_key a)))). eapply lex_lt_trans; eassumption.
    + rewrite H in L. apply (lex_lt_irrefl _ L).
Qed.

Lemma key_le_trans a b c : key_le a b -> key_le b c -> key_le a c.
Proof.
  rewrite !key_le_spec. intros (Ha & Hb & H1) (_ & Hc & H2).
  split; [assumption|split; [assumption|]].
  destruct H1 as [H1|[E1 H1]], H2 as [H2|[E2 H2]]; try (left; lia).
  right. split; [lia|]. eapply fle_trans; eassumption.
Qed.

Lemma key_lt_le a b :
  is_nan (snd (sort_key a)) = false -> is_nan (snd (sort_key b)) = false ->
  key_lt (sort_key a) (sort_key b) = true -> key_le a b.
Proof.
  intros Ha Hb H. split; [assumption|split; [assumption|]].
  apply (key_lt_spec _ _ Ha Hb) in H.
  rewrite <- not_true_iff_false, (key_lt_spec _ _ Hb Ha).
  intros [L|[E L]]; destruct H as [H|[E' H]]; try lia.
  apply (lex_lt_irrefl (rank (snd (sort_key a)))). eapply lex_lt_trans; eassumption.
Qed.

Lemma insert_perm x l : Permutation (insert x l) (x :: l).
Proof.
  induction l as [|y l IH]; cbn; [reflexivity|].
  destruct (key_lt (sort_key y) (sort_key x)); [|reflexivity].
  rewrite IH. apply perm_swap.
Qed.

Lemma sort_perm l : Permutation (sort l) l.
Proof.
  induction l as [|x l IH]; cbn; [reflexivity|].
  fold (sort l). rewrite insert_perm, IH. reflexivity.
Qed.

Lemma insert_sorted x l :
  is_nan (snd (sort_key x)) = false ->
  Forall (fun m => is_nan (snd (sort_key m)) = false) l ->
  StronglySorted key_le l -> StronglySorted key_le (insert x l).
Proof.
  intros Hx Hl S. induction S as [|y l S IH F]; cbn.
  - repeat constructor.
  - apply Forall_cons in Hl as [Hy Hl].
    destruct (key_lt (sort_key y) (sort_key x)) eqn:L.
    + constructor; [apply IH; assumption|].
      rewrite insert_perm. constructor; [|assumption].
      apply key_lt_le; assumption.
    + assert (XY : key_le x y) by (split; [assumption|split; assumption]).
      constructor; [constructor; assumption|].
      constructor; [assumption|].
      eapply Forall_impl; [exact F|]. intros z Hz. cbn. eapply key_le_trans; eassumption.
Qed.

Lemma sort_sorted l :
  Forall (fun m => is_nan (snd (sort_key m)) = false) l ->
  StronglySorted key_le (sort l).
Proof.
  induction 1 as [|x l Hx Hl IH]; cbn; [constructor|].
  fold (sort l). apply insert_sorted; [assumption| |assumption].
  rewrite sort_perm. assumption.
Qed.

Lemma distance_known_key m : distance_known m <-> is_nan (snd (sort_key m)) = false.
Proof.
  unfold distance_known, sort_key. destruct (distance_km m) as [d|]; cbn.
  - split; [auto|]. intros H d' [= <-]. exact H.
  - split; [reflexivity|discriminate].
Qed.

Lemma key_le_ranked_before a b : key_le a b -> ranked_before a b.
Proof.
  rewrite key_le_spec. intros (Ha & Hb & [L|[E F]]); [left; exact L|].
  right. split; [exact E|]. unfold sort_key in *. cbn [snd] in *.
  destruct (distance_km a) as [x|], (distance_km b) as [y|]; auto.
  destruct y as [| [|] | |]; try discriminate; reflexivity.
Qed.

Lemma sorted_suffix (R : matched -> matched -> Prop) l1 a l2 :
  StronglySorted R (l1 ++ a :: l2) -> Forall (R a) l2.
Proof.
  induction l1 as [|x l1 IH]; cbn; intros S.
  - apply StronglySorted_inv in S. tauto.
  - apply StronglySorted_inv in S. tauto.
Qed.

Lemma absent_falsy v : absent v -> Py.truthy v = false.
Proof. intros [->|[->|[s ->]]]; reflexivity. Qed.

Section Loop.
Variable rt : Py.runtime.

Lemma score_all_spec c hl ps ms :
  score_all rt c hl ps = Py.Ok ms ->
  forall m, In m ms <->
    In (project_of m) ps
    /\ score_project rt c hl (project_of m) = Py.Ok (score m, distance_km m)
    /\ 10 <= score m.
Proof.
  revert ms. induction ps as [|p ps IH]; cbn; intros ms H m.
  - injection H as <-. cbn. tauto.
  - destruct (score_project rt c hl p) as [[s d]|] eqn:Sp; [|discriminate]. cbn in H.
    destruct (score_all rt c hl ps) as [ms'|] eqn:Sa; [|discriminate]. cbn in H.
    injection H as <-. specialize (IH ms' eq_refl m).
    destruct (Z.geb_spec s 10) as [G|G]; cbn.
    + rewrite IH. split.
      * intros [<-|(I & E & T)]; cbn; [auto with zarith|auto].
      * intros ([->|I] & E & T); [|auto].
        left. destruct m as [p' s' d']; cbn in *. congruence.
    + rewrite IH. split; [intros (I & E & T); auto|].
      intros ([->|I] & E & T); [|auto]. exfalso. rewrite Sp in E. injection E. lia.
Qed.

End Loop.

End Ranking.

Import Ranking.

(** ** The scores *)

Module Scores.

Import Matcher Examples.

Section Scores.
Variable rt : Py.runtime.

Lemma truthy_nonempty (s : str) : PyStr.truthy s = true <-> s <> [].
Proof. destruct s; cbn; split; congruence. Qed.

Lemma truthy_empty (s : str) : PyStr.truthy s = false <-> s = [].
Proof. destruct s; cbn; split; congruence. Qed.

Lemma eqb_eq (a b : str) : PyStr.eqb a b = true <-> a = b.
Proof. unfold PyStr.eqb. apply bool_decide_eq_true. Qed.

Lemma eqb_neq (a b : str) : PyStr.eqb a b = false <-> a <> b.
Proof. unfold PyStr.eqb. apply bool_decide_eq_false. Qed.

Lemma tier_bounds w1 w2 w3 w4 a an b bn :
  0 <= w1 -> 0 <= w2 -> 0 <= w3 -> 0 <= w4 ->
  0 <= tier w1 w2 w3 w4 a an b bn <= Z.max (Z.max w1 w2) (Z.max w3 w4).
Proof. intros. unfold tier. repeat case_match; lia. Qed.

Lemma distance_tier_bounds d : 0 <= distance_tier d <= 30.
Proof. unfold distance_tier. repeat case_match; lia. Qed.

Lemma score_geocoded_bounds c hl s d :
  score_geocoded rt c hl = Py.Ok (s, d) -> 0 <= s <= 110.
Proof.
  unfold score_geocoded.
  destruct (str_strip _) as [city|]; [|discriminate]. cbn [Py.bind].
  destruct (str_strip _) as [reg|]; [|discriminate]. cbn [Py.bind].
  pose proof (tier_bounds 50 45 40 35 (ip_city_lower c) (ip_city_normalized c)
                (lower rt city) (normalize_city (lower rt city))) as Bc.
  pose proof (tier_bounds 30 25 20 15 (ip_region_lower c) (ip_region_normalized c)
                (lower rt reg) (normalize_region (lower rt reg))) as Br.
  fold (city_tier c (lower rt city)) in Bc. fold (region_tier c (lower rt reg)) in Br.
  destruct (_ && _).
  - destruct (calculate_distance _ _ _ _ _) as [[x|]|]; cbn [Py.bind]; intros [= <- <-];
      try pose proof (distance_tier_bounds x); lia.
  - intros [= <- <-]. lia.
Qed.

Lemma score_text_bounds c p : 0 <= score_text rt c p <= 110.
Proof.
  unfold score_text, hint_tier, name_points. repeat case_match; lia.
Qed.

Lemma raw_score_bounds c hl p s d :
  raw_score rt c hl p = Py.Ok (s, d) -> 0 <= s <= 110.
Proof.
  unfold raw_score. destruct (geocode_of _) as [[items|]|]; cbn [Py.bind]; try discriminate.
  - apply score_geocoded_bounds.
  - intros [= <- <-]. apply score_text_bounds.
Qed.

Lemma vpn_score_exact s : 0 <= s <= 110 -> vpn_score s = Py.Ok (penalized s).
Proof.
  intros B.
  assert (A : forallb vpn_agrees (List.map Z.of_nat (seq 0 111)) = true) by (vm_compute; reflexivity).
  rewrite forallb_forall in A. specialize (A s).
  assert (I : In s (List.map Z.of_nat (seq 0 111))).
  { apply in_map_iff. exists (Z.to_nat s). split; [lia|]. apply in_seq. lia. }
  specialize (A I). unfold vpn_agrees in A.
  destruct (vpn_score s) as [z|]; [|discriminate]. apply Z.eqb_eq in A. congruence.
Qed.

Lemma scenario1_score (p : project) :
  Py.str_lower rt [] = [] ->
  Py.str_lower rt (u "北京市") = u "北京市" ->
  Py.str_lower rt (u "北京") = u "北京" ->
  score_project rt (client_of rt scenario1_client)
    (<[project_id p := Py.VDict scenario1_venue]> ∅) p = Py.Ok (45, None).
Proof.
  intros L0 L1 L2. unfold score_project, raw_score.
  rewrite lookup_insert_eq.
  change (default Py.VNone (Some (Py.VDict scenario1_venue))) with (Py.VDict scenario1_venue).
  change (geocode_of (Py.VDict scenario1_venue)) with (Py.Ok (Some scenario1_venue)).
  cbn [Py.bind].
  assert (C : client_of rt scenario1_client =
              {| ip_city_lower := u "北京市"; ip_region_lower := [];
                 ip_country_lower := []; ip_city_normalized := u "北京";
                 ip_region_normalized := []; ip_lat := Py.VNone; ip_lon := Py.VNone |}).
  { unfold client_of, lower.
    change (text_of rt (Py.field scenario1_client "city" (Py.VStr []))) with (u "北京市").
    change (text_of rt (Py.field scenario1_client "region" (Py.VStr []))) with (@nil N).
    change (text_of rt (Py.field scenario1_client "country" (Py.VStr []))) with (@nil N).
    rewrite L0, L1. reflexivity. }
  rewrite C. unfold score_geocoded, lower.
  change (str_strip (Py.field scenario1_venue "city" (Py.VStr []))) with (Py.Ok (u "北京")).
  change (str_strip (Py.field scenario1_venue "region" (Py.VStr []))) with (@Py.Ok str []).
  cbn [Py.bind]. rewrite L0, L2. reflexivity.
Qed.

End Scores.

End Scores.

Import Scores.

(** ** The normalization of the names *)

Module Normalizing.

Import Matcher.

Lemma replace_char (c : N) (s : str) : replace [c] [] s = without [c] s.
Proof.
  unfold replace, without. induction s as [|x t IH]; [reflexivity|].
  cbn [replace_from length Nat.pred List.filter app]. rewrite <- IH.
  assert (E : startswith (x :: t) [c] = existsb (N.eqb x) [c]).
  { cbn [startswith existsb]. rewrite orb_false_r, (N.eqb_sym c x).
    destruct t; apply andb_true_r. }
  rewrite E. destruct (existsb _ _); reflexivity.
Qed.

Lemma without_without (a b s : str) : without a (without b s) = without (b ++ a) s.
Proof.
  unfold without. induction s as [|x t IH]; [reflexivity|].
  cbn [List.filter]. rewrite existsb_app.
  destruct (existsb (N.eqb x) b); cbn [negb orb List.filter]; [exact IH|].
  destruct (existsb (N.eqb x) a); cbn [negb]; [exact IH|f_equal; exact IH].
Qed.

Lemma without_In (chars s : str) (c : N) : In c chars -> ~ In c (without chars s).
Proof.
  intros I H. unfold without in H. apply filter_In in H as [_ H].
  apply negb_true_iff in H. assert (E : existsb (N.eqb c) chars = true).
  { apply existsb_exists. exists c. split; [exact I|apply N.eqb_refl]. }
  congruence.
Qed.

Lemma startswith_incl (p s : str) : startswith s p = true -> incl p s.
Proof.
  revert s. induction p as [|c p IH]; intros s H; [intros x []|].
  destruct s as [|d s]; [discriminate|]. cbn [startswith] in H.
  apply andb_true_iff in H as [E H]. apply N.eqb_eq in E. subst d.
  intros x [<-|I]; [left; reflexivity|right; apply (IH s H x I)].
Qed.

Lemma contains_incl (sub s : str) : contains sub s = true -> incl sub s.
Proof.
  induction s as [|d s IH]; cbn [contains]; intros H.
  - rewrite orb_false_r in H. apply startswith_incl. exact H.
  - apply orb_true_iff in H as [H|H]; [apply startswith_incl; exact H|].
    intros x I. right. apply (IH H x I).
Qed.

Lemma replace_from_In (old : str) (k : nat) (s : str) (c : N) :
  In c (replace_from old [] k s) -> In c s.
Proof.
  revert k. induction s as [|x t IH]; intros k H; [exact H|].
  cbn [replace_from] in H. destruct k as [|k]; [|right; apply (IH _ H)].
  destruct (startswith (x :: t) old); [right; apply (IH _ H)|].
  destruct H as [<-|H]; [left; reflexivity|right; apply (IH _ H)].
Qed.

Lemma replace_In (old s : str) (c : N) : old <> [] -> In c (replace old [] s) -> In c s.
Proof.
  intros N. unfold replace. destruct old as [|o old]; [contradiction|].
  apply replace_from_In.
Qed.

Lemma replace_absent (old new s : str) :
  old <> [] -> contains old s = false -> replace old new s = s.
Proof.
  intros N. unfold replace. destruct old as [|o old]; [contradiction|].
  induction s as [|x t IH]; [reflexivity|]. cbn [contains]. intros H.
  apply orb_false_iff in H as [H1 H2]. cbn [replace_from]. rewrite H1.
  f_equal. exact (IH H2).
Qed.

(** The names as the code normalizes them: the characters 市, 县 and 区
    go first, so that the replacement of 地区 never finds an occurrence. *)
Lemma normalize_city_spec (s : str) :
  normalize_city s
  = without (u "盟") (replace (u "自治州") [] (without (u "市县区") s)).
Proof.
  unfold normalize_city.
  assert (E1 : u "市" = [0x5E02%N]) by (vm_compute; reflexivity).
  assert (E2 : u "县" = [0x53BF%N]) by (vm_compute; reflexivity).
  assert (E3 : u "区" = [0x533A%N]) by (vm_compute; reflexivity).
  assert (E4 : u "盟" = [0x76DF%N]) by (vm_compute; reflexivity).
  assert (E5 : u "市县区" = [0x5E02%N] ++ [0x53BF%N] ++ [0x533A%N]) by (vm_compute; reflexivity).
  assert (E6 : In 0x533A%N (u "地区")) by (vm_compute; auto).
  rewrite E1, E2, E3, E4, E5, !replace_char, !without_without.
  set (s3 := without _ s).
  assert (A : contains (u "地区") (replace (u "自治州") [] s3) = false).
  { destruct (contains _ _) eqn:C; [|reflexivity]. exfalso.
    apply contains_incl in C. specialize (C _ E6).
    apply replace_In in C; [|vm_compute; discriminate].
    revert C. apply without_In. cbn. auto. }
  rewrite (replace_absent (u "地区") [] _); [reflexivity|vm_compute; discriminate|exact A].
Qed.

Lemma without_count (chars s : str) (c : N) :
  existsb (N.eqb c) chars = false ->
  count_occ N.eq_dec (without chars s) c = count_occ N.eq_dec s c.
Proof.
  intros H. unfold without. induction s as [|x t IH]; [reflexivity|].
  cbn [List.filter]. destruct (existsb (N.eqb x) chars) eqn:E; cbn [negb].
  - rewrite IH. rewrite count_occ_cons_neq; [reflexivity|]. intros ->. congruence.
  - destruct (N.eq_dec x c) as [->|Ne].
    + rewrite !count_occ_cons_eq by reflexivity. rewrite IH. reflexivity.
    + rewrite !count_occ_cons_neq by exact Ne. exact IH.
Qed.

Lemma replace_from_count (old : str) (c : N) (s : str) (k : nat) :
  old <> [] -> ~ In c old -> (k <= length old)%nat ->
  startswith s (drop (length old - k) old) = true ->
  count_occ N.eq_dec (replace_from old [] k s) c = count_occ N.eq_dec s c.
Proof.
  intros Ne Nc. revert k. induction s as [|x t IH]; intros k Hk H; [reflexivity|].
  cbn [replace_from]. destruct k as [|k].
  - destruct (startswith (x :: t) old) eqn:S.
    + destruct old as [|o old']; [congruence|]. cbn [startswith] in S.
      apply andb_true_iff in S as [E S]. apply N.eqb_eq in E. subst o.
      cbn [app length Nat.pred]. rewrite count_occ_cons_neq; [|intros ->; apply Nc; left; reflexivity].
      apply IH; [cbn [length]; lia|].
      replace (length (x :: old') - length old')%nat with 1%nat by (cbn [length]; lia).
      exact S.
    + destruct (N.eq_dec x c) as [->|Nx].
      * rewrite !count_occ_cons_eq by reflexivity. f_equal. apply IH; [lia|].
        rewrite Nat.sub_0_r, drop_all. destruct t; reflexivity.
      * rewrite !count_occ_cons_neq by exact Nx. apply IH; [lia|].
        rewrite Nat.sub_0_r, drop_all. destruct t; reflexivity.
  - destruct (old !! (length old - S k)%nat) as [y|] eqn:L;
      [|apply lookup_ge_None in L; lia].
    rewrite (drop_S _ _ _ L) in H. cbn [startswith] in H.
    apply andb_true_iff in H as [E H]. apply N.eqb_eq in E. subst y.
    rewrite count_occ_cons_neq.
    + apply IH; [lia|]. replace (length old - k)%nat with (S (length old - S k)) by lia.
      exact H.
    + intros ->. apply Nc. apply list_elem_of_In. eapply list_elem_of_lookup_2. exact L.
Qed.

Lemma replace_count (old s : str) (c : N) :
  old <> [] -> ~ In c old ->
  count_occ N.eq_dec (replace old [] s) c = count_occ N.eq_dec s c.
Proof.
  intros Ne Nc. unfold replace. destruct old as [|o old'] eqn:E; [congruence|].
  rewrite <- E in *. apply replace_from_count; [exact Ne|exact Nc|lia|].
  rewrite Nat.sub_0_r, drop_all. destruct s; reflexivity.
Qed.

(** X24. The normalization of a name never removes the character 地: the
    characters 区 are removed before the occurrences of 地区 are looked for,
    so that none is found, and a name in 地区 keeps its 地. The normalized
    form of every name is the name without its characters 市, 县 and 区, then
    without its occurrences of 自治州, then without its characters 盟. *)
Theorem prefecture_mark_kept (s : str) :
  normalize_city s
  = without (u "盟") (replace (u "自治州") [] (without (u "市县区") s))
  /\ count_occ N.eq_dec (normalize_city s) 0x5730%N = count_occ N.eq_dec s 0x5730%N.
Proof.
  split; [apply normalize_city_spec|].
  rewrite normalize_city_spec, without_count, replace_count, without_count;
    first [reflexivity | vm_compute; discriminate | vm_compute; reflexivity | idtac].
  vm_compute. intuition discriminate.
Qed.

End Normalizing.

(** ** The haversine distance *)

Module Haversine.

Import Matcher.

Section Haversine.
Variable rt : Py.runtime.
Hypothesis libm : libm_ok rt.

Lemma half_opp x : half rt (fopp x) = half rt x.
Proof.
  unfold half, radians. rewrite fmul_opp_l, fdiv_opp_l. unfold sin.
  rewrite (sin_odd rt libm). destruct (Py.math_sin rt _) as [s|]; cbn; [|reflexivity].
  unfold pow. rewrite (square_even rt libm). reflexivity.
Qed.

Lemma half_swap x y : half rt (fsub y x) = half rt (fsub x y).
Proof.
  destruct (fsub_swap x y) as [E|[E _]]; rewrite E; [apply half_opp|reflexivity].
Qed.

Lemma calculate_distance_floats lat1 lon1 lat2 lon2 :
  calculate_distance rt (Py.VFloat lat1) (Py.VFloat lon1) (Py.VFloat lat2) (Py.VFloat lon2) =
  if negb (PyFloat.truthy lat1 && PyFloat.truthy lon1 && PyFloat.truthy lat2 && PyFloat.truthy lon2)
  then Py.Ok None
  else
    let* sin_lat2 := half rt (fsub lat2 lat1) in
    let* cos1 := cos rt (radians lat1) in
    let* cos2 := cos rt (radians lat2) in
    let* sin_lon2 := half rt (fsub lon2 lon1) in
    let* root := sqrt rt (fadd sin_lat2 (fmul (fmul cos1 cos2) sin_lon2)) in
    let* angle := asin rt root in
    Py.Ok (Some (fmul f6371 (fmul f2 angle))).
Proof.
  unfold calculate_distance. cbn [forallb Py.truthy].
  rewrite andb_true_r, !andb_assoc.
  destruct (negb _); [reflexivity|].
  cbn [math_radians Py.as_float Py.bind Py.sub]. unfold half.
  destruct (sin rt (fdiv (radians (fsub lat2 lat1)) f2)) as [s1|]; cbn [Py.bind]; [|reflexivity].
  destruct (pow rt s1 f2); cbn [Py.bind]; [|reflexivity].
  destruct (cos rt (radians lat1)); cbn [Py.bind]; [|reflexivity].
  destruct (cos rt (radians lat2)); cbn [Py.bind]; [|reflexivity].
  destruct (sin rt (fdiv (radians (fsub lon2 lon1)) f2)) as [s2|]; cbn [Py.bind]; [|reflexivity].
  reflexivity.
Qed.

Lemma half_zero : half rt (S754_zero false) = Py.Ok (S754_zero false).
Proof.
  unfold half. change (fdiv (radians (S754_zero false)) f2) with (S754_zero false).
  unfold sin. rewrite (sin_zero rt libm). cbn [Py.or_raise Py.bind].
  unfold pow. rewrite (square_zero rt libm). reflexivity.
Qed.

End Haversine.

Lemma small_angle_libm : libm_ok small_angle.
Proof.
  split; try reflexivity.
  intros x. cbn. rewrite fmul_opp_l, fmul_comm, fmul_opp_l, fopp_involutive. reflexivity.
Qed.

End Haversine.

Import Haversine.

(** ** The dictionaries and the caches *)

Module Caches.

Section DictFacts.
Context {K V : Type} (keq : K -> K -> bool).
Hypothesis keq_sound : sound keq.

Lemma lookup_Some k (d : Dict.dict K V) v :
  Dict.lookup keq k d = Some v -> exists k', In (k', v) d /\ keq k k' = true.
Proof.
  induction d as [|[k' v'] d IH]; cbn; [discriminate|].
  destruct (keq k k') eqn:E.
  - intros [= <-]. exists k'. auto.
  - intros H. destruct (IH H) as (k'' & I & E'). exists k''. auto.
Qed.

Lemma lookup_None k (d : Dict.dict K V) :
  Dict.lookup keq k d = None <-> Forall (fun item => keq k (fst item) = false) d.
Proof.
  induction d as [|[k' v'] d IH]; cbn.
  - split; [constructor|reflexivity].
  - destruct (keq k k') eqn:E.
    + split; [discriminate|]. intros F. apply Forall_cons in F as [F _]. cbn in F. congruence.
    + rewrite IH. split; [intros F; constructor; assumption|].
      intros F. apply Forall_cons in F. tauto.
Qed.

Lemma set_absent k v (d : Dict.dict K V) :
  Dict.lookup keq k d = None -> Dict.set keq k v d = d ++ [(k, v)].
Proof.
  induction d as [|[k' v'] d IH]; cbn; [reflexivity|].
  destruct (keq k k'); [discriminate|]. intros H. rewrite (IH H). reflexivity.
Qed.

Lemma set_present k v (d : Dict.dict K V) :
  Dict.lookup keq k d <> None -> List.map fst (Dict.set keq k v d) = List.map fst d.
Proof.
  induction d as [|[k' v'] d IH]; cbn; [congruence|].
  destruct (keq k k'); [reflexivity|]. intros H. cbn. rewrite (IH H). reflexivity.
Qed.

Lemma set_length k v (d : Dict.dict K V) :
  (length (Dict.set keq k v d) <= S (length d))%nat.
Proof.
  destruct (Dict.lookup keq k d) eqn:E.
  - assert (H : length (List.map fst (Dict.set keq k v d)) = length (List.map fst d))
      by (rewrite set_present; congruence).
    rewrite !length_map in H. lia.
  - rewrite (set_absent _ _ _ E), length_app. cbn. lia.
Qed.

Lemma set_keys_distinct k v (d : Dict.dict K V) :
  keq k k = true ->
  NoDup (List.map fst d) -> NoDup (List.map fst (Dict.set keq k v d)).
Proof.
  intros R N. destruct (Dict.lookup keq k d) eqn:E.
  - rewrite set_present; congruence.
  - rewrite (set_absent _ _ _ E), map_app. cbn.
    apply NoDup_app. split; [assumption|]. split; [|apply NoDup_singleton].
    intros k' I [->|[]]%list_elem_of_In. apply list_elem_of_In, in_map_iff in I as (item & <- & I).
    apply lookup_None in E. rewrite Forall_forall in E.
    apply list_elem_of_In in I. specialize (E _ I). congruence.
Qed.

Lemma set_Forall (P : K -> Prop) (Q : V -> Prop) k v (d : Dict.dict K V) :
  P k -> Q v ->
  Forall (fun item => P (fst item) /\ Q (snd item)) d ->
  Forall (fun item => P (fst item) /\ Q (snd item)) (Dict.set keq k v d).
Proof.
  intros Pk Qv. induction 1 as [|[k' v'] d [Pk' Qv'] F IH]; cbn.
  - repeat constructor; assumption.
  - destruct (keq k k'); constructor; cbn; auto.
Qed.

Lemma lookup_set k v (d : Dict.dict K V) :
  keq k k = true -> Dict.lookup keq k (Dict.set keq k v d) = Some v.
Proof.
  intros R. induction d as [|[k' v'] d IH]; cbn.
  - rewrite R. reflexivity.
  - destruct (keq k k') eqn:E; cbn; rewrite E; [reflexivity|assumption].
Qed.

Lemma del_split k (d : Dict.dict K V) :
  Dict.lookup keq k d <> None ->
  exists l1 k' v l2,
    d = l1 ++ (k', v) :: l2 /\ Dict.del keq k d = l1 ++ l2 /\ keq k k' = true.
Proof.
  induction d as [|[k' v'] d IH]; cbn; [congruence|].
  destruct (keq k k') eqn:E.
  - intros _. exists [], k', v', d. auto.
  - intros H. destruct (IH H) as (l1 & k'' & v & l2 & -> & -> & E').
    exists ((k', v') :: l1), k'', v, l2. auto.
Qed.

Lemma del_absent k (d : Dict.dict K V) :
  Dict.lookup keq k d = None -> Dict.del keq k d = d.
Proof.
  induction d as [|[k' v'] d IH]; cbn; [reflexivity|].
  destruct (keq k k'); [discriminate|]. intros H. rewrite (IH H). reflexivity.
Qed.

Lemma del_sublist k (d : Dict.dict K V) : sublist (Dict.del keq k d) d.
Proof.
  induction d as [|[k' v'] d IH]; cbn; [constructor|].
  destruct (keq k k'); [apply sublist_cons; reflexivity|apply sublist_skip; assumption].
Qed.

End DictFacts.

Lemma list_eq_nil_or_snoc {A} (l : list A) : l = [] \/ exists l' x, l = l' ++ [x].
Proof.
  induction l as [|a l IH]; [auto|]. right.
  destruct IH as [->|(l' & x & ->)]; [exists [], a|exists (a :: l'), x]; reflexivity.
Qed.

Section CacheFacts.
Context {K : Type} (keq : K -> K -> bool).
Hypothesis keq_sound : sound keq.

Abbreviation entry := (K * (Py.value * float))%type.


Lemma min_from_split (rest pre mid : list entry) (best : entry) :
  Forall (fun x => is_nan (stamp x) = false) (pre ++ best :: mid ++ rest) ->
  Forall (older best) pre -> Forall (not_younger best) mid ->
  exists l1 l2,
    pre ++ best :: mid ++ rest = l1 ++ Cache.min_from best rest :: l2
    /\ Forall (older (Cache.min_from best rest)) l1
    /\ Forall (not_younger (Cache.min_from best rest)) l2.
Proof.
  revert pre mid best. induction rest as [|item rest IH]; intros pre mid best N P M; cbn.
  - exists pre, mid. rewrite app_nil_r. auto.
  - assert (Nb : is_nan (stamp best) = false).
    { rewrite Forall_app in N. destruct N as [_ N]. apply Forall_cons in N. tauto. }
    assert (Ni : is_nan (stamp item) = false).
    { rewrite Forall_app in N. destruct N as [_ N]. apply Forall_cons in N as [_ N].
      rewrite Forall_app in N. destruct N as [_ N]. apply Forall_cons in N. tauto. }
    fold (stamp item). fold (stamp best).
    destruct (flt (stamp item) (stamp best)) eqn:L.
    + destruct (IH (pre ++ best :: mid) [] item) as (l1 & l2 & E & Y & O).
      * cbn. rewrite <- app_assoc. cbn. exact N.
      * rewrite Forall_app. split; [|constructor].
        -- eapply Forall_impl; [exact P|]. intros x Hx. eapply flt_trans; eassumption.
        -- exact L.
        -- eapply Forall_impl; [exact M|]. intros x Hx. eapply flt_fle_trans; eassumption.
      * constructor.
      * exists l1, l2. split; [|auto]. rewrite <- E. cbn. rewrite <- app_assoc. reflexivity.
    + destruct (IH pre (mid ++ [item]) best) as (l1 & l2 & E & Y & O).
      * rewrite <- app_assoc. exact N.
      * exact P.
      * rewrite Forall_app. split; [exact M|]. constructor; [|constructor].
        apply flt_false; assumption.
      * exists l1, l2. split; [|auto]. rewrite <- E, <- app_assoc. reflexivity.
Qed.

Lemma oldest_key_split (c : Cache.cache K) :
  c <> [] -> Forall (fun x => is_nan (stamp x) = false) c ->
  exists l1 m l2,
    c = l1 ++ m :: l2 /\ Cache.oldest_key c = Some (fst m)
    /\ Forall (older m) l1 /\ Forall (not_younger m) l2.
Proof.
  destruct c as [|best rest]; [congruence|]. intros _ N.
  destruct (min_from_split rest [] [] best N) as (l1 & l2 & E & Y & O);
    [constructor|constructor|].
  exists l1, (Cache.min_from best rest), l2. cbn in E. auto.
Qed.

Lemma del_at k k' v (l1 l2 : Cache.cache K) :
  NoDup (List.map fst (l1 ++ (k', v) :: l2)) -> keq k k' = true ->
  Dict.del keq k (l1 ++ (k', v) :: l2) = l1 ++ l2.
Proof.
  intros N E. induction l1 as [|[k1 v1] l1 IH]; cbn.
  - rewrite E. reflexivity.
  - cbn in N. apply NoDup_cons in N as [N1 N].
    destruct (keq k k1) eqn:E1.
    + exfalso. apply N1. apply keq_sound in E, E1. subst.
      rewrite map_app. apply list_elem_of_In, in_or_app. right. left. reflexivity.
    + rewrite (IH N). reflexivity.
Qed.

Lemma entries_ok_remove (l1 l2 : Cache.cache K) x :
  entries_ok keq (l1 ++ x :: l2) -> entries_ok keq (l1 ++ l2).
Proof.
  intros [N H S]. split.
  - rewrite map_app in *. cbn in N. apply NoDup_app in N as (N1 & N12 & N2).
    apply NoDup_cons in N2 as [_ N2]. apply NoDup_app. split; [assumption|].
    split; [|assumption]. intros k I I'. apply (N12 k I). right. assumption.
  - rewrite Forall_app in *. destruct H as [H1 H2]. apply Forall_cons in H2. tauto.
  - rewrite Forall_app in *. destruct S as [S1 S2]. apply Forall_cons in S2. tauto.
Qed.

Lemma entries_ok_del k (c : Cache.cache K) :
  entries_ok keq c -> entries_ok keq (Dict.del keq k c).
Proof.
  intros O. destruct (Dict.lookup keq k c) eqn:E.
  - destruct (del_split keq k c) as (l1 & k' & v & l2 & -> & -> & _); [congruence|].
    eapply entries_ok_remove. exact O.
  - rewrite del_absent; assumption.
Qed.

Lemma entries_ok_set k v now (c : Cache.cache K) :
  keq k k = true -> is_nan now = false ->
  entries_ok keq c -> entries_ok keq (Dict.set keq k (v, now) c).
Proof.
  intros R Nn [N H S].
  assert (F : Forall (fun item => keq (fst item) (fst item) = true
                                  /\ is_nan (snd (snd item)) = false)
                (Dict.set keq k (v, now) c)).
  { apply (set_Forall keq (fun k => keq k k = true) (fun v => is_nan (snd v) = false));
      [exact R|exact Nn|].
    rewrite Forall_forall in H, S. apply Forall_forall. intros x I. split; [apply H|apply S]; exact I. }
  split.
  - apply set_keys_distinct; assumption.
  - eapply Forall_impl; [exact F|]. cbn. tauto.
  - eapply Forall_impl; [exact F|]. cbn. tauto.
Qed.

(** The write of a result. *)
Lemma put_spec max_entries now k v (c : Cache.cache K) :
  keq k k = true -> is_nan now = false -> cache_ok keq max_entries c ->
  let c1 := Dict.set keq k (v, now) c in
  cache_ok keq max_entries (Cache.put keq max_entries now k v c)
  /\ (Dict.len c1 <= max_entries -> Cache.put keq max_entries now k v c = c1)
  /\ (max_entries < Dict.len c1 ->
      exists l1 oldest l2,
        c1 = l1 ++ oldest :: l2
        /\ Cache.put keq max_entries now k v c = l1 ++ l2
        /\ Forall (older oldest) l1 /\ Forall (not_younger oldest) l2).
Proof.
  intros R Nn [O L] c1. pose proof (entries_ok_set k v now c R Nn O) as O1. fold c1 in O1.
  assert (L1 : Dict.len c1 <= max_entries + 1).
  { unfold Dict.len in *. pose proof (set_length keq k (v, now) c). fold c1 in H. lia. }
  unfold Cache.put. fold c1.
  destruct (Z.gtb_spec (Dict.len c1) max_entries) as [G|G].
  - assert (Ne : c1 <> []) by (intros E; rewrite E in G; unfold Dict.len in *; cbn in *; lia).
    destruct (oldest_key_split c1 Ne (stamps_numbers _ _ O1)) as (l1 & m & l2 & E & Ok & Y & Ol).
    rewrite Ok. destruct m as [km vm].
    assert (D : Dict.del keq km c1 = l1 ++ l2).
    { rewrite E. apply del_at.
      - rewrite <- E. apply (keys_distinct _ _ O1).
      - pose proof (keys_hashable _ _ O1) as H. rewrite E, Forall_app in H.
        destruct H as [_ H]. apply Forall_cons in H. tauto. }
    cbn [fst]. rewrite D. split; [|split].
    + split; [eapply entries_ok_remove; rewrite <- E; exact O1|].
      rewrite E in L1. unfold Dict.len in *. rewrite length_app in *. cbn in L1. lia.
    + lia.
    + intros _. exists l1, (km, vm), l2. auto.
  - split; [|split].
    + split; [exact O1|lia].
    + reflexivity.
    + lia.
Qed.

(** The check of an entry. *)
Lemma get_spec max_entries now k (c : Cache.cache K) :
  cache_ok keq max_entries c ->
  cache_ok keq max_entries (snd (Cache.get keq now k c))
  /\ (forall v, fst (Cache.get keq now k c) = Some v ->
        snd (Cache.get keq now k c) = c
        /\ exists t, Dict.lookup keq k c = Some (v, t) /\ Cache.fresh now t = true)
  /\ (fst (Cache.get keq now k c) = None ->
        Dict.lookup keq k (snd (Cache.get keq now k c)) = None).
Proof.
  intros [O L]. unfold Cache.get.
  destruct (Dict.lookup keq k c) as [[v t]|] eqn:E.
  - destruct (Cache.fresh now t) eqn:F; cbn [fst snd].
    + split; [split; assumption|]. split; [|discriminate].
      intros v' [= <-]. split; [reflexivity|]. exists t. auto.
    + split; [|split; [discriminate|]].
      * split; [apply entries_ok_del; assumption|].
        pose proof (sublist_length _ _ (del_sublist keq k c)). unfold Dict.len in *. lia.
      * intros _.
        destruct (del_split keq k c) as (l1 & k' & v' & l2 & Ec & -> & Ek); [congruence|].
        apply lookup_None. pose proof (keys_distinct _ _ O) as N. rewrite Ec in N.
        apply keq_sound in Ek. subst k'.
        rewrite map_app in N. cbn in N. apply NoDup_app in N as (N1 & N12 & N2).
        apply NoDup_cons in N2 as [N2 _].
        apply Forall_forall. intros [k1 v1] I. cbn [fst].
        destruct (keq k k1) eqn:E1; [|reflexivity]. exfalso.
        apply keq_sound in E1. subst k1. cbn in *.
        apply list_elem_of_In, in_app_or in I. destruct I as [I|I].
        -- apply (N12 k).
           ++ apply list_elem_of_In, in_map_iff. exists (k, v1). auto.
           ++ left.
        -- apply N2. apply list_elem_of_In, in_map_iff. exists (k, v1). auto.
  - cbn [fst snd]. split; [split; assumption|]. split; [discriminate|auto].
Qed.

Lemma lookup_app_new k v (l : Cache.cache K) :
  keq k k = true -> Dict.lookup keq k l = None ->
  Dict.lookup keq k (l ++ [(k, v)]) = Some v.
Proof.
  intros R. induction l as [|[k' v'] l IH]; cbn.
  - rewrite R. reflexivity.
  - destruct (keq k k'); [discriminate|]. exact IH.
Qed.

(** An entry written under a new key stays in the cache when the clock is
    not behind the entries that are there. *)
Lemma put_keeps_new max_entries now k v (c : Cache.cache K) :
  1 <= max_entries ->
  keq k k = true -> is_nan now = false -> cache_ok keq max_entries c ->
  Dict.lookup keq k c = None ->
  Forall (fun item => fle (stamp item) now = true) c ->
  Dict.lookup keq k (Cache.put keq max_entries now k v c) = Some (v, now).
Proof.
  intros M R Nn O A Ahead.
  destruct (put_spec max_entries now k v c R Nn O) as (_ & Small & Large).
  cbv zeta in Small, Large. rewrite (set_absent keq k (v, now) c A) in Small, Large.
  destruct (Z.le_gt_cases (Dict.len (c ++ [(k, (v, now))])) max_entries) as [L|G].
  - rewrite (Small L). apply lookup_app_new; assumption.
  - destruct (Large ltac:(lia)) as (l1 & oldest & l2 & E & -> & Y & Ol).
    destruct (list_eq_nil_or_snoc l2) as [->|(l2' & x & ->)].
    + apply app_inj_tail in E as [<- <-].
      destruct c as [|x c]; [unfold Dict.len in G; cbn in G; lia|].
      apply Forall_cons in Y as [Y _]. apply Forall_cons in Ahead as [Ahead _].
      unfold older in Y. change (stamp (k, (v, now))) with now in Y.
      destruct (fle_numbers _ _ Ahead) as [Nx _].
      apply (flt_false _ _ Nn Nx) in Ahead. congruence.
    + rewrite app_comm_cons, app_assoc in E. apply app_inj_tail in E as [-> <-].
      rewrite app_assoc. apply lookup_app_new; [assumption|].
      apply lookup_None. apply lookup_None in A.
      rewrite Forall_app in *. destruct A as [A1 A2]. apply Forall_cons in A2. tauto.
Qed.

End CacheFacts.

End Caches.

Import Caches.

(** ** The runs of the resolvers *)

Module Runs.

Import Resolver Matcher.

Lemma str_eqb_sound : sound PyStr.eqb.
Proof. intros a b. unfold PyStr.eqb. apply bool_decide_eq_true. Qed.

Lemma str_eqb_refl (s : str) : PyStr.eqb s s = true.
Proof. unfold PyStr.eqb. apply bool_decide_eq_true. reflexivity. Qed.

Lemma key_eqb_sound : sound Py.key_eqb.
Proof.
  intros a b. destruct a, b; cbn; try discriminate; intros H.
  - reflexivity.
  - apply Bool.eqb_prop in H. congruence.
  - apply Z.eqb_eq in H. congruence.
  - destruct x, x0; try discriminate.
    + apply Bool.eqb_prop in H. congruence.
    + apply Bool.eqb_prop in H. congruence.
    + reflexivity.
    + apply andb_true_iff in H as [H He]. apply andb_true_iff in H as [Hs Hm].
      apply Bool.eqb_prop in Hs. apply Pos.eqb_eq in Hm. apply Z.eqb_eq in He. congruence.
  - apply str_eqb_sound in H. congruence.
Qed.

Lemma key_eqb_refl v : Py.hashable v = true -> Py.key_eqb v v = true.
Proof.
  destruct v; cbn; try discriminate; intros _; try reflexivity.
  - apply Bool.eqb_reflx.
  - apply Z.eqb_refl.
  - destruct x; cbn; rewrite ?Bool.eqb_reflx, ?Pos.eqb_refl, ?Z.eqb_refl; reflexivity.
  - apply str_eqb_refl.
Qed.

Section Runs.
Variable rt : Py.runtime.
Variable e : env.
Hypothesis clock : clock_ok e.

Ltac fields := cbn [_location_cache _hospital_cache sent clock_reads fst snd].

Lemma after_refl w : after w w [].
Proof. unfold after. rewrite app_nil_r. auto. Qed.

Lemma after_request w w2 new rq :
  after w w2 new -> after w (snd (requests_get e rq w2)) (new ++ [rq]).
Proof.
  intros (A & B & C). unfold after, requests_get. fields.
  rewrite C, app_assoc. auto.
Qed.

Lemma request_ok rq w : world_ok w -> world_ok (snd (requests_get e rq w)).
Proof. intros O. exact O. Qed.

Lemma cached_location_spec key w w0 new :
  world_ok w0 -> after w w0 new ->
  world_ok (snd (cached_location e key w0))
  /\ after w (snd (cached_location e key w0)) new
  /\ match fst (cached_location e key w0) with
     | Some v => exists t,
         Dict.lookup Py.key_eqb key (_location_cache (snd (cached_location e key w0))) = Some (v, t)
     | None =>
         Dict.lookup Py.key_eqb key (_location_cache (snd (cached_location e key w0))) = None
     end.
Proof.
  intros [Ol Oh] (A & B & C).
  unfold cached_location, bind, get_location_cache, set_location_cache, time, ret. fields.
  destruct (Dict.lookup Py.key_eqb key (_location_cache w0)) as [[v0 t0]|] eqn:E; fields.
  - destruct (get_spec Py.key_eqb key_eqb_sound 100 (time_time e (clock_reads w0)) key
                (_location_cache w0) Ol) as (O1 & Hit & Miss).
    split; [split; assumption|]. split.
    + unfold after. fields. split; [|auto].
      intros item. unfold Cache.get. rewrite E.
      destruct (Cache.fresh _ _); cbn [snd]; [auto|].
      intros I. apply A. apply list_elem_of_In. eapply elem_of_sublist; [|apply del_sublist].
      apply list_elem_of_In. exact I.
    + destruct (fst (Cache.get _ _ _ _)) as [v|] eqn:F.
      * destruct (Hit v eq_refl) as (Eq & t & L & _). rewrite Eq. eauto.
      * apply Miss. reflexivity.
  - split; [split; assumption|]. split; [split; auto|]. exact E.
Qed.

Lemma stored_resolved ip v w w2 new :
  Py.hashable ip = true -> world_ok w2 -> after w w2 new ->
  Dict.lookup Py.key_eqb ip (_location_cache w2) = None ->
  resolved e ip w (Py.Ok v) (snd (store_location e ip v w2)).
Proof.
  intros H [Ol Oh] (Sub & Eh & Es) Miss.
  unfold store_location, bind, time, ret, get_location_cache, set_location_cache. fields.
  unfold resolved, world_ok. fields. rewrite Eh, Es.
  pose proof (key_eqb_refl ip H) as R.
  destruct (put_spec Py.key_eqb key_eqb_sound 100 (time_time e (clock_reads w2)) ip v
              (_location_cache w2) R (clock _) Ol) as (Ok' & _).
  split; [split; [exact Ok'|rewrite <- Eh; exact Oh]|]. split; [reflexivity|].
  exists new. split; [reflexivity|]. intros v' [= <-] Ahead _.
  exists (time_time e (clock_reads w2)).
  apply (put_keeps_new Py.key_eqb key_eqb_sound); try assumption; [lia|apply clock|].
  apply Forall_forall. intros item I. apply Ahead, Sub, list_elem_of_In, I.
Qed.

Lemma geoip_prefix (x : str) :
  startswith (u "https://api.ip.sb/geoip/" ++ x) (u "https://api.ip.sb/geoip") = true.
Proof. vm_compute. reflexivity. Qed.

Lemma last_provider_request ip :
  to_last_provider
    {| url := if Py.truthy ip then u "https://api.ip.sb/geoip/" ++ Py.to_str rt ip
              else u "https://api.ip.sb/geoip";
       params := []; headers := user_agent; timeout := 5 |} = true.
Proof.
  unfold to_last_provider. cbn [url]. destruct (Py.truthy ip).
  - apply geoip_prefix.
  - vm_compute. reflexivity.
Qed.

Lemma fallback_resolved ip key w w2 new :
  world_ok w2 -> after w w2 new ->
  resolved e key w (Py.Ok (fst (_get_location_fallback rt e ip w2)))
    (snd (_get_location_fallback rt e ip w2)).
Proof.
  intros [Ol Oh] (Sub & Eh & Es).
  unfold _get_location_fallback, bind, requests_get. fields.
  set (rq := {| url := _; params := []; headers := user_agent; timeout := 5 |}).
  assert (Q : forall v, resolved e key w (Py.Ok v)
                {| _location_cache := _location_cache w2; _hospital_cache := _hospital_cache w2;
                   sent := sent w2 ++ [rq]; clock_reads := clock_reads w2 |}).
  { intros v. unfold resolved, world_ok. fields. rewrite Es.
    split; [split; [exact Ol|exact Oh]|]. split; [exact Eh|].
    exists (new ++ [rq]). split; [rewrite app_assoc; reflexivity|].
    intros v' _ _ F. rewrite Forall_app in F. destruct F as [_ F].
    apply Forall_cons in F as [F _]. unfold not_last in F.
    unfold rq in F. rewrite last_provider_request in F. discriminate. }
  destruct (ipsb_location ip _); unfold ret; fields; apply Q.
Qed.

Lemma stored_run ip v w w2 new l w3 :
  Py.hashable ip = true -> world_ok w2 -> after w w2 new ->
  Dict.lookup Py.key_eqb ip (_location_cache w2) = None ->
  store_location e ip v w2 = (l, w3) ->
  resolved e ip w (Py.Ok l) w3.
Proof.
  intros H O A Miss S. pose proof (stored_resolved ip v w w2 new H O A Miss) as R.
  rewrite S in R. apply (f_equal fst) in S. cbn [fst] in S.
  change (fst (store_location e ip v w2)) with v in S. subst l. exact R.
Qed.

Lemma request_run w w2 new rq r w3 :
  world_ok w2 -> after w w2 new -> requests_get e rq w2 = (r, w3) ->
  world_ok w3 /\ after w w3 (new ++ [rq]) /\ _location_cache w3 = _location_cache w2.
Proof.
  intros O A R. pose proof (after_request w w2 new rq A) as A'. rewrite R in A'.
  unfold requests_get in R. injection R as <- <-. auto.
Qed.

Lemma locate_resolved ip w w0 new r w' :
  Py.hashable ip = true -> world_ok w0 -> after w w0 new ->
  locate rt e ip w0 = (r, w') -> resolved e ip w r w'.
Proof.
  intros H O A L. unfold locate in L. rewrite H in L. cbn [negb] in L.
  unfold bind at 1 in L.
  destruct (cached_location_spec ip w w0 new O A) as (O1 & A1 & Hit).
  destruct (cached_location e ip w0) as [[v|] w1]; cbn [fst snd] in *.
  - unfold ret in L. injection L as <- <-.
    destruct O1 as [Ol Oh], A1 as (Sub & Eh & Es). unfold resolved.
    split; [split; assumption|]. split; [assumption|].
    exists new. split; [assumption|]. intros v' [= <-] _ _. exact Hit.
  - unfold bind at 1 in L.
    match type of L with (let '(_, _) := ?c in _) = _ =>
      destruct c as [first w2] eqn:F end.
    assert (F' : exists new1, world_ok w2 /\ after w w2 new1
                 /\ _location_cache w2 = _location_cache w1).
    { destruct (PyStr.truthy (AMAP_API_KEY e)).
      - unfold bind at 1 in F.
        destruct (requests_get e _ w1) as [r1 w1'] eqn:R.
        destruct (request_run w w1 new _ r1 w1' O1 A1 R) as (? & ? & ?).
        unfold ret in F. injection F as <- <-. eauto.
      - unfold ret in F. injection F as <- <-. eauto. }
    destruct F' as (new1 & O2 & A2 & E2). rewrite <- E2 in Hit.
    destruct first as [v|].
    + unfold bind at 1 in L. destruct (store_location e ip v w2) as [l w3] eqn:S.
      unfold ret in L. injection L as <- <-.
      exact (stored_run ip v w w2 new1 l w3 H O2 A2 Hit S).
    + unfold bind at 1 in L.
      destruct (requests_get e _ w2) as [r3 w3] eqn:R3.
      destruct (request_run w w2 new1 _ r3 w3 O2 A2 R3) as (O3 & A3 & E3).
      rewrite <- E3 in Hit.
      destruct (ipinfo_location rt ip r3) as [v|].
      * unfold bind at 1 in L. destruct (store_location e ip v w3) as [l w4] eqn:S.
        unfold ret in L. injection L as <- <-.
        exact (stored_run ip v w w3 _ l w4 H O3 A3 Hit S).
      * unfold bind at 1 in L.
        destruct (requests_get e _ w3) as [r4 w4] eqn:R4.
        destruct (request_run w w3 _ _ r4 w4 O3 A3 R4) as (O4 & A4 & E4).
        rewrite <- E4 in Hit.
        destruct (ipapi_location ip r4) as [v|].
        -- unfold bind at 1 in L. destruct (store_location e ip v w4) as [l w5] eqn:S.
           unfold ret in L. injection L as <- <-.
           exact (stored_run ip v w w4 _ l w5 H O4 A4 Hit S).
        -- unfold bind at 1 in L.
           pose proof (fallback_resolved ip ip w w4 _ O4 A4) as Fb.
           destruct (_get_location_fallback rt e ip w4) as [l w5].
           cbn [fst snd] in Fb. unfold ret in L. injection L as <- <-. exact Fb.
Qed.

Lemma snoc_length (l : list request) rq : length (l ++ [rq]) = S (length l).
Proof. rewrite length_app. cbn. lia. Qed.

Lemma locate_chain ip w :
  Py.truthy ip = true -> Py.hashable ip = true ->
  Dict.lookup Py.key_eqb ip (_location_cache w) = None ->
  fst (get_location_by_ip rt e ip w) = Py.Ok (chain_result rt e ip (length (sent w))).
Proof.
  intros T H Miss. unfold get_location_by_ip. rewrite T.
  unfold locate. rewrite H. cbn [negb].
  unfold cached_location, get_location_cache. unfold bind at 1 2. rewrite Miss.
  unfold ret at 1. unfold chain_result, _get_location_fallback. rewrite T.
  fold (amap_request rt e ip) (ipinfo_request rt ip) (ipapi_request rt ip) (ipsb_request rt ip).
  unfold bind, requests_get, store_location, time, get_location_cache, set_location_cache, ret.
  destruct (PyStr.truthy (AMAP_API_KEY e)); fields.
  - destruct (amap_location rt ip _) as [v|]; fields; [reflexivity|]. cbn [first_accepted].
    rewrite !snoc_length.
    destruct (ipinfo_location rt ip _) as [v|]; fields; [reflexivity|].
    rewrite !snoc_length.
    destruct (ipapi_location ip _) as [v|]; fields; [reflexivity|].
    rewrite !snoc_length.
    destruct (ipsb_location ip _) as [v|]; reflexivity.
  - cbn [first_accepted].
    destruct (ipinfo_location rt ip _) as [v|]; fields; [reflexivity|].
    rewrite !snoc_length.
    destruct (ipapi_location ip _) as [v|]; fields; [reflexivity|].
    rewrite !snoc_length.
    destruct (ipsb_location ip _) as [v|]; reflexivity.
Qed.

Lemma public_ip_run services w ip w1 :
  Forall (fun s => startswith s (u "https://api.ip.sb/geoip") = false) services ->
  world_ok w ->
  get_public_ip_from e services w = (ip, w1) ->
  exists new, world_ok w1 /\ after w w1 new /\ Forall not_last new
              /\ _location_cache w1 = _location_cache w.
Proof.
  intros F. revert w. induction F as [|s services Hs F IH]; intros w O G.
  - cbn in G. unfold ret in G. injection G as <- <-.
    exists []. split; [assumption|]. split; [apply after_refl|]. split; [constructor|reflexivity].
  - cbn [get_public_ip_from] in G. unfold bind at 1 in G.
    destruct (requests_get e _ w) as [r w2] eqn:R.
    destruct (request_run w w [] _ r w2 O (after_refl w) R) as (O2 & A2 & E2).
    destruct (public_ip_of s r).
    + unfold ret in G. injection G as <- <-. eexists. split; [exact O2|].
      split; [exact A2|]. split; [|exact E2]. constructor; [exact Hs|constructor].
    + destruct (IH w2 O2 G) as (new & O1 & A1 & N & E1).
      eexists. split; [exact O1|].
      destruct A1 as (S1 & H1 & X1), A2 as (S2 & H2 & X2). split; [|split].
      * unfold after. split; [auto|]. split; [congruence|]. rewrite X1, X2.
        rewrite <- app_assoc. reflexivity.
      * cbn. constructor; [exact Hs|exact N].
      * congruence.
Qed.

Lemma get_location_by_ip_resolved ip w r w' :
  world_ok w -> get_location_by_ip rt e ip w = (r, w') ->
  world_ok w'
  /\ _hospital_cache w' = _hospital_cache w
  /\ forall v, r = Py.Ok v -> clock_ahead e w ->
       Forall not_last (requests_of w w') ->
       exists key t,
         Dict.lookup Py.key_eqb key (_location_cache w') = Some (v, t)
         /\ (Py.truthy ip = true -> key = ip).
Proof.
  intros O G. unfold get_location_by_ip in G.
  assert (Fin : forall key w0 new,
            world_ok w0 -> after w w0 new -> Forall not_last new ->
            (Py.truthy ip = true -> key = ip) ->
            locate rt e key w0 = (r, w') ->
            world_ok w' /\ _hospital_cache w' = _hospital_cache w
            /\ forall v, r = Py.Ok v -> clock_ahead e w ->
                 Forall not_last (requests_of w w') ->
                 exists key t,
                   Dict.lookup Py.key_eqb key (_location_cache w') = Some (v, t)
                   /\ (Py.truthy ip = true -> key = ip)).
  { intros key w0 new O0 A0 N0 Hk L.
    destruct (Py.hashable key) eqn:H.
    - destruct (locate_resolved key w w0 new r w' H O0 A0 L) as (O' & Eh & new' & Es & P).
      split; [assumption|]. split; [assumption|].
      intros v Hr Ahead N. unfold requests_of in N. rewrite Es, drop_app_length in N.
      destruct (P v Hr Ahead N) as [t Lk]. exists key, t. auto.
    - unfold locate in L. rewrite H in L. cbn [negb] in L. unfold ret in L.
      injection L as <- <-. destruct A0 as (_ & Eh & _).
      split; [assumption|]. split; [assumption|]. discriminate. }
  destruct (Py.truthy ip) eqn:T.
  - apply (Fin ip w [] O (after_refl w)); auto.
  - unfold bind at 1 in G. unfold get_public_ip in G.
    destruct (get_public_ip_from e ip_services w) as [ip' w1] eqn:P.
    destruct (public_ip_run ip_services w ip' w1) as (new & O1 & A1 & N1 & E1);
      [vm_compute; repeat constructor|assumption|assumption|].
    destruct (Py.truthy ip').
    + apply (Fin ip' w1 new O1 A1 N1); [discriminate|assumption].
    + unfold bind at 1 in G.
      pose proof (fallback_resolved Py.VNone Py.VNone w w1 new O1 A1) as Fb.
      destruct (_get_location_fallback rt e Py.VNone w1) as [l w2].
      cbn [fst snd] in Fb. unfold ret in G. injection G as <- <-.
      destruct Fb as (O' & Eh & new' & Es & Pp).
      split; [assumption|]. split; [assumption|].
      intros v Hr Ahead N. unfold requests_of in N. rewrite Es, drop_app_length in N.
      destruct (Pp v Hr Ahead N) as [t Lk]. exists Py.VNone, t. split; [assumption|discriminate].
Qed.

Lemma cached_hospital_ok key w :
  world_ok w ->
  world_ok (snd (cached_hospital e key w))
  /\ _location_cache (snd (cached_hospital e key w)) = _location_cache w.
Proof.
  intros [Ol Oh].
  unfold cached_hospital, bind, get_hospital_cache, set_hospital_cache, time, ret. fields.
  destruct (Dict.lookup PyStr.eqb key (_hospital_cache w)) as [[v0 t0]|] eqn:E; fields.
  - destruct (get_spec PyStr.eqb str_eqb_sound 200 (time_time e (clock_reads w)) key
                (_hospital_cache w) Oh) as (O1 & _).
    split; [split; assumption|reflexivity].
  - split; [split; assumption|reflexivity].
Qed.

Lemma store_hospital_ok key v w :
  world_ok w ->
  world_ok (snd (store_hospital e key v w))
  /\ _location_cache (snd (store_hospital e key v w)) = _location_cache w.
Proof.
  intros [Ol Oh].
  unfold store_hospital, bind, get_hospital_cache, set_hospital_cache, time, ret. fields.
  destruct (put_spec PyStr.eqb str_eqb_sound 200 (time_time e (clock_reads w)) key v
              (_hospital_cache w) (str_eqb_refl key) (clock _) Oh) as (O1 & _).
  split; [split; assumption|reflexivity].
Qed.

Lemma get_hospital_location_ok hospital_name project_name city w r w' :
  world_ok w ->
  get_hospital_location rt e hospital_name project_name city w = (r, w') ->
  world_ok w' /\ _location_cache w' = _location_cache w.
Proof.
  intros O G. unfold get_hospital_location in G.
  destruct (negb (PyStr.truthy (AMAP_API_KEY e)));
    [unfold ret in G; injection G as <- <-; auto|].
  destruct (negb (opt_truthy _)); [unfold ret in G; injection G as <- <-; auto|].
  unfold bind at 1 in G.
  match type of G with (let '(_, _) := cached_hospital e ?k w in _) = _ =>
    destruct (cached_hospital_ok k w O) as (O1 & E1);
    destruct (cached_hospital e k w) as [[hit|] w1] end; cbn [fst snd] in *.
  - unfold ret in G. injection G as <- <-. auto.
  - unfold bind at 1 in G.
    match type of G with (let '(_, _) := requests_get e ?rq w1 in _) = _ =>
      assert (O2 : world_ok (snd (requests_get e rq w1))) by exact O1;
      assert (E2 : _location_cache (snd (requests_get e rq w1)) = _location_cache w)
        by exact E1;
      destruct (requests_get e rq w1) as [r2 w2] end.
    cbn [fst snd] in *.
    destruct (geocode_location rt r2) as [v|].
    + match type of G with store_hospital e ?k v w2 = _ =>
        destruct (store_hospital_ok k v w2 O2) as (O3 & E3) end.
      rewrite G in O3, E3. cbn [snd] in *. split; [exact O3|congruence].
    + unfold ret in G. injection G as <- <-. auto.
Qed.

(** Without a key no request is sent and nothing changes. *)
Lemma get_hospital_location_no_key hospital_name project_name city w :
  AMAP_API_KEY e = [] ->
  get_hospital_location rt e hospital_name project_name city w = (Py.VNone, w).
Proof. intros K. unfold get_hospital_location. rewrite K. reflexivity. Qed.

Lemma empty_world_ok : world_ok Examples.empty_world.
Proof.
  split; (split; [split; constructor|unfold Dict.len; cbn; lia]).
Qed.

End Runs.

Section Providers.
Variable rt : Py.runtime.

Lemma or_else_truthy a b :
  Py.truthy (Py.or_else a b) = true -> Py.truthy a = true \/ Py.truthy b = true.
Proof. unfold Py.or_else. destruct (Py.truthy a) eqn:E; [auto|]. auto. Qed.

Lemma amap_located ip r v : amap_location rt ip r = Some v -> located v.
Proof.
  unfold amap_location. destruct (answer r) as [data|]; [|discriminate].
  destruct (_ && _); [|discriminate].
  set (province := str_or_empty rt (first_of_list (Py.field data "province" empty))).
  set (city := str_or_empty rt (first_of_list (Py.field data "city" empty))).
  destruct (negb (PyStr.truthy province) && negb (PyStr.truthy city)) eqn:E; [discriminate|].
  intros [= <-]. eexists. split; [reflexivity|]. split; [vm_compute; reflexivity|].
  change (Py.truthy (Py.VStr city) = true \/ Py.truthy (Py.VStr province) = true).
  cbn [Py.truthy]. destruct (PyStr.truthy province), (PyStr.truthy city); auto; discriminate.
Qed.

Lemma ipinfo_located ip r v : ipinfo_location rt ip r = Some v -> located v.
Proof.
  unfold ipinfo_location. destruct (answer r) as [data|]; [|discriminate].
  destruct (Py.truthy (Py.or_else _ _)) eqn:E; [|discriminate].
  destruct (Py.field data "loc" empty); try discriminate.
  destruct (coordinate_of _ _ _) as [lat|]; [|discriminate].
  destruct (coordinate_of _ _ _) as [lon|]; [|discriminate].
  intros [= <-]. eexists. split; [reflexivity|]. split; [vm_compute; reflexivity|].
  change (Py.truthy (Py.field data "city" empty) = true
          \/ Py.truthy (Py.field data "region" empty) = true).
  apply or_else_truthy in E. unfold Py.field in *.
  destruct E as [E|E]; [left|right]; destruct (Py.assoc _ data); try exact E; discriminate.
Qed.

Lemma ipsb_located ip r v : ipsb_location ip r = Some v -> located v.
Proof.
  unfold ipsb_location. destruct (answer r) as [data|]; [|discriminate].
  destruct (Py.truthy (Py.or_else _ _)) eqn:E; [|discriminate].
  intros [= <-]. eexists. split; [reflexivity|]. split; [vm_compute; reflexivity|].
  change (Py.truthy (Py.field data "city" empty) = true
          \/ Py.truthy (Py.field data "region" empty) = true).
  apply or_else_truthy in E. unfold Py.field in *.
  destruct E as [E|E]; [left|right]; destruct (Py.assoc _ data); try exact E; discriminate.
Qed.

End Providers.

Lemma collect_none (l : list (project * Py.value)) (k : Z) :
  Forall (fun ph => snd ph = Py.VNone) l ->
  default Py.VNone (collect l !! k) = Py.VNone.
Proof.
  unfold collect.
  assert (G : forall (m : gmap Z Py.value),
            Forall (fun ph => snd ph = Py.VNone) l ->
            default Py.VNone (m !! k) = Py.VNone ->
            default Py.VNone
              (foldl (fun m ph => <[project_id (fst ph) := snd ph]> m) m l !! k) = Py.VNone).
  { induction l as [|[p v] l IH]; intros m F Hm; [exact Hm|].
    apply Forall_cons in F as [V F]. cbn [snd] in V. subst v.
    cbn [foldl fst snd]. apply (IH _ F). destruct (decide (project_id p = k)) as [->|N].
    - rewrite lookup_insert_eq. reflexivity.
    - rewrite lookup_insert_ne by exact N. exact Hm. }
  intros F. apply (G _ F). rewrite lookup_empty. reflexivity.
Qed.

End Runs.

Import Runs.

Module Lookups.

Lemma Forall_of_sublist {A} (P : A -> Prop) (l1 l2 : list A) :
  sublist l1 l2 -> Forall P l2 -> Forall P l1.
Proof.
  intros S F. rewrite Forall_forall in *. intros x I. apply F.
  eapply elem_of_sublist; eassumption.
Qed.

Lemma sublist_map {A B} (f : A -> B) (l1 l2 : list A) :
  sublist l1 l2 -> sublist (List.map f l1) (List.map f l2).
Proof. induction 1; cbn; constructor; assumption. Qed.

Section Lookups.
Context {K : Type} (keq : K -> K -> bool).
Hypothesis keq_sound : sound keq.

Lemma lookup_del_same k (d : Cache.cache K) :
  NoDup (List.map fst d) -> Dict.lookup keq k (Dict.del keq k d) = None.
Proof.
  induction d as [|[k' v'] d IH]; cbn; [reflexivity|]. intros N.
  apply NoDup_cons in N as [N1 N].
  destruct (keq k k') eqn:E.
  - apply keq_sound in E. subst k'. apply Caches.lookup_None.
    apply Forall_forall. intros [k2 v2] I. cbn.
    destruct (keq k k2) eqn:E2; [|reflexivity].
    apply keq_sound in E2. subst k2. exfalso. apply N1.
    apply list_elem_of_In, in_map_iff. exists (k, v2). split; [reflexivity|].
    apply list_elem_of_In. exact I.
  - cbn. rewrite E. apply IH. exact N.
Qed.

Lemma lookup_del_Some k k' x (d : Cache.cache K) :
  NoDup (List.map fst d) ->
  Dict.lookup keq k (Dict.del keq k' d) = Some x ->
  Dict.lookup keq k d = Some x.
Proof.
  induction d as [|[k2 v2] d IH]; cbn; [discriminate|]. intros N.
  apply NoDup_cons in N as [N1 N].
  destruct (keq k' k2) eqn:E'.
  - intros L. destruct (keq k k2) eqn:E; [|exact L].
    exfalso. apply keq_sound in E. subst k2.
    apply Caches.lookup_Some in L as (k3 & I & E3). apply keq_sound in E3. subst k3.
    apply N1. apply list_elem_of_In, in_map_iff. exists (k, x). auto.
  - cbn. destruct (keq k k2); [auto|]. apply IH. exact N.
Qed.

(** After a write under [k] an entry under [k] is the one written. *)
Lemma lookup_put_same max_entries t k v x (c : Cache.cache K) :
  keq k k = true -> NoDup (List.map fst c) ->
  Dict.lookup keq k (Cache.put keq max_entries t k v c) = Some x ->
  x = (v, t).
Proof.
  intros R N.
  pose proof (Caches.lookup_set keq k (v, t) c R) as L.
  pose proof (Caches.set_keys_distinct keq k (v, t) c R N) as N1.
  unfold Cache.put. destruct (_ >? _); [|congruence].
  destruct (Cache.oldest_key _); [|congruence].
  intros L'. apply lookup_del_Some in L'; [congruence|exact N1].
Qed.

(** A predicate on the results survives a write of a result that has it. *)
Lemma put_results (P : Py.value -> Prop) max_entries t k v (c : Cache.cache K) :
  P v ->
  Forall (fun item => P (fst (snd item))) c ->
  Forall (fun item => P (fst (snd item))) (Cache.put keq max_entries t k v c).
Proof.
  intros S F.
  assert (F1 : Forall (fun item => P (fst (snd item))) (Dict.set keq k (v, t) c)).
  { pose proof (Caches.set_Forall keq (fun _ => True)
                  (fun x : Py.value * float => P (fst x)) k (v, t) c I S) as G.
    eapply Forall_impl; [apply G|].
    - eapply Forall_impl; [exact F|]. cbn. auto.
    - cbn. tauto. }
  unfold Cache.put. destruct (_ >? _); [|exact F1].
  destruct (Cache.oldest_key _); [|exact F1].
  eapply Forall_of_sublist; [|exact F1]. apply Caches.del_sublist.
Qed.

Lemma del_results (P : Py.value -> Prop) k (c : Cache.cache K) :
  Forall (fun item => P (fst (snd item))) c ->
  Forall (fun item => P (fst (snd item))) (Dict.del keq k c).
Proof. intros F. eapply Forall_of_sublist; [|exact F]. apply Caches.del_sublist. Qed.

End Lookups.

End Lookups.

Module PublicIp.

Import Resolver Notions Matcher Examples.

Section PublicIp.
Variable e : env.

Lemma public_ip_of_truthy s r v : public_ip_of s r = Some v -> Py.truthy v = true.
Proof.
  unfold public_ip_of. destruct r as [resp|]; [|discriminate].
  destruct (status_code resp =? 200); [|discriminate].
  destruct (endswith s (u "json")).
  - destruct (json resp) as [[]|]; try discriminate.
    destruct (Py.truthy (Py.or_else _ _)) eqn:T; [|discriminate].
    intros [= <-]. exact T.
  - destruct (PyStr.truthy (strip (text resp))) eqn:T; [|discriminate].
    destruct (_ =? _)%nat; [|discriminate]. cbn [andb]. intros [= <-]. exact T.
Qed.

Lemma get_public_ip_from_spec services w :
  exists k,
    (k <= length services)%nat
    /\ snd (get_public_ip_from e services w)
       = with_sent w (List.map service_request (take k services))
    /\ (forall j, (S j < k)%nat -> service_answer e services (length (sent w)) j = None)
    /\ match k with
       | O => services = [] /\ fst (get_public_ip_from e services w) = Py.VNone
       | S j =>
           match service_answer e services (length (sent w)) j with
           | Some ip => fst (get_public_ip_from e services w) = ip
           | None => k = length services
                     /\ fst (get_public_ip_from e services w) = Py.VNone
           end
       end.
Proof.
  revert w. induction services as [|s services IH]; intros w.
  - exists O. cbn. unfold with_sent. rewrite app_nil_r. destruct w; auto.
  - cbn [get_public_ip_from]. unfold bind, requests_get.
    fold (service_request s).
    destruct (public_ip_of s (http_get e (length (sent w)) (service_request s))) as [ip|] eqn:P.
    + exists 1%nat. cbn [length take List.map fst snd ret]. split; [lia|].
      split; [reflexivity|]. split; [intros j H; lia|].
      unfold service_answer. cbn [lookup list_lookup]. rewrite Nat.add_0_r, P. reflexivity.
    + set (w1 := {| _location_cache := _ |}).
      destruct (IH w1) as (k & Hk & Hw & Hrej & Hlast).
      exists (S k). split; [cbn; lia|]. split.
      { rewrite Hw. unfold with_sent, w1. cbn [_location_cache _hospital_cache sent clock_reads].
        cbn [take List.map]. rewrite <- app_assoc. reflexivity. }
      assert (L : length (sent w1) = S (length (sent w))).
      { unfold w1. cbn [sent]. rewrite length_app. cbn. lia. }
      assert (Shift : forall j, service_answer e (s :: services) (length (sent w)) (S j)
                                = service_answer e services (length (sent w1)) j).
      { intros j. unfold service_answer. cbn [lookup list_lookup].
        change ((s :: services) !! S j) with (services !! j).
        rewrite L. replace (length (sent w) + S j)%nat with (S (length (sent w)) + j)%nat by lia.
        reflexivity. }
      split.
      * intros [|j] H.
        -- unfold service_answer. cbn [lookup list_lookup]. rewrite Nat.add_0_r. exact P.
        -- rewrite Shift. apply Hrej. lia.
      * destruct k as [|j].
        -- destruct Hlast as [-> Hr]. unfold service_answer. cbn [lookup list_lookup].
           rewrite Nat.add_0_r, P. split; [reflexivity|exact Hr].
        -- rewrite Shift. destruct (service_answer e services (length (sent w1)) j).
           ++ exact Hlast.
           ++ destruct Hlast as [-> Hr]. split; [reflexivity|exact Hr].
Qed.

End PublicIp.

(** X1. [get_public_ip] asks the five services in their order, each with a
    timeout of three seconds, and stops at the first answer that it accepts:
    the requests of the run are those to the first [k] services, the answers
    of the services before the last one asked were refused, the result is the
    answer of the last one asked when it is accepted, and the result is
    [None] only when all five were asked and refused. Neither cache is
    touched and the clock is not read. *)
Theorem public_ip_services_in_order (e : env) (w : world) :
  exists k,
    (1 <= k <= 5)%nat
    /\ snd (get_public_ip e w)
       = with_sent w (List.map service_request (take k ip_services))
    /\ (forall j, (S j < k)%nat ->
          service_answer e ip_services (length (sent w)) j = None)
    /\ (fst (get_public_ip e w) = Py.VNone ->
        k = 5%nat /\ service_answer e ip_services (length (sent w)) 4 = None)
    /\ (fst (get_public_ip e w) <> Py.VNone ->
        service_answer e ip_services (length (sent w)) (k - 1)
        = Some (fst (get_public_ip e w))).
Proof.
  destruct (get_public_ip_from_spec e ip_services w) as (k & Hk & Hw & Hrej & Hlast).
  fold (get_public_ip e) in *.
  destruct k as [|j]; [destruct Hlast as [Hnil _]; discriminate|].
  exists (S j). split; [cbn in Hk; lia|]. split; [exact Hw|]. split; [exact Hrej|].
  replace (S j - 1)%nat with j by lia.
  destruct (service_answer e ip_services (length (sent w)) j) as [ip|] eqn:A.
  - split.
    + intros N. exfalso. rewrite Hlast in N. rewrite N in A.
      unfold service_answer in A. destruct (ip_services !! j); [|discriminate].
      apply public_ip_of_truthy in A. cbn [Py.truthy] in A. discriminate.
    + intros _. rewrite Hlast. reflexivity.
  - destruct Hlast as [Hj Hr]. split.
    + intros _. change (length ip_services) with 5%nat in Hj.
      split; [exact Hj|]. injection Hj as ->. exact A.
    + intros N. destruct (N Hr).
Qed.




End PublicIp.

Module Locating.

Import Resolver Notions Runs Lookups Matcher Examples.

Ltac fields := cbn [_location_cache _hospital_cache sent clock_reads fst snd].

Section Locating.
Variable rt : Py.runtime.
Variable e : env.


Lemma cached_location_eq key w :
  cached_location e key w =
  match Dict.lookup Py.key_eqb key (_location_cache w) with
  | Some (v, t) =>
      if Cache.fresh (now e w) t then (Some v, tick w)
      else (None, tick (with_location_cache w (Dict.del Py.key_eqb key (_location_cache w))))
  | None => (None, w)
  end.
Proof.
  unfold cached_location, bind, get_location_cache, set_location_cache, time, ret, Cache.get, now.
  fields. destruct (Dict.lookup Py.key_eqb key (_location_cache w)) as [[v t]|]; [|reflexivity].
  destruct (Cache.fresh _ t); reflexivity.
Qed.

Lemma store_location_eq ip v w :
  store_location e ip v w =
  (v, tick (with_location_cache w (Cache.put Py.key_eqb 100 (now e w) ip v (_location_cache w)))).
Proof. reflexivity. Qed.

Lemma requests_get_eq rq w :
  requests_get e rq w = (http_get e (length (sent w)) rq, with_sent w [rq]).
Proof. reflexivity. Qed.

Lemma with_sent_app w l1 l2 : with_sent (with_sent w l1) l2 = with_sent w (l1 ++ l2).
Proof. unfold with_sent. fields. rewrite app_assoc. reflexivity. Qed.

Lemma with_sent_length w l : length (sent (with_sent w l)) = (length (sent w) + length l)%nat.
Proof. unfold with_sent. fields. apply length_app. Qed.

Lemma bind_eq {A B} (c : io A) (k : A -> io B) w :
  bind c k w = k (fst (c w)) (snd (c w)).
Proof. unfold bind. destruct (c w). reflexivity. Qed.

Ltac step :=
  repeat (progress (rewrite ?bind_eq, ?requests_get_eq, ?store_location_eq; unfold ret; fields;
                    rewrite ?with_sent_app, ?with_sent_length; cbn [length app Nat.add])).

Lemma locate_miss ip w w1 :
  Py.hashable ip = true -> Py.truthy ip = true ->
  cached_location e ip w = (None, w1) ->
  let ps := providers rt e ip in
  let n := length (sent w1) in
  exists i,
    (i < length ps)%nat
    /\ (forall j, (j < i)%nat -> provider_answer e ps n j = None)
    /\ ((S i < length ps)%nat
        /\ (exists v, provider_answer e ps n i = Some v
            /\ locate rt e ip w
               = (Py.Ok v,
                  snd (store_location e ip v (with_sent w1 (List.map fst (take (S i) ps))))))
        \/ S i = length ps
           /\ locate rt e ip w
              = (Py.Ok (default (no_location ip) (provider_answer e ps n i)),
                 with_sent w1 (List.map fst ps))).
Proof.
  intros H T C ps n. unfold locate. rewrite H. cbn [negb]. rewrite bind_eq, C. fields.
  unfold _get_location_fallback. rewrite T.
  fold (amap_request rt e ip) (ipinfo_request rt ip) (ipapi_request rt ip) (ipsb_request rt ip).
  unfold ps, providers, provider_answer, n.
  destruct (PyStr.truthy (AMAP_API_KEY e)); cbn [app length].
  - step. destruct (amap_location rt ip _) as [v|] eqn:A.
    { exists 0%nat. split; [lia|]. split; [intros j Hj; lia|]. left. split; [lia|].
      exists v. cbn [lookup list_lookup fst snd]. rewrite Nat.add_0_r. split; [exact A|].
      step. reflexivity. }
    step. destruct (ipinfo_location rt ip _) as [v|] eqn:B.
    { exists 1%nat. split; [lia|]. split.
      { intros [|j] Hj; [|lia]. cbn [lookup list_lookup fst snd]. rewrite Nat.add_0_r. exact A. }
      left. split; [lia|]. exists v. cbn [lookup list_lookup fst snd].
      split; [exact B|]. step. reflexivity. }
    step. destruct (ipapi_location ip _) as [v|] eqn:D.
    { exists 2%nat. split; [lia|]. split.
      { intros [|[|j]] Hj; [| |lia]; cbn [lookup list_lookup fst snd].
        - rewrite Nat.add_0_r. exact A.
        - exact B. }
      left. split; [lia|]. exists v. cbn [lookup list_lookup fst snd].
      split; [exact D|]. step. reflexivity. }
    exists 3%nat. split; [lia|]. split.
    { intros [|[|[|j]]] Hj; [| | |lia]; cbn [lookup list_lookup fst snd].
      - rewrite Nat.add_0_r. exact A.
      - exact B.
      - exact D. }
    right. split; [reflexivity|]. cbn [lookup list_lookup fst snd List.map].
    step. destruct (ipsb_location ip _); reflexivity.
  - step. destruct (ipinfo_location rt ip _) as [v|] eqn:B.
    { exists 0%nat. split; [lia|]. split; [intros j Hj; lia|].
      left. split; [lia|]. exists v. cbn [lookup list_lookup fst snd].
      rewrite Nat.add_0_r. split; [exact B|]. step. reflexivity. }
    step. destruct (ipapi_location ip _) as [v|] eqn:D.
    { exists 1%nat. split; [lia|]. split.
      { intros [|j] Hj; [|lia]; cbn [lookup list_lookup fst snd].
        rewrite Nat.add_0_r. exact B. }
      left. split; [lia|]. exists v. cbn [lookup list_lookup fst snd].
      split; [exact D|]. step. reflexivity. }
    exists 2%nat. split; [lia|]. split.
    { intros [|[|j]] Hj; [| |lia]; cbn [lookup list_lookup fst snd].
      - rewrite Nat.add_0_r. exact B.
      - exact D. }
    right. split; [reflexivity|]. cbn [lookup list_lookup fst snd List.map].
    step. destruct (ipsb_location ip _); reflexivity.
Qed.

Lemma cached_miss ip w w1 :
  cached_location e ip w = (None, w1) ->
  Dict.lookup Py.key_eqb ip (_location_cache w) = None /\ w1 = w
  \/ exists v t,
       Dict.lookup Py.key_eqb ip (_location_cache w) = Some (v, t)
       /\ Cache.fresh (now e w) t = false
       /\ w1 = tick (with_location_cache w (Dict.del Py.key_eqb ip (_location_cache w))).
Proof.
  rewrite cached_location_eq.
  destruct (Dict.lookup Py.key_eqb ip (_location_cache w)) as [[v t]|].
  - destruct (Cache.fresh (now e w) t) eqn:F; [discriminate|].
    intros [= <-]. right. exists v, t. auto.
  - intros [= <-]. auto.
Qed.

(** The paths of [locate] for an address that can be a key. *)
Lemma locate_cases ip w (P : Py.result Py.value * world -> Prop) :
  Py.truthy ip = true -> Py.hashable ip = true ->
  (forall v t,
     Dict.lookup Py.key_eqb ip (_location_cache w) = Some (v, t) ->
     Cache.fresh (now e w) t = true -> P (Py.Ok v, tick w)) ->
  (forall w1 i v,
     cached_location e ip w = (None, w1) ->
     (S i < length (providers rt e ip))%nat ->
     (forall j, (j < i)%nat ->
        provider_answer e (providers rt e ip) (length (sent w1)) j = None) ->
     provider_answer e (providers rt e ip) (length (sent w1)) i = Some v ->
     P (Py.Ok v,
        snd (store_location e ip v
               (with_sent w1 (List.map fst (take (S i) (providers rt e ip))))))) ->
  (forall w1 i,
     cached_location e ip w = (None, w1) ->
     S i = length (providers rt e ip) ->
     (forall j, (j < i)%nat ->
        provider_answer e (providers rt e ip) (length (sent w1)) j = None) ->
     P (Py.Ok (default (no_location ip)
                 (provider_answer e (providers rt e ip) (length (sent w1)) i)),
        with_sent w1 (List.map fst (providers rt e ip)))) ->
  P (locate rt e ip w).
Proof.
  intros T H Hit Stored Last.
  destruct (cached_location e ip w) as [[v|] w1] eqn:C.
  - assert (L : locate rt e ip w = (Py.Ok v, w1)).
    { unfold locate. rewrite H. cbn [negb]. rewrite bind_eq, C. reflexivity. }
    rewrite L. rewrite cached_location_eq in C.
    destruct (Dict.lookup Py.key_eqb ip (_location_cache w)) as [[v0 t]|]; [|discriminate].
    destruct (Cache.fresh (now e w) t) eqn:F; [|discriminate].
    injection C as <- <-. apply (Hit v0 t); [reflexivity|exact F].
  - destruct (locate_miss ip w w1 H T C) as (i & Hi & Rej & [[Hs (v & A & L)]|[Hl L]]).
    + rewrite L. apply (Stored w1 i v); auto.
    + rewrite L. apply (Last w1 i); auto.
Qed.

Lemma get_location_by_ip_cases ip w (P : Py.result Py.value * world -> Prop) :
  (Py.truthy ip = true -> P (locate rt e ip w)) ->
  (Py.truthy ip = false ->
   forall k,
     (1 <= k <= 5)%nat ->
     snd (get_public_ip e w) = with_sent w (List.map service_request (take k ip_services)) ->
     Py.truthy (fst (get_public_ip e w)) = true ->
     P (locate rt e (fst (get_public_ip e w)) (snd (get_public_ip e w)))) ->
  (Py.truthy ip = false ->
   fst (get_public_ip e w) = Py.VNone ->
   P (Py.Ok (default (no_location Py.VNone)
               (ipsb_location Py.VNone
                  (http_get e (length (sent w) + 5) ipsb_request_any))),
      with_sent w (List.map service_request ip_services ++ [ipsb_request_any]))) ->
  P (get_location_by_ip rt e ip w).
Proof.
  intros Given Found Lost. unfold get_location_by_ip.
  destruct (Py.truthy ip) eqn:T; [auto|].
  rewrite bind_eq.
  destruct (PublicIp.get_public_ip_from_spec e ip_services w) as (k & Hk & Hw & Hrej & Hlast).
  fold (get_public_ip e) in *.
  destruct k as [|j]; [destruct Hlast as [Hnil _]; discriminate|].
  destruct (service_answer e ip_services (length (sent w)) j) as [ip2|] eqn:A.
  - assert (T2 : Py.truthy (fst (get_public_ip e w)) = true).
    { rewrite Hlast. unfold service_answer in A.
      destruct (ip_services !! j); [|discriminate].
      eapply PublicIp.public_ip_of_truthy. exact A. }
    rewrite T2. apply (Found eq_refl (S j)); [cbn in Hk; lia|exact Hw|exact T2].
  - destruct Hlast as [Hj Hr]. rewrite Hr. cbn [Py.truthy].
    unfold _get_location_fallback. cbn [Py.truthy].
    fold ipsb_request_any. step. rewrite Hw, Hj.
    change (take (length ip_services) ip_services) with ip_services.
    rewrite with_sent_app, with_sent_length. rewrite length_map.
    change (length ip_services) with 5%nat.
    specialize (Lost eq_refl Hr).
    destruct (ipsb_location Py.VNone _); exact Lost.
Qed.

(** *** The records *)

Lemma amap_record ip r v : amap_location rt ip r = Some v -> success_record v.
Proof.
  unfold amap_location. destruct (answer r) as [data|]; [|discriminate].
  destruct (_ && _); [|discriminate].
  destruct (negb _ && negb _); [discriminate|].
  intros [= <-]. eexists. split; [reflexivity|]. split; vm_compute; reflexivity.
Qed.

Lemma ipinfo_record ip r v : ipinfo_location rt ip r = Some v -> success_record v.
Proof.
  unfold ipinfo_location. destruct (answer r) as [data|]; [|discriminate].
  destruct (Py.truthy (Py.or_else _ _)); [|discriminate].
  destruct (Py.field data "loc" empty); try discriminate.
  destruct (coordinate_of _ _ _) as [lat|]; [|discriminate].
  destruct (coordinate_of _ _ _) as [lon|]; [|discriminate].
  intros [= <-]. eexists. split; [reflexivity|]. split; vm_compute; reflexivity.
Qed.

Lemma ipapi_record ip r v : ipapi_location ip r = Some v -> success_record v.
Proof.
  unfold ipapi_location. destruct (answer r) as [data|]; [|discriminate].
  destruct (negb _); [|discriminate].
  intros [= <-]. eexists. split; [reflexivity|]. split; vm_compute; reflexivity.
Qed.

Lemma ipsb_record ip r v : ipsb_location ip r = Some v -> success_record v.
Proof.
  unfold ipsb_location. destruct (answer r) as [data|]; [|discriminate].
  destruct (Py.truthy (Py.or_else _ _)); [|discriminate].
  intros [= <-]. eexists. split; [reflexivity|]. split; vm_compute; reflexivity.
Qed.

Lemma provider_record ip n i v :
  provider_answer e (providers rt e ip) n i = Some v -> success_record v.
Proof.
  unfold provider_answer, providers.
  destruct (PyStr.truthy (AMAP_API_KEY e)); cbn [app].
  - destruct i as [|[|[|[|i]]]]; cbn [lookup list_lookup fst snd];
      [apply amap_record|apply ipinfo_record|apply ipapi_record|apply ipsb_record|discriminate].
  - destruct i as [|[|[|i]]]; cbn [lookup list_lookup fst snd];
      [apply ipinfo_record|apply ipapi_record|apply ipsb_record|discriminate].
Qed.

Lemma no_location_record ip : location_record (no_location ip).
Proof. eexists _, false. split; [reflexivity|]. split; vm_compute; reflexivity. Qed.

Lemma success_location v : success_record v -> location_record v.
Proof. intros (items & -> & S & K). exists items, true. auto. Qed.

Lemma success_not_failed v : success_record v -> ~ failed v.
Proof. intros (items & -> & S & _) (items' & [= <-] & F). congruence. Qed.

Lemma lookup_record k v t w :
  records_ok w -> Dict.lookup Py.key_eqb k (_location_cache w) = Some (v, t) ->
  success_record v.
Proof.
  intros R L. apply Caches.lookup_Some in L as (k' & I & _).
  unfold records_ok in R. rewrite Forall_forall in R.
  apply list_elem_of_In in I. exact (R _ I).
Qed.

Lemma cached_miss_records ip w w1 :
  records_ok w -> cached_location e ip w = (None, w1) -> records_ok w1.
Proof.
  intros R C. destruct (cached_miss ip w w1 C) as [[_ ->]|(v & t & _ & _ & ->)]; [exact R|].
  unfold records_ok, tick, with_location_cache. fields. apply (del_results Py.key_eqb success_record). exact R.
Qed.

Lemma locate_records ip w :
  Py.truthy ip = true -> records_ok w -> records_kept (locate rt e ip w).
Proof.
  intros T R. destruct (Py.hashable ip) eqn:H.
  - apply locate_cases; [exact T|exact H| | |].
    + intros v t L F. split; [exact R|]. cbn [fst].
      pose proof (lookup_record _ _ _ _ R L) as S.
      split; [apply success_location; exact S|].
      intros Fl. destruct (success_not_failed _ S Fl).
    + intros w1 i v C Hi Rej A. pose proof (provider_record _ _ _ _ A) as S. split.
      * rewrite store_location_eq. unfold records_ok, tick, with_location_cache, with_sent. fields.
        apply (put_results Py.key_eqb success_record); [exact S|]. apply (cached_miss_records ip w w1 R C).
      * cbn [fst]. split; [apply success_location; exact S|].
        intros Fl. destruct (success_not_failed _ S Fl).
    + intros w1 i C Hi Rej. split.
      * unfold records_ok, with_sent. fields. apply (cached_miss_records ip w w1 R C).
      * cbn [fst]. destruct (provider_answer _ _ _ _) as [v|] eqn:A; cbn [default].
        -- pose proof (provider_record _ _ _ _ A) as S.
           split; [apply success_location; exact S|].
           intros Fl. destruct (success_not_failed _ S Fl).
        -- split; [apply no_location_record|]. intros _. eauto.
  - unfold locate. rewrite H. cbn [negb]. unfold ret. split; [exact R|reflexivity].
Qed.

Lemma get_location_by_ip_records ip w :
  records_ok w -> records_kept (get_location_by_ip rt e ip w).
Proof.
  intros R. apply get_location_by_ip_cases.
  - intros T. apply locate_records; assumption.
  - intros T k Hk Hw T2.
    destruct (locate_records (fst (get_public_ip e w)) (snd (get_public_ip e w)) T2) as [R' V].
    + rewrite Hw. exact R.
    + split; assumption.
  - intros T N. split; [exact R|]. cbn [fst].
    destruct (ipsb_location Py.VNone _) as [v|] eqn:A; cbn [default].
    + pose proof (ipsb_record _ _ _ A) as S.
      split; [apply success_location; exact S|].
      intros Fl. destruct (success_not_failed _ S Fl).
    + split; [apply no_location_record|]. intros _. eauto.
Qed.

(** *** The requests *)

Lemma cached_miss_sent ip w w1 :
  cached_location e ip w = (None, w1) -> sent w1 = sent w.
Proof.
  intros C. destruct (cached_miss ip w w1 C) as [[_ ->]|(v & t & _ & _ & ->)]; reflexivity.
Qed.

Lemma providers_length ip : (3 <= length (providers rt e ip) <= 4)%nat.
Proof. unfold providers. destruct (PyStr.truthy _); cbn; lia. Qed.

Lemma providers_timeout ip :
  Forall (fun rq => timeout rq = 5) (List.map fst (providers rt e ip)).
Proof. unfold providers. destruct (PyStr.truthy _); repeat constructor. Qed.

Lemma total_timeout_bound (rs : list request) (t : Z) :
  0 <= t -> Forall (fun rq => timeout rq = t) rs ->
  total_timeout rs = t * Z.of_nat (length rs).
Proof.
  intros Ht F. unfold total_timeout. induction F as [|rq rs E F IH]; cbn [List.map fold_right length].
  - lia.
  - rewrite IH, E. lia.
Qed.

Lemma total_timeout_app (l1 l2 : list request) :
  total_timeout (l1 ++ l2) = total_timeout l1 + total_timeout l2.
Proof.
  unfold total_timeout. induction l1 as [|rq l1 IH]; cbn [app List.map fold_right]; [lia|].
  rewrite IH. lia.
Qed.

(** The requests of a run of [locate]: at most four, each with a timeout of
    five seconds. *)
Lemma locate_requests ip w :
  Py.truthy ip = true ->
  exists rs,
    sent (snd (locate rt e ip w)) = sent w ++ rs
    /\ (length rs <= 4)%nat
    /\ Forall (fun rq => timeout rq = 5) rs.
Proof.
  intros T. destruct (Py.hashable ip) eqn:H.
  - apply locate_cases; [exact T|exact H| | |].
    + intros v t _ _. exists []. cbn. rewrite app_nil_r. repeat split; [lia|constructor].
    + intros w1 i v C Hi _ _. rewrite store_location_eq.
      exists (List.map fst (take (S i) (providers rt e ip))).
      unfold tick, with_location_cache, with_sent. fields.
      rewrite (cached_miss_sent ip w w1 C). split; [reflexivity|].
      pose proof (providers_length ip). split.
      * rewrite length_map, length_take. lia.
      * rewrite <- firstn_map. apply Forall_take, providers_timeout.
    + intros w1 i C Hi _. exists (List.map fst (providers rt e ip)).
      unfold with_sent. fields. rewrite (cached_miss_sent ip w w1 C). split; [reflexivity|].
      pose proof (providers_length ip) as B. split; [rewrite length_map; apply B|].
      apply providers_timeout.
  - unfold locate. rewrite H. cbn [negb]. unfold ret. fields.
    exists []. rewrite app_nil_r. repeat split; [cbn; lia|constructor].
Qed.

(** *** The chain *)

Lemma chain_result_first ip n i v :
  (forall j, (j < i)%nat -> provider_answer e (providers rt e ip) n j = None) ->
  provider_answer e (providers rt e ip) n i = Some v ->
  chain_result rt e ip n = v.
Proof.
  unfold chain_result, provider_answer, providers.
  destruct (PyStr.truthy (AMAP_API_KEY e)); cbn [app]; intros Rej A.
  - pose proof (Rej 0%nat) as R0. pose proof (Rej 1%nat) as R1. pose proof (Rej 2%nat) as R2.
    cbn [lookup list_lookup fst snd] in R0, R1, R2.
    replace (n + 0)%nat with n in * by lia. replace (n + 1)%nat with (S n) in * by lia.
    replace (n + 2)%nat with (S (S n)) in * by lia.
    destruct i as [|[|[|[|i]]]]; cbn [lookup list_lookup fst snd] in A; [ | | | |discriminate].
    + replace (n + 0)%nat with n in * by lia. cbn [first_accepted]. rewrite A. reflexivity.
    + replace (n + 1)%nat with (S n) in * by lia. cbn [first_accepted].
      rewrite R0 by lia. rewrite A. reflexivity.
    + replace (n + 2)%nat with (S (S n)) in * by lia. cbn [first_accepted].
      rewrite R0, R1 by lia. rewrite A. reflexivity.
    + replace (n + 3)%nat with (S (S (S n))) in * by lia. cbn [first_accepted].
      rewrite R0, R1, R2 by lia. rewrite A. reflexivity.
  - pose proof (Rej 0%nat) as R0. pose proof (Rej 1%nat) as R1.
    cbn [lookup list_lookup fst snd] in R0, R1.
    replace (n + 0)%nat with n in * by lia. replace (n + 1)%nat with (S n) in * by lia.
    destruct i as [|[|[|i]]]; cbn [lookup list_lookup fst snd] in A; [ | | |discriminate].
    + replace (n + 0)%nat with n in * by lia. cbn [first_accepted]. rewrite A. reflexivity.
    + replace (n + 1)%nat with (S n) in * by lia. cbn [first_accepted].
      rewrite R0 by lia. rewrite A. reflexivity.
    + replace (n + 2)%nat with (S (S n)) in * by lia. cbn [first_accepted].
      rewrite R0, R1 by lia. rewrite A. reflexivity.
Qed.

Lemma chain_result_last ip n i :
  S i = length (providers rt e ip) ->
  (forall j, (j < i)%nat -> provider_answer e (providers rt e ip) n j = None) ->
  chain_result rt e ip n
  = default (no_location ip) (provider_answer e (providers rt e ip) n i).
Proof.
  intros Hi Rej.
  destruct (provider_answer e (providers rt e ip) n i) as [v|] eqn:A; cbn [default].
  - apply (chain_result_first ip n i v Rej A).
  - revert Hi Rej A. unfold chain_result, provider_answer, providers.
    destruct (PyStr.truthy (AMAP_API_KEY e)); cbn [app length]; intros [= ->] Rej A.
    + pose proof (Rej 0%nat) as R0. pose proof (Rej 1%nat) as R1. pose proof (Rej 2%nat) as R2.
      cbn [lookup list_lookup fst snd] in R0, R1, R2, A.
      replace (n + 0)%nat with n in * by lia. replace (n + 1)%nat with (S n) in * by lia.
      replace (n + 2)%nat with (S (S n)) in * by lia.
      replace (n + 3)%nat with (S (S (S n))) in * by lia.
      cbn [first_accepted]. rewrite R0, R1, R2, A by lia. reflexivity.
    + pose proof (Rej 0%nat) as R0. pose proof (Rej 1%nat) as R1.
      cbn [lookup list_lookup fst snd] in R0, R1, A.
      replace (n + 0)%nat with n in * by lia. replace (n + 1)%nat with (S n) in * by lia.
      replace (n + 2)%nat with (S (S n)) in * by lia.
      cbn [first_accepted]. rewrite R0, R1, A by lia. reflexivity.
Qed.

(** The requests of a run of [get_location_by_ip]. *)
Lemma get_location_by_ip_requests ip w :
  exists rs,
    sent (snd (get_location_by_ip rt e ip w)) = sent w ++ rs
    /\ (length rs <= 9)%nat /\ total_timeout rs <= 35
    /\ (Py.truthy ip = true -> (length rs <= 4)%nat /\ total_timeout rs <= 20).
Proof.
  apply (get_location_by_ip_cases ip w
           (fun run => exists rs, sent (snd run) = sent w ++ rs
              /\ (length rs <= 9)%nat /\ total_timeout rs <= 35
              /\ (Py.truthy ip = true -> (length rs <= 4)%nat /\ total_timeout rs <= 20))).
  - intros T. destruct (locate_requests ip w T) as (rs & E & L & F).
    exists rs. rewrite (total_timeout_bound rs 5 ltac:(lia) F). split; [exact E|]. lia.
  - intros T k Hk Hw T2.
    destruct (locate_requests _ (snd (get_public_ip e w)) T2) as (rs & E & L & F).
    exists (List.map service_request (take k ip_services) ++ rs).
    rewrite E, Hw. unfold with_sent. fields. rewrite app_assoc. split; [reflexivity|].
    assert (F3 : Forall (fun rq => timeout rq = 3)
                   (List.map service_request (take k ip_services))).
    { apply Forall_forall. intros rq I. apply list_elem_of_In, in_map_iff in I as (s & <- & _).
      reflexivity. }
    rewrite total_timeout_app, (total_timeout_bound _ 3 ltac:(lia) F3),
      (total_timeout_bound rs 5 ltac:(lia) F).
    rewrite length_app, !length_map, length_take.
    change (length ip_services) with 5%nat.
    split; [lia|]. split; [lia|]. congruence.
  - intros T N. exists (List.map service_request ip_services ++ [ipsb_request_any]).
    unfold with_sent. fields. split; [reflexivity|].
    split; [vm_compute; lia|]. split; [vm_compute; discriminate|]. congruence.
Qed.

End Locating.

(** X3. Whatever the providers answer, [get_location_by_ip] returns a record:
    a dictionary with the keys [city], [region], [country], [country_code],
    [ip] and a boolean [success]; it raises only [TypeError], and not for an
    address that is given and can be the key of a dictionary. The entries of
    the IP cache are assumed to be records that succeeded, as the resolver
    writes them. *)
Theorem location_always_a_record (rt : Py.runtime) (e : env) (ip : Py.value) (w : world) :
  records_ok w ->
  match fst (get_location_by_ip rt e ip w) with
  | Py.Ok v => location_record v
  | Py.Raise ex => ex = Py.TypeError
  end
  /\ (Py.truthy ip = true -> Py.hashable ip = true ->
      exists v, fst (get_location_by_ip rt e ip w) = Py.Ok v).
Proof.
  intros R. split.
  - destruct (get_location_by_ip_records rt e ip w R) as [_ V].
    destruct (fst (get_location_by_ip rt e ip w)); tauto.
  - intros T H. unfold get_location_by_ip. rewrite T.
    apply (locate_cases rt e ip w (fun run => exists v, fst run = Py.Ok v) T H); eauto.
Qed.

Lemma location_always_a_record_witness :
  location_record (Py.VDict tiananmen)
  /\ exists v, fst (get_location_by_ip small_angle Samples.silent an_address
                      (Samples.one_record 1699999000)) = Py.Ok v.
Proof.
  assert (R : records_ok (Samples.one_record 1699999000)).
  { repeat constructor. cbn. eexists. split; [reflexivity|]. split; vm_compute; reflexivity. }
  destruct (location_always_a_record small_angle Samples.silent an_address _ R) as [V E].
  split.
  - assert (G : fst (get_location_by_ip small_angle Samples.silent an_address
                       (Samples.one_record 1699999000)) = Py.Ok (Py.VDict tiananmen))
      by (vm_compute; reflexivity).
    rewrite G in V. exact V.
  - apply E; reflexivity.
Defined.

(** X4. Only records that succeeded are written to the IP cache: when every
    entry of the cache holds such a record before a run of
    [get_location_by_ip], every entry does after it; the cache is empty at
    first. The record of a failure is never cached. *)
Theorem only_successes_cached (rt : Py.runtime) (e : env) (ip : Py.value) (w : world) :
  records_ok w -> records_ok (snd (get_location_by_ip rt e ip w)).
Proof. intros R. apply (get_location_by_ip_records rt e ip w R). Qed.

Lemma only_successes_cached_witness :
  records_ok (snd (get_location_by_ip small_angle ipinfo_hangzhou an_address empty_world))
  /\ records_ok (snd (get_location_by_ip small_angle Samples.silent an_address empty_world)).
Proof.
  split; apply only_successes_cached; constructor.
Defined.

(** X5. A record that [get_location_by_ip] returns with [success] false is
    the record of a failure: its city, region, country and country code are
    empty and it has no coordinates; and [match_projects_by_location] returns
    the empty list for it, whatever the candidates. *)
Theorem failed_location_is_empty (rt : Py.runtime) (e : env) (ip : Py.value) (w : world)
  (v : Py.value) :
  records_ok w ->
  fst (get_location_by_ip rt e ip w) = Py.Ok v -> failed v ->
  (exists ip', v = no_location ip')
  /\ (forall items, v = Py.VDict items ->
        Py.field items "city" Py.VNone = Py.VStr []
        /\ Py.field items "region" Py.VNone = Py.VStr []
        /\ Py.field items "country" Py.VNone = Py.VStr []
        /\ Py.field items "country_code" Py.VNone = Py.VStr []
        /\ Py.assoc (u "latitude") items = None
        /\ Py.assoc (u "longitude") items = None)
  /\ (forall projects completed,
        match_projects_by_location rt v projects completed = Py.Ok []).
Proof.
  intros R G F. destruct (get_location_by_ip_records rt e ip w R) as [_ V].
  rewrite G in V. destruct V as [_ V]. destruct (V F) as [ip' ->].
  split; [eauto|]. split.
  - intros items [= <-]. repeat split; vm_compute; reflexivity.
  - intros projects completed. unfold match_projects_by_location, ranked, no_location.
    change (Py.truthy (Py.field _ "success" Py.VNone)) with false. reflexivity.
Qed.

Lemma failed_location_is_empty_witness :
  fst (get_location_by_ip small_angle Samples.silent an_address empty_world)
  = Py.Ok (no_location an_address)
  /\ match_projects_by_location small_angle (no_location an_address) some_projects some_lookups
     = Py.Ok [].
Proof.
  assert (G : fst (get_location_by_ip small_angle Samples.silent an_address empty_world)
              = Py.Ok (no_location an_address)) by (vm_compute; reflexivity).
  split; [exact G|].
  destruct (failed_location_is_empty small_angle Samples.silent an_address empty_world
              (no_location an_address)) as (_ & _ & M).
  - constructor.
  - exact G.
  - eexists. split; [reflexivity|]. vm_compute. reflexivity.
  - apply M.
Defined.

Lemma sample_clock prefix document key : clock_ok (answering prefix document key).
Proof. intros n. apply FloatFacts.of_int_number. Qed.

(** X6. A record that [get_location_by_ip] returned for an address without
    asking the last provider is served from the cache at the next call for
    this address, as long as the entry is younger than the time to live: the
    same record is returned, no request is sent and the caches are left as
    they are. *)
Theorem second_lookup_from_cache (rt : Py.runtime) (e : env) (ip : Py.value)
  (w w1 : world) (v : Py.value) :
  clock_ok e -> world_ok w -> clock_ahead e w ->
  Py.truthy ip = true ->
  get_location_by_ip rt e ip w = (Py.Ok v, w1) ->
  Forall not_last (requests_of w w1) ->
  (forall t, Dict.lookup Py.key_eqb ip (_location_cache w1) = Some (v, t) ->
             Cache.fresh (now e w1) t = true) ->
  get_location_by_ip rt e ip w1 = (Py.Ok v, tick w1).
Proof.
  intros C O A T G N F.
  destruct (get_location_by_ip_resolved rt e C ip w (Py.Ok v) w1 O G) as (_ & _ & P).
  destruct (P v eq_refl A N) as (key & t & L & K). rewrite (K T) in L.
  assert (H : Py.hashable ip = true).
  { destruct (Py.hashable ip) eqn:H; [reflexivity|].
    unfold get_location_by_ip in G. rewrite T in G. unfold locate in G. rewrite H in G.
    discriminate. }
  unfold get_location_by_ip. rewrite T. unfold locate. rewrite H. cbn [negb].
  rewrite bind_eq, cached_location_eq, L, (F t L). reflexivity.
Qed.

Lemma second_lookup_from_cache_witness :
  exists v w1,
    get_location_by_ip small_angle ipinfo_hangzhou an_address empty_world = (Py.Ok v, w1)
    /\ get_location_by_ip small_angle ipinfo_hangzhou an_address w1 = (Py.Ok v, tick w1)
    /\ sent (tick w1) = sent w1.
Proof.
  destruct (get_location_by_ip small_angle ipinfo_hangzhou an_address empty_world)
    as [r w1] eqn:G.
  assert (Hr : exists v, r = Py.Ok v).
  { apply (f_equal fst) in G. vm_compute in G. rewrite <- G. eexists. reflexivity. }
  destruct Hr as [v ->]. exists v, w1. split; [reflexivity|]. split; [|reflexivity].
  apply (second_lookup_from_cache small_angle ipinfo_hangzhou an_address empty_world w1 v).
  - apply sample_clock.
  - apply empty_world_ok.
  - intros n item [].
  - reflexivity.
  - exact G.
  - apply (f_equal snd) in G. cbn [snd] in G. rewrite <- G. vm_compute. repeat constructor.
  - intros t L. pose proof G as G1. pose proof G as G2.
    apply (f_equal snd) in G1. apply (f_equal fst) in G2. cbn [fst snd] in G1, G2.
    rewrite <- G1 in L |- *. vm_compute in G2. injection G2 as <-.
    vm_compute in L. injection L as <-. vm_compute. reflexivity.
Defined.

(** X7. An entry of the IP cache that is not younger than the time to live is
    not served: the providers are asked again, at least one request is sent,
    the result is that of the chain, and an entry that the cache holds for
    the address afterwards is this result with the time of this run. *)
Theorem stale_entry_resolved_again (rt : Py.runtime) (e : env) (ip : Py.value) (w : world)
  (v0 : Py.value) (t : float) :
  world_ok w -> Py.truthy ip = true -> Py.hashable ip = true ->
  Dict.lookup Py.key_eqb ip (_location_cache w) = Some (v0, t) ->
  Cache.fresh (now e w) t = false ->
  fst (get_location_by_ip rt e ip w) = Py.Ok (chain_result rt e ip (length (sent w)))
  /\ (1 <= length (requests_of w (snd (get_location_by_ip rt e ip w))))%nat
  /\ (forall v' t',
        Dict.lookup Py.key_eqb ip (_location_cache (snd (get_location_by_ip rt e ip w)))
        = Some (v', t') ->
        v' = chain_result rt e ip (length (sent w))
        /\ t' = time_time e (S (clock_reads w))).
Proof.
  intros [[[N _ _] _] _] T H L St. unfold get_location_by_ip. rewrite T.
  assert (M : forall w1, cached_location e ip w = (None, w1) ->
                w1 = tick (with_location_cache w (Dict.del Py.key_eqb ip (_location_cache w)))).
  { intros w1 C. destruct (cached_miss e ip w w1 C) as [[L' _]|(v & t1 & _ & _ & ->)];
      [congruence|reflexivity]. }
  apply (locate_cases rt e ip w); [exact T|exact H| | |].
  - intros v t1 L1 F. congruence.
  - intros w1 i v C Hi Rej A. rewrite (cached_miss_sent e ip w w1 C) in Rej, A.
    rewrite (chain_result_first rt e ip _ i v Rej A). split; [reflexivity|].
    rewrite store_location_eq. cbn [snd]. split.
    + unfold requests_of, tick, with_location_cache, with_sent. fields.
      rewrite (cached_miss_sent e ip w w1 C), drop_app_length, length_map, length_take.
      destruct (providers_length rt e ip) as [B _].
      apply Nat.min_glb; [lia|]. eapply Nat.le_trans; [|exact B]. lia.
    + rewrite (M w1 C). unfold tick, with_location_cache, with_sent, now. fields.
      intros v' t' L'. apply (lookup_put_same Py.key_eqb key_eqb_sound) in L';
        [injection L' as -> ->; split; reflexivity|exact (key_eqb_refl ip H)|].
      exact (sublist_NoDup _ _ N
               (sublist_map fst _ _ (Caches.del_sublist Py.key_eqb ip (_location_cache w)))).
  - intros w1 i C Hi Rej. rewrite (cached_miss_sent e ip w w1 C) in Rej |- *.
    rewrite (chain_result_last rt e ip _ i Hi Rej). split; [reflexivity|]. cbn [snd]. split.
    + unfold requests_of, with_sent. fields.
      rewrite (cached_miss_sent e ip w w1 C), drop_app_length, length_map.
      destruct (providers_length rt e ip) as [B _].
      eapply Nat.le_trans; [|exact B]. lia.
    + rewrite (M w1 C). unfold tick, with_location_cache, with_sent. fields.
      intros v' t' L'. rewrite (lookup_del_same Py.key_eqb key_eqb_sound) in L' by exact N. discriminate.
Qed.

Lemma stale_entry_resolved_again_witness :
  fst (get_location_by_ip small_angle ipinfo_hangzhou an_address (Samples.one_record 1699990000))
  = Py.Ok (chain_result small_angle ipinfo_hangzhou an_address 0)
  /\ (1 <= length (requests_of (Samples.one_record 1699990000)
                     (snd (get_location_by_ip small_angle ipinfo_hangzhou an_address
                             (Samples.one_record 1699990000)))))%nat.
Proof.
  destruct (stale_entry_resolved_again small_angle ipinfo_hangzhou an_address
              (Samples.one_record 1699990000) (Py.VDict tiananmen) (of_int 1699990000))
    as (R & Q & _).
  - split; split.
    + split.
      * cbn. repeat constructor. intros []%elem_of_nil.
      * repeat constructor.
      * repeat constructor.
    + vm_compute. discriminate.
    + split; constructor.
    + vm_compute. discriminate.
  - reflexivity.
  - reflexivity.
  - vm_compute. reflexivity.
  - vm_compute. reflexivity.
  - split; [exact R|exact Q].
Defined.

(** X8. A run of [get_location_by_ip] sends at most nine requests, whose
    timeouts add up to at most 35 seconds; for an address that is given it
    sends at most four, whose timeouts add up to at most 20 seconds. *)
Theorem request_budget (rt : Py.runtime) (e : env) (ip : Py.value) (w : world) :
  sent (snd (get_location_by_ip rt e ip w))
  = sent w ++ requests_of w (snd (get_location_by_ip rt e ip w))
  /\ (length (requests_of w (snd (get_location_by_ip rt e ip w))) <= 9)%nat
  /\ total_timeout (requests_of w (snd (get_location_by_ip rt e ip w))) <= 35
  /\ (Py.truthy ip = true ->
      (length (requests_of w (snd (get_location_by_ip rt e ip w))) <= 4)%nat
      /\ total_timeout (requests_of w (snd (get_location_by_ip rt e ip w))) <= 20).
Proof.
  destruct (get_location_by_ip_requests rt e ip w) as (rs & E & L & B & G).
  assert (R : requests_of w (snd (get_location_by_ip rt e ip w)) = rs).
  { unfold requests_of. rewrite E, drop_app_length. reflexivity. }
  rewrite R. auto.
Qed.

(** X9. Without an address, when none of the five services of
    [get_public_ip] gives one, [get_location_by_ip] asks the last provider
    for the location of the caller and returns its record, or the record of a
    failure with an empty address; six requests are sent and nothing is
    written to the caches, also when the provider answers. *)
Theorem no_address_no_cache (rt : Py.runtime) (e : env) (ip : Py.value) (w : world) :
  Py.truthy ip = false -> fst (get_public_ip e w) = Py.VNone ->
  get_location_by_ip rt e ip w
  = (Py.Ok (default (no_location Py.VNone)
              (ipsb_location Py.VNone (http_get e (length (sent w) + 5) ipsb_request_any))),
     with_sent w (List.map service_request ip_services ++ [ipsb_request_any])).
Proof.
  intros T N. apply get_location_by_ip_cases.
  - congruence.
  - intros _ k _ _ T2. rewrite N in T2. discriminate.
  - reflexivity.
Qed.

Lemma no_address_no_cache_witness :
  exists items,
    fst (get_location_by_ip small_angle ipsb_paris Py.VNone empty_world)
    = Py.Ok (Py.VDict items)
    /\ Py.field items "city" Py.VNone = Py.VStr (u "Paris")
    /\ _location_cache (snd (get_location_by_ip small_angle ipsb_paris Py.VNone empty_world))
       = [].
Proof.
  rewrite (no_address_no_cache small_angle ipsb_paris Py.VNone empty_world eq_refl);
    [|vm_compute; reflexivity].
  eexists. split; [vm_compute; reflexivity|]. split; vm_compute; reflexivity.
Defined.

End Locating.

Module Geocoding.

Import Resolver Notions Runs Lookups Matcher Examples.

Ltac fields := cbn [_location_cache _hospital_cache sent clock_reads fst snd].

Section Geocoding.
Variable rt : Py.runtime.
Variable e : env.

Lemma cached_hospital_eq key w :
  cached_hospital e key w =
  match Dict.lookup PyStr.eqb key (_hospital_cache w) with
  | Some (v, t) =>
      if Cache.fresh (now e w) t then (Some v, tick w)
      else (None, tick (with_hospital_cache w (Dict.del PyStr.eqb key (_hospital_cache w))))
  | None => (None, w)
  end.
Proof.
  unfold cached_hospital, bind, get_hospital_cache, set_hospital_cache, time, ret, Cache.get, now.
  fields. destruct (Dict.lookup PyStr.eqb key (_hospital_cache w)) as [[v t]|]; [|reflexivity].
  destruct (Cache.fresh _ t); reflexivity.
Qed.

Lemma store_hospital_eq key v w :
  store_hospital e key v w =
  (v, tick (with_hospital_cache w (Cache.put PyStr.eqb 200 (now e w) key v (_hospital_cache w)))).
Proof. reflexivity. Qed.

Lemma hospital_miss key w w1 :
  cached_hospital e key w = (None, w1) ->
  Dict.lookup PyStr.eqb key (_hospital_cache w) = None /\ w1 = w
  \/ exists v t,
       Dict.lookup PyStr.eqb key (_hospital_cache w) = Some (v, t)
       /\ Cache.fresh (now e w) t = false
       /\ w1 = tick (with_hospital_cache w (Dict.del PyStr.eqb key (_hospital_cache w))).
Proof.
  rewrite cached_hospital_eq.
  destruct (Dict.lookup PyStr.eqb key (_hospital_cache w)) as [[v t]|].
  - destruct (Cache.fresh (now e w) t) eqn:F; [discriminate|].
    intros [= <-]. right. exists v, t. auto.
  - intros [= <-]. auto.
Qed.

(** The paths of [get_hospital_location]. *)
Lemma get_hospital_location_cases hospital_name project_name city w
  (P : Py.value * world -> Prop) :
  let key := hospital_key hospital_name project_name city in
  let rq := geocode_request e hospital_name project_name city in
  (PyStr.truthy (AMAP_API_KEY e) = false -> P (Py.VNone, w)) ->
  (opt_truthy (opt_or hospital_name project_name) = false -> P (Py.VNone, w)) ->
  (forall v t,
     PyStr.truthy (AMAP_API_KEY e) = true ->
     opt_truthy (opt_or hospital_name project_name) = true ->
     Dict.lookup PyStr.eqb key (_hospital_cache w) = Some (v, t) ->
     Cache.fresh (now e w) t = true -> P (v, tick w)) ->
  (forall w1 v,
     PyStr.truthy (AMAP_API_KEY e) = true ->
     opt_truthy (opt_or hospital_name project_name) = true ->
     cached_hospital e key w = (None, w1) ->
     geocode_location rt (http_get e (length (sent w)) rq) = Some v ->
     P (v, tick (with_hospital_cache (with_sent w1 [rq])
                   (Cache.put PyStr.eqb 200 (now e w1) key v (_hospital_cache w1))))) ->
  (forall w1,
     PyStr.truthy (AMAP_API_KEY e) = true ->
     opt_truthy (opt_or hospital_name project_name) = true ->
     cached_hospital e key w = (None, w1) ->
     geocode_location rt (http_get e (length (sent w)) rq) = None ->
     P (Py.VNone, with_sent w1 [rq])) ->
  P (get_hospital_location rt e hospital_name project_name city w).
Proof.
  intros key rq. subst key rq. unfold hospital_key, geocode_request.
  intros NoKey NoName Hit Stored Failed. unfold get_hospital_location.
  set (key := opt_str _ ++ u "_" ++ opt_str _) in *.
  set (rq := {| url := _; params := _; headers := _; timeout := _ |}) in *.
  destruct (PyStr.truthy (AMAP_API_KEY e)) eqn:K; cbn [negb]; [|apply NoKey; reflexivity].
  destruct (opt_truthy (opt_or hospital_name project_name)) eqn:Q; cbn [negb];
    [|apply NoName; reflexivity].
  rewrite Locating.bind_eq.
  destruct (cached_hospital e key w) as [[v|] w1] eqn:C; fields; unfold ret.
  - rewrite cached_hospital_eq in C.
    destruct (Dict.lookup PyStr.eqb key (_hospital_cache w)) as [[v0 t]|]; [|discriminate].
    destruct (Cache.fresh (now e w) t) eqn:F; [|discriminate].
    injection C as <- <-. apply (Hit v0 t); [reflexivity|reflexivity|reflexivity|exact F].
  - rewrite Locating.bind_eq. rewrite Locating.requests_get_eq. fields.
    assert (S : sent w1 = sent w).
    { destruct (hospital_miss key w w1 C) as [[_ ->]|(v & t & _ & _ & ->)]; reflexivity. }
    rewrite S.
    destruct (geocode_location rt (http_get e (length (sent w)) rq)) as [v|] eqn:G.
    + rewrite store_hospital_eq. apply (Stored w1 v); auto.
    + apply (Failed w1); auto.
Qed.

Lemma geocode_location_record r v : geocode_location rt r = Some v -> geocode_record v.
Proof.
  unfold geocode_location. destruct (answer r) as [data|]; [|discriminate].
  destruct (_ && _); [|discriminate].
  destruct (Py.field data "geocodes" _) as [| | | | |[|[| | | | | |geocode] l]|]; try discriminate.
  destruct (Py.field geocode "location" empty) as [| | | |location_str| |]; try discriminate.
  destruct (split 44 location_str) as [|a [|b [|c l']]]; try discriminate.
  destruct (PyStr.truthy location_str); [|discriminate].
  destruct (Py.float_of_str rt a) as [lon|]; [|discriminate].
  destruct (Py.float_of_str rt b) as [lat|]; [|discriminate].
  intros [= <-]. eexists _, lat, lon. split; [reflexivity|]. repeat split; vm_compute; reflexivity.
Qed.

Lemma hospital_miss_geocodes key w w1 :
  geocodes_ok w -> cached_hospital e key w = (None, w1) -> geocodes_ok w1.
Proof.
  intros R C. destruct (hospital_miss key w w1 C) as [[_ ->]|(v & t & _ & _ & ->)]; [exact R|].
  unfold geocodes_ok, tick, with_hospital_cache. fields.
  apply (del_results PyStr.eqb geocode_record). exact R.
Qed.

Lemma hospital_miss_sublist key w w1 :
  cached_hospital e key w = (None, w1) ->
  sublist (_hospital_cache w1) (_hospital_cache w)
  /\ _location_cache w1 = _location_cache w /\ sent w1 = sent w.
Proof.
  intros C. destruct (hospital_miss key w w1 C) as [[_ ->]|(v & t & _ & _ & ->)].
  - split; [reflexivity|auto].
  - unfold tick, with_hospital_cache. fields. split; [apply Caches.del_sublist|auto].
Qed.

Lemma hospital_miss_lookup key w w1 :
  NoDup (List.map fst (_hospital_cache w)) ->
  cached_hospital e key w = (None, w1) ->
  Dict.lookup PyStr.eqb key (_hospital_cache w1) = None.
Proof.
  intros N C. destruct (hospital_miss key w w1 C) as [[L ->]|(v & t & _ & _ & ->)]; [exact L|].
  unfold tick, with_hospital_cache. fields.
  apply (lookup_del_same PyStr.eqb str_eqb_sound). exact N.
Qed.

(** The requests of a run of [get_hospital_location]. *)
Lemma hospital_requests hospital_name project_name city w :
  exists rs,
    sent (snd (get_hospital_location rt e hospital_name project_name city w)) = sent w ++ rs
    /\ (rs = [] \/ rs = [geocode_request e hospital_name project_name city])
    /\ _location_cache (snd (get_hospital_location rt e hospital_name project_name city w))
       = _location_cache w.
Proof.
  apply get_hospital_location_cases.
  - intros _. exists []. cbn [snd]. rewrite app_nil_r. auto.
  - intros _. exists []. cbn [snd]. rewrite app_nil_r. auto.
  - intros v t _ _ _ _. exists []. cbn [snd]. unfold tick. fields. rewrite app_nil_r. auto.
  - intros w1 v _ _ C _. destruct (hospital_miss_sublist _ w w1 C) as (_ & El & Es).
    eexists. cbn [snd]. unfold tick, with_hospital_cache, with_sent. fields.
    rewrite Es. split; [reflexivity|]. auto.
  - intros w1 _ _ C _. destruct (hospital_miss_sublist _ w w1 C) as (_ & El & Es).
    eexists. cbn [snd]. unfold with_sent. fields.
    rewrite Es. split; [reflexivity|]. auto.
Qed.

End Geocoding.

(** X10. [get_hospital_location] sends at most one request, the one to the
    geocoder, with the key, the name of the venue after the city as the
    address and a timeout of five seconds; it sends none and returns [None],
    leaving the world as it is, when the key is missing or when the name of
    the venue and the name of the project are both missing or empty. It never
    touches the IP cache. *)
Theorem geocoder_one_request (rt : Py.runtime) (e : env)
  (hospital_name project_name city : option str) (w : world) :
  let run := get_hospital_location rt e hospital_name project_name city w in
  _location_cache (snd run) = _location_cache w
  /\ (requests_of w (snd run) = []
      \/ requests_of w (snd run) = [geocode_request e hospital_name project_name city])
  /\ (PyStr.truthy (AMAP_API_KEY e) = false
      \/ opt_truthy (opt_or hospital_name project_name) = false ->
      run = (Py.VNone, w)).
Proof.
  cbv zeta. apply get_hospital_location_cases.
  - intros K. cbn [snd]. unfold requests_of. rewrite drop_all. auto.
  - intros Q. cbn [snd]. unfold requests_of. rewrite drop_all. auto.
  - intros v t K Q L F. cbn [snd]. unfold requests_of, tick. fields. rewrite drop_all.
    split; [reflexivity|]. split; [auto|]. intros [X|X]; congruence.
  - intros w1 v K Q C G. destruct (hospital_miss_sublist e _ w w1 C) as (_ & El & Es).
    cbn [snd]. unfold requests_of, tick, with_hospital_cache, with_sent. fields.
    rewrite Es, drop_app_length. split; [exact El|]. split; [auto|]. intros [X|X]; congruence.
  - intros w1 K Q C G. destruct (hospital_miss_sublist e _ w w1 C) as (_ & El & Es).
    cbn [snd]. unfold requests_of, with_sent. fields.
    rewrite Es, drop_app_length. split; [exact El|]. split; [auto|]. intros [X|X]; congruence.
Qed.

(** X11. [get_hospital_location] returns [None] or a geocode: a record that
    succeeded whose latitude and longitude are floats; and the venue cache
    holds geocodes only, after a run as before it. *)
Theorem geocode_is_a_record (rt : Py.runtime) (e : env)
  (hospital_name project_name city : option str) (w : world) :
  geocodes_ok w ->
  let run := get_hospital_location rt e hospital_name project_name city w in
  (fst run = Py.VNone \/ geocode_record (fst run)) /\ geocodes_ok (snd run).
Proof.
  intros R. cbv zeta. apply get_hospital_location_cases.
  - intros _. auto.
  - intros _. auto.
  - intros v t _ _ L F. split; [|exact R]. right. cbn [fst].
    apply Caches.lookup_Some in L as (k' & I & _).
    unfold geocodes_ok in R. rewrite Forall_forall in R.
    apply list_elem_of_In in I. exact (R _ I).
  - intros w1 v _ _ C G. pose proof (geocode_location_record rt _ _ G) as S.
    split; [right; exact S|]. cbn [snd].
    unfold geocodes_ok, tick, with_hospital_cache, with_sent. fields.
    apply (put_results PyStr.eqb geocode_record); [exact S|].
    apply (hospital_miss_geocodes e _ w w1 R C).
  - intros w1 _ _ C G. split; [auto|]. cbn [snd]. unfold geocodes_ok, with_sent. fields.
    apply (hospital_miss_geocodes e _ w w1 R C).
Qed.

Lemma geocode_is_a_record_witness :
  geocode_record
    (fst (get_hospital_location Samples.reading Samples.geocoder
            Samples.union_hospital None Samples.beijing empty_world))
  /\ geocodes_ok
       (snd (get_hospital_location Samples.reading Samples.geocoder
               Samples.union_hospital None Samples.beijing empty_world)).
Proof.
  destruct (geocode_is_a_record Samples.reading Samples.geocoder
              Samples.union_hospital None Samples.beijing empty_world) as [[N|G] K].
  - constructor.
  - vm_compute in N. discriminate.
  - split; [exact G|exact K].
Defined.

(** X12. A lookup that fails is not cached: when [get_hospital_location]
    returns [None], no entry was added to the venue cache, and when the key
    and a name are there the request to the geocoder was sent, so that each
    call for a venue that the geocoder does not find asks it again. *)
Theorem failed_geocode_not_cached (rt : Py.runtime) (e : env)
  (hospital_name project_name city : option str) (w : world) :
  geocodes_ok w ->
  let run := get_hospital_location rt e hospital_name project_name city w in
  fst run = Py.VNone ->
  sublist (_hospital_cache (snd run)) (_hospital_cache w)
  /\ (PyStr.truthy (AMAP_API_KEY e) = true ->
      opt_truthy (opt_or hospital_name project_name) = true ->
      requests_of w (snd run) = [geocode_request e hospital_name project_name city]).
Proof.
  intros R. cbv zeta. apply get_hospital_location_cases.
  - intros K _. cbn [snd]. split; [reflexivity|]. congruence.
  - intros Q _. cbn [snd]. split; [reflexivity|]. congruence.
  - intros v t _ _ L F N. cbn [fst] in N. subst v. exfalso.
    apply Caches.lookup_Some in L as (k' & I & _).
    unfold geocodes_ok in R. rewrite Forall_forall in R.
    apply list_elem_of_In in I. destruct (R _ I) as (items & lat & lon & X & _).
    discriminate.
  - intros w1 v _ _ C G N. cbn [fst] in N. subst v. exfalso.
    destruct (geocode_location_record rt _ _ G) as (items & lat & lon & X & _). discriminate.
  - intros w1 _ _ C G _. destruct (hospital_miss_sublist e _ w w1 C) as (Sub & _ & Es).
    cbn [snd]. unfold requests_of, with_sent. fields. split; [exact Sub|].
    intros _ _. rewrite Es, drop_app_length. reflexivity.
Qed.

Lemma failed_geocode_not_cached_witness :
  sublist
    (_hospital_cache
       (snd (get_hospital_location small_angle Samples.deaf
               Samples.union_hospital None Samples.beijing empty_world)))
    []
  /\ requests_of empty_world
       (snd (get_hospital_location small_angle Samples.deaf
               Samples.union_hospital None Samples.beijing empty_world))
     = [geocode_request Samples.deaf Samples.union_hospital None Samples.beijing].
Proof.
  destruct (failed_geocode_not_cached small_angle Samples.deaf
              Samples.union_hospital None Samples.beijing empty_world) as [S R].
  - constructor.
  - vm_compute. reflexivity.
  - split; [exact S|]. apply R; reflexivity.
Defined.

(** X13. A geocode that [get_hospital_location] returned is served from the
    cache at the next call for the same venue and city, as long as the entry
    is younger than the time to live: the same geocode is returned and no
    request is sent. *)
Theorem second_geocode_from_cache (rt : Py.runtime) (e : env)
  (hospital_name project_name city : option str) (w w1 : world) (v : Py.value) :
  clock_ok e -> world_ok w -> venue_clock_ahead e w ->
  get_hospital_location rt e hospital_name project_name city w = (v, w1) ->
  v <> Py.VNone ->
  (forall t,
     Dict.lookup PyStr.eqb (hospital_key hospital_name project_name city) (_hospital_cache w1)
     = Some (v, t) ->
     Cache.fresh (now e w1) t = true) ->
  get_hospital_location rt e hospital_name project_name city w1 = (v, tick w1).
Proof.
  intros Ck [_ [[N Hh Sn] Len]] Ahead G Nv F.
  assert (Again : forall t,
            PyStr.truthy (AMAP_API_KEY e) = true ->
            opt_truthy (opt_or hospital_name project_name) = true ->
            Dict.lookup PyStr.eqb (hospital_key hospital_name project_name city)
              (_hospital_cache w1) = Some (v, t) ->
            get_hospital_location rt e hospital_name project_name city w1 = (v, tick w1)).
  { intros t K Q L. unfold get_hospital_location. rewrite K, Q. cbn [negb].
    fold (hospital_key hospital_name project_name city).
    rewrite Locating.bind_eq, cached_hospital_eq, L, (F t L). reflexivity. }
  revert G. apply get_hospital_location_cases.
  - intros _ [= <- _]. congruence.
  - intros _ [= <- _]. congruence.
  - intros v' t K Q L Fr [= -> <-]. apply (Again t K Q). exact L.
  - intros w0 v' K Q C G [= -> <-].
    apply (Again (now e w0) K Q).
    unfold tick, with_hospital_cache, with_sent. fields.
    destruct (hospital_miss_sublist e _ w w0 C) as (Sub & _ & _).
    apply (Caches.put_keeps_new PyStr.eqb str_eqb_sound).
    + lia.
    + apply str_eqb_refl.
    + apply Ck.
    + split.
      * split.
        -- exact (sublist_NoDup _ _ N (sublist_map fst _ _ Sub)).
        -- eapply Forall_of_sublist; [exact Sub|exact Hh].
        -- eapply Forall_of_sublist; [exact Sub|exact Sn].
      * pose proof (sublist_length _ _ Sub). unfold Dict.len in *. lia.
    + apply (hospital_miss_lookup e _ w w0 N C).
    + apply Forall_forall. intros item I. apply Ahead.
      apply list_elem_of_In. eapply elem_of_sublist; eassumption.
  - intros w0 _ _ _ _ [= <- _]. congruence.
Qed.

Lemma second_geocode_from_cache_witness :
  exists v w1,
    get_hospital_location Samples.reading Samples.geocoder
      Samples.union_hospital None Samples.beijing empty_world = (v, w1)
    /\ get_hospital_location Samples.reading Samples.geocoder
         Samples.union_hospital None Samples.beijing w1 = (v, tick w1)
    /\ sent (tick w1) = sent w1.
Proof.
  destruct (get_hospital_location Samples.reading Samples.geocoder
              Samples.union_hospital None Samples.beijing empty_world) as [v w1] eqn:G.
  exists v, w1. split; [reflexivity|]. split; [|reflexivity].
  pose proof G as G1. pose proof G as G2.
  apply (f_equal snd) in G1. apply (f_equal fst) in G2. cbn [fst snd] in G1, G2.
  apply (second_geocode_from_cache Samples.reading Samples.geocoder
           Samples.union_hospital None Samples.beijing empty_world w1 v).
  - intros n. apply FloatFacts.of_int_number.
  - apply empty_world_ok.
  - intros n item [].
  - exact G.
  - rewrite <- G2. vm_compute. discriminate.
  - intros t L. rewrite <- G1 in L |- *. rewrite <- G2 in L.
    vm_compute in L. injection L as <-. vm_compute. reflexivity.
Defined.

End Geocoding.

Module Matching.

Import Resolver Matcher Notions Scores Ranking FloatFacts Examples.

Section Matching.
Variable rt : Py.runtime.

(** *** The scores *)

Lemma hint_tier_bounds c r : 0 <= hint_tier c r <= 30.
Proof. unfold hint_tier. repeat case_match; lia. Qed.

Lemma name_points_bounds k n t : 0 <= k -> 0 <= name_points k n t <= k.
Proof. intros H. unfold name_points. case_match; lia. Qed.

Lemma score_text_small c p : 0 <= score_text rt c p <= 55.
Proof.
  unfold score_text.
  set (r := if PyStr.truthy _ then _ else _). set (t := lower rt _).
  pose proof (hint_tier_bounds c r).
  pose proof (name_points_bounds 15 (ip_city_normalized c) t).
  pose proof (name_points_bounds 10 (ip_region_normalized c) t). lia.
Qed.

Lemma penalized_facts (a b : Z) :
  0 <= a -> a <= b -> b <= 110 ->
  penalized a <= a /\ penalized a <= penalized b /\ (10 <= penalized a <-> 15 <= a)
  /\ 0 <= penalized a <= 77.
Proof.
  intros A AB B. unfold penalized.
  pose proof (Z_div_mod_eq_full (7 * a) 10) as Da.
  pose proof (Z.mod_pos_bound (7 * a) 10 ltac:(lia)) as Ma.
  pose proof (Z_div_mod_eq_full (7 * b) 10) as Db.
  pose proof (Z.mod_pos_bound (7 * b) 10 ltac:(lia)) as Mb.
  destruct (Z.eqb_spec a 90), (Z.eqb_spec b 90); lia.
Qed.

Lemma score_project_penalized c hl p raw d :
  raw_score rt c hl p = Py.Ok (raw, d) ->
  score_project rt c hl p = Py.Ok (if is_vpn c then penalized raw else raw, d).
Proof.
  intros R. unfold score_project. rewrite R. cbn [Py.bind fst snd].
  destruct (is_vpn c); [|reflexivity].
  rewrite (vpn_score_exact raw (raw_score_bounds rt _ _ _ _ _ R)). reflexivity.
Qed.

Lemma score_project_raw c hl p s d :
  score_project rt c hl p = Py.Ok (s, d) ->
  exists raw, raw_score rt c hl p = Py.Ok (raw, d)
              /\ s = (if is_vpn c then penalized raw else raw).
Proof.
  intros S. destruct (raw_score rt c hl p) as [[raw d']|ex] eqn:R.
  - rewrite (score_project_penalized c hl p raw d' R) in S. injection S as <- <-. eauto.
  - unfold score_project in S. rewrite R in S. discriminate.
Qed.

(** The cases of [tier] for two names that are not empty. *)
Lemma tier_cases (x1 x2 x3 x4 : Z) (a an b bn : str) :
  a <> [] -> b <> [] ->
  (a = b -> tier x1 x2 x3 x4 a an b bn = x1)
  /\ (a <> b -> an = bn -> an <> [] -> tier x1 x2 x3 x4 a an b bn = x2)
  /\ (a <> b -> ~ (an = bn /\ an <> []) ->
      contains a b = true \/ contains b a = true -> tier x1 x2 x3 x4 a an b bn = x3)
  /\ (a <> b -> ~ (an = bn /\ an <> []) ->
      contains a b = false -> contains b a = false ->
      an <> [] -> bn <> [] ->
      contains an bn = true \/ contains bn an = true -> tier x1 x2 x3 x4 a an b bn = x4)
  /\ (a <> b -> ~ (an = bn /\ an <> []) ->
      contains a b = false -> contains b a = false ->
      an = [] \/ bn = [] \/ contains an bn = false /\ contains bn an = false ->
      tier x1 x2 x3 x4 a an b bn = 0).
Proof.
  intros Ha Hb. unfold tier.
  apply truthy_nonempty in Ha, Hb. rewrite Ha, Hb. cbn [andb].
  assert (X : a <> b -> ~ (an = bn /\ an <> []) ->
              PyStr.truthy an && PyStr.truthy bn && PyStr.eqb an bn = false).
  { intros _ M. destruct (PyStr.truthy an) eqn:T; [|reflexivity].
    destruct (PyStr.truthy bn); [|reflexivity]. cbn.
    apply eqb_neq. intros E. apply M. split; [exact E|]. apply truthy_nonempty. exact T. }
  repeat split.
  - intros E. apply eqb_eq in E. rewrite E. reflexivity.
  - intros N E Ne. apply eqb_neq in N. rewrite N.
    apply truthy_nonempty in Ne. rewrite <- E, Ne. cbn [andb].
    rewrite (proj2 (eqb_eq an an) eq_refl). reflexivity.
  - intros N M C. rewrite (X N M). apply eqb_neq in N. rewrite N.
    destruct C as [-> | ->]; rewrite ?orb_true_r; reflexivity.
  - intros N M C1 C2 Ne1 Ne2 C. rewrite (X N M). apply eqb_neq in N. rewrite N, C1, C2.
    apply truthy_nonempty in Ne1, Ne2. rewrite Ne1, Ne2. cbn [andb orb].
    destruct C as [-> | ->]; rewrite ?orb_true_r; reflexivity.
  - intros N M C1 C2 C. rewrite (X N M). apply eqb_neq in N. rewrite N, C1, C2. cbn [orb].
    destruct C as [C | [C | [-> ->]]].
    + apply truthy_empty in C. rewrite C. reflexivity.
    + apply truthy_empty in C. rewrite C, andb_false_r. reflexivity.
    + cbn [orb]. destruct (PyStr.truthy an && PyStr.truthy bn); reflexivity.
Qed.

(** *** The selection *)

Lemma filter_sublist {A} (f : A -> bool) (l : list A) : sublist (List.filter f l) l.
Proof.
  induction l as [|x l IH]; cbn; [constructor|].
  destruct (f x); [apply sublist_skip|apply sublist_cons]; exact IH.
Qed.

Lemma score_all_sublist c hl ps ms :
  score_all rt c hl ps = Py.Ok ms -> sublist (List.map project_of ms) ps.
Proof.
  revert ms. induction ps as [|p ps IH]; cbn [score_all]; intros ms H.
  - injection H as <-. constructor.
  - destruct (score_project rt c hl p) as [sd|]; [|discriminate]. cbn [Py.bind] in H.
    destruct (score_all rt c hl ps) as [ms'|]; [|discriminate]. cbn [Py.bind] in H.
    injection H as <-. specialize (IH ms' eq_refl).
    destruct (fst sd >=? 10); cbn [List.map project_of];
      [apply sublist_skip|apply sublist_cons]; exact IH.
Qed.

(** The elements that [ranked] sorts: those of the loop, in the order of the
    candidates. *)
Lemma ranked_unsorted location_info projects completed ms :
  ranked rt location_info projects completed = Py.Ok ms ->
  exists ms0,
    ms = sort ms0 /\ sublist (List.map project_of ms0) (List.filter valid projects).
Proof.
  unfold ranked. destruct location_info; try discriminate.
  destruct (negb _); [intros [= <-]; exists []; split; [reflexivity|apply sublist_nil_l]|].
  destruct (List.filter valid projects) as [|p ps] eqn:F;
    [intros [= <-]; exists []; split; [reflexivity|constructor]|].
  destruct (score_all rt _ _ (p :: ps)) as [ms0|] eqn:S; [|discriminate].
  cbn [Py.bind]. intros [= <-]. exists ms0. split; [reflexivity|].
  apply (score_all_sublist _ _ _ _ S).
Qed.

Lemma match_selection location_info projects completed out :
  match_projects_by_location rt location_info projects completed = Py.Ok out ->
  exists kept,
    sublist kept projects
    /\ Permutation out kept
    /\ Forall (fun p => valid p = true) kept.
Proof.
  unfold match_projects_by_location.
  destruct (ranked rt location_info projects completed) as [ms|] eqn:R; [|discriminate].
  cbn [Py.bind]. intros [= <-].
  destruct (ranked_unsorted _ _ _ _ R) as (ms0 & -> & Sub).
  exists (List.map project_of ms0).
  split; [etransitivity; [exact Sub|apply filter_sublist]|].
  split; [apply Permutation_map, sort_perm|].
  eapply Lookups.Forall_of_sublist; [exact Sub|].
  apply Forall_forall. intros p I. apply list_elem_of_In, filter_In in I. tauto.
Qed.

(** *** The ties *)




Lemma filter_map_sublist {A B} (f : A -> B) (g : A -> bool) (l : list A) :
  sublist (List.map f (List.filter g l)) (List.map f l).
Proof. apply Lookups.sublist_map, filter_sublist. Qed.

(** *** The lookups *)

Lemma collect_from (m : gmap Z Py.value) (l : list (project * Py.value)) (k : Z) (v : Py.value) :
  NoDup (List.map lookup_id l) ->
  foldl (fun m ph => <[project_id (fst ph) := snd ph]> m) m l !! k = Some v
  <-> (exists p, In (p, v) l /\ project_id p = k)
      \/ m !! k = Some v /\ ~ In k (List.map lookup_id l).
Proof.
  revert m. induction l as [|[p v'] l IH]; intros m N.
  - cbn. split; [auto|]. intros [(p & [] & _)|[H _]]. exact H.
  - cbn [List.map] in N. apply NoDup_cons in N as [N1 N]. rewrite list_elem_of_In in N1.
    cbn [foldl fst snd]. rewrite (IH _ N). cbn [List.map In].
    change (lookup_id (p, v')) with (project_id p).
    split.
    + intros [(q & I & E)|[L Ni]]; [left; exists q; auto|].
      destruct (decide (project_id p = k)) as [E|Ne].
      * subst k. rewrite lookup_insert_eq in L. injection L as <-. left. exists p. auto.
      * rewrite lookup_insert_ne in L by exact Ne. right. split; [exact L|]. tauto.
    + intros [(q & [[= <- <-]|I] & E)|[L Ni]].
      * right. rewrite E in *. rewrite lookup_insert_eq. split; [reflexivity|]. subst k. exact N1.
      * left. exists q. auto.
      * right. rewrite lookup_insert_ne by tauto. split; [exact L|]. tauto.
Qed.

Lemma collect_lookup (l : list (project * Py.value)) (k : Z) (v : Py.value) :
  NoDup (List.map lookup_id l) ->
  collect l !! k = Some v <-> exists p, In (p, v) l /\ project_id p = k.
Proof.
  intros N. unfold collect. rewrite (collect_from ∅ l k v N). rewrite lookup_empty.
  split; [intros [H|[H _]]; [exact H|discriminate]|auto].
Qed.

Lemma collect_permutation (l l' : list (project * Py.value)) :
  NoDup (List.map lookup_id l) -> Permutation l l' -> collect l = collect l'.
Proof.
  intros N P. assert (N' : NoDup (List.map lookup_id l')).
  { apply NoDup_ListNoDup. eapply Permutation_NoDup; [apply Permutation_map; exact P|].
    apply NoDup_ListNoDup. exact N. }
  apply map_eq. intros k. apply option_eq. intros v.
  rewrite (collect_lookup l k v N), (collect_lookup l' k v N').
  split; intros (p & I & E); exists p; (split; [|exact E]).
  - eapply Permutation_in; eassumption.
  - eapply Permutation_in; [apply Permutation_sym|]; eassumption.
Qed.

(** *** The exceptions *)

Lemma score_all_raises c hl ps p ex :
  In p ps -> score_project rt c hl p = Py.Raise ex ->
  exists ex', score_all rt c hl ps = Py.Raise ex'.
Proof.
  induction ps as [|q ps IH]; [intros []|]. intros [->|I] R; cbn [score_all].
  - rewrite R. cbn [Py.bind]. eauto.
  - destruct (score_project rt c hl q) as [sd|ex0]; cbn [Py.bind]; [|eauto].
    destruct (IH I R) as [ex' ->]. cbn [Py.bind]. eauto.
Qed.

(** *** Coordinates that are not numbers *)

Lemma as_float_cases v :
  (numeric v = false -> Py.as_float v = Py.Raise Py.TypeError)
  /\ (numeric v = true ->
      (exists x, Py.as_float v = Py.Ok x) \/ Py.as_float v = Py.Raise Py.OverflowError).
Proof.
  destruct v; cbn; split; try discriminate; try reflexivity; intros _; eauto.
  destruct (is_finite (of_int z)); eauto.
Qed.

Lemma sub_cases a b :
  (numeric a = false \/ numeric b = false -> Py.sub a b = Py.Raise Py.TypeError)
  /\ (numeric a = true -> numeric b = true ->
      (exists v, Py.sub a b = Py.Ok v /\ numeric v = true)
      \/ Py.sub a b = Py.Raise Py.OverflowError).
Proof.
  split.
  - intros [H|H]; destruct a, b; try discriminate; reflexivity.
  - intros Ha Hb. destruct a, b; try discriminate; cbn [Py.sub]; eauto;
      cbn [Py.as_float Py.bind];
      repeat match goal with
             | |- context [is_finite ?x] => destruct (is_finite x); cbn [Py.bind]
             end; eauto.
Qed.

Lemma math_radians_cases v :
  (numeric v = false -> math_radians v = Py.Raise Py.TypeError)
  /\ (numeric v = true ->
      (exists x, math_radians v = Py.Ok x) \/ math_radians v = Py.Raise Py.OverflowError).
Proof.
  unfold math_radians. destruct (as_float_cases v) as [N Y]. split.
  - intros H. rewrite (N H). reflexivity.
  - intros H. destruct (Y H) as [[x ->]| ->]; cbn [Py.bind]; eauto.
Qed.

Lemma calculate_distance_numbers lat1 lon1 lat2 lon2 :
  forallb Py.truthy [lat1; lon1; lat2; lon2] = true ->
  forallb numeric [lat1; lon1; lat2; lon2] = false ->
  arithmetic_error (calculate_distance rt lat1 lon1 lat2 lon2).
Proof.
  intros T N. unfold calculate_distance, arithmetic_error. rewrite T. cbn [negb].
  cbn [forallb] in N. rewrite andb_true_r in N.
  destruct (math_radians_cases lat1) as [N1 Y1].
  destruct (numeric lat1) eqn:E1; [|rewrite (N1 eq_refl); auto].
  destruct (Y1 eq_refl) as [[x1 ->]| ->]; cbn [Py.bind]; [|auto].
  destruct (math_radians_cases lat2) as [N2 Y2].
  destruct (numeric lat2) eqn:E2; [|rewrite (N2 eq_refl); auto].
  destruct (Y2 eq_refl) as [[x2 ->]| ->]; cbn [Py.bind]; [|auto].
  destruct (sub_cases lat2 lat1) as [_ S1].
  destruct (S1 E2 E1) as [(dlat & -> & Nd)| ->]; cbn [Py.bind]; [|auto].
  destruct (math_radians_cases dlat) as [_ Y3].
  destruct (Y3 Nd) as [[x3 ->]| ->]; cbn [Py.bind]; [|auto].
  destruct (sub_cases lon2 lon1) as [S2 _].
  rewrite S2; [auto|]. cbn [andb] in N.
  destruct (numeric lon1), (numeric lon2); auto; discriminate.
Qed.

End Matching.

(** X14. The final score of a candidate is between 0 and 110, and at most 77
    for a client abroad; a candidate without a geocode is scored on the hints
    alone: it has no distance, at most 55 points, and at most 38 for a client
    abroad. *)
Theorem score_bounds (rt : Py.runtime) (c : client) (hl : gmap Z Py.value) (p : project)
  (s : Z) (d : option float) :
  score_project rt c hl p = Py.Ok (s, d) ->
  0 <= s <= 110
  /\ (is_vpn c = true -> s <= 77)
  /\ (geocode_of (default Py.VNone (hl !! project_id p)) = Py.Ok None ->
      s <= 55 /\ d = None /\ (is_vpn c = true -> s <= 38)).
Proof.
  intros S. destruct (score_project_raw rt c hl p s d S) as (raw & R & ->).
  pose proof (raw_score_bounds rt _ _ _ _ _ R) as B.
  destruct (penalized_facts raw raw) as (P1 & _ & _ & P4); try lia.
  split; [destruct (is_vpn c); lia|]. split; [intros ->; apply P4|].
  intros G. unfold raw_score in R. rewrite G in R. cbn [Py.bind] in R.
  injection R as <- <-. pose proof (score_text_small rt c p) as T.
  destruct (penalized_facts (score_text rt c p) 55) as (Q1 & Q2 & _); try lia.
  change (penalized 55) with 38 in Q2.
  split; [destruct (is_vpn c); lia|]. split; [reflexivity|]. intros ->. exact Q2.
Qed.

Lemma score_bounds_witness :
  0 <= 28 <= 110 /\ 28 <= 77
  /\ score_project small_angle (client_of small_angle abroad_client)
       (<[1 := Py.VDict abroad_venue]> ∅) near_project = Py.Ok (28, None).
Proof.
  assert (S : score_project small_angle (client_of small_angle abroad_client)
                (<[1 := Py.VDict abroad_venue]> ∅) near_project = Py.Ok (28, None))
    by (vm_compute; reflexivity).
  destruct (score_bounds small_angle _ _ _ _ _ S) as (B & V & _).
  split; [exact B|]. split; [apply V; vm_compute; reflexivity|exact S].
Defined.

(** X15. For a client abroad the penalty never raises a score and keeps the
    order of the scores, and a candidate reaches the threshold of 10 exactly
    when its score before the penalty is at least 15. *)
Theorem vpn_penalty_threshold (rt : Py.runtime) (c : client) (hl : gmap Z Py.value)
  (p1 p2 : project) (raw1 raw2 : Z) (d1 d2 : option float) :
  is_vpn c = true ->
  raw_score rt c hl p1 = Py.Ok (raw1, d1) ->
  raw_score rt c hl p2 = Py.Ok (raw2, d2) ->
  raw1 <= raw2 ->
  exists s1 s2,
    score_project rt c hl p1 = Py.Ok (s1, d1)
    /\ score_project rt c hl p2 = Py.Ok (s2, d2)
    /\ s1 <= raw1 /\ s1 <= s2 /\ (10 <= s1 <-> 15 <= raw1).
Proof.
  intros V R1 R2 L.
  pose proof (raw_score_bounds rt _ _ _ _ _ R1) as B1.
  pose proof (raw_score_bounds rt _ _ _ _ _ R2) as B2.
  exists (penalized raw1), (penalized raw2).
  rewrite (score_project_penalized rt c hl p1 raw1 d1 R1),
    (score_project_penalized rt c hl p2 raw2 d2 R2), V.
  destruct (penalized_facts raw1 raw2) as (P1 & P2 & P3 & _); try lia. auto.
Qed.

Lemma vpn_penalty_threshold_witness :
  exists s,
    score_project small_angle (client_of small_angle abroad_client)
      (<[1 := Py.VDict abroad_venue]> ∅) near_project = Py.Ok (s, None)
    /\ s <= 40 /\ (10 <= s <-> 15 <= 40).
Proof.
  destruct (vpn_penalty_threshold small_angle (client_of small_angle abroad_client)
              (<[1 := Py.VDict abroad_venue]> ∅) near_project near_project 40 40 None None)
    as (s1 & s2 & S1 & _ & L & _ & T).
  - vm_compute. reflexivity.
  - vm_compute. reflexivity.
  - vm_compute. reflexivity.
  - lia.
  - exists s1. auto.
Defined.

(** X16. For a candidate with a geocode, when the lowered region of the client
    and that of the venue are not empty, the tier of the region is the first
    of: 30 when they are equal; 25 when their normalized forms (without 省,
    市, 自治区, 特别行政区, 维吾尔, 回族 and 壮族) are equal and not empty; 20
    when one contains the other; 15 when the normalized forms are both not
    empty and one contains the other; 0 otherwise. *)
Theorem region_tier_first_match (rt : Py.runtime) (info : list (str * Py.value)) (h : str) :
  let a := lower rt (text_of rt (Py.field info "region" (Py.VStr []))) in
  let an := normalize_region a in
  let hn := normalize_region h in
  let points := region_tier (client_of rt info) h in
  a <> [] -> h <> [] ->
  (a = h -> points = 30)
  /\ (a <> h -> an = hn -> an <> [] -> points = 25)
  /\ (a <> h -> ~ (an = hn /\ an <> []) ->
      contains a h = true \/ contains h a = true -> points = 20)
  /\ (a <> h -> ~ (an = hn /\ an <> []) ->
      contains a h = false -> contains h a = false ->
      an <> [] -> hn <> [] ->
      contains an hn = true \/ contains hn an = true -> points = 15)
  /\ (a <> h -> ~ (an = hn /\ an <> []) ->
      contains a h = false -> contains h a = false ->
      an = [] \/ hn = [] \/ contains an hn = false /\ contains hn an = false ->
      points = 0).
Proof.
  intros a an hn points Ha Hh.
  exact (tier_cases 30 25 20 15 a an h hn Ha Hh).
Qed.

(** A client in "北京市" and a venue in "北京": the normalized regions are
    equal. *)
Lemma region_tier_first_match_witness :
  region_tier (client_of small_angle [(u "region", Py.VStr (u "北京市"))]) (u "北京") = 25.
Proof.
  destruct (region_tier_first_match small_angle [(u "region", Py.VStr (u "北京市"))] (u "北京"))
    as (_ & N & _); [discriminate|discriminate|].
  apply N; [discriminate|reflexivity|discriminate].
Defined.

(** X17. The result of [match_projects_by_location] is a selection of the
    candidates: a rearrangement of a part of the list of the candidates, each
    of which has a name; no candidate is invented or returned more often than
    it was given. *)
Theorem output_is_a_selection (rt : Py.runtime) (location_info : Py.value)
  (projects : list project) (completed : list (project * Py.value)) (out : list project) :
  match_projects_by_location rt location_info projects completed = Py.Ok out ->
  exists kept,
    sublist kept projects
    /\ Permutation out kept
    /\ Forall (fun p => valid p = true) kept
    /\ (length out <= length projects)%nat.
Proof.
  intros M. destruct (match_selection rt _ _ _ _ M) as (kept & S & P & V).
  exists kept. split; [exact S|]. split; [exact P|]. split; [exact V|].
  rewrite (Permutation_length P). apply sublist_length. exact S.
Qed.

Lemma output_is_a_selection_witness :
  exists kept,
    sublist kept some_projects
    /\ Permutation [near_project; suburb_project] kept.
Proof.
  destruct (output_is_a_selection small_angle (Py.VDict tiananmen) some_projects some_lookups
              [near_project; suburb_project]) as (kept & S & P & _).
  - vm_compute. reflexivity.
  - exists kept. auto.
Defined.



(** X19. The result does not depend on the order in which the lookups of the
    worker threads complete, when the ids of the candidates are distinct: two
    orders of the same lookups fill the same dictionary and give the same
    result. *)
Theorem completion_order_irrelevant (rt : Py.runtime) (location_info : Py.value)
  (projects : list project) (completed completed' : list (project * Py.value)) :
  NoDup (List.map lookup_id completed) ->
  Permutation completed completed' ->
  collect completed = collect completed'
  /\ match_projects_by_location rt location_info projects completed
     = match_projects_by_location rt location_info projects completed'.
Proof.
  intros N P. pose proof (collect_permutation completed completed' N P) as E.
  split; [exact E|]. unfold match_projects_by_location, ranked. rewrite E. reflexivity.
Qed.

Lemma completion_order_irrelevant_witness :
  match_projects_by_location small_angle (Py.VDict tiananmen) some_projects some_lookups
  = match_projects_by_location small_angle (Py.VDict tiananmen) some_projects
      (rev some_lookups).
Proof.
  apply completion_order_irrelevant.
  - vm_compute. repeat constructor; rewrite ?list_elem_of_In; cbn; intuition discriminate.
  - apply Permutation_rev.
Defined.

(** X20. A geocode whose city or region is not a string ends the whole run
    with an exception: when the location of the client succeeded and the
    lookup of a candidate with a name gave a record that succeeded but whose
    [city] or [region] is a list, a number or [None], no candidate at all is
    returned: [match_projects_by_location] raises. *)
Theorem bad_geocode_aborts_run (rt : Py.runtime) (info : list (str * Py.value))
  (projects : list project) (completed : list (project * Py.value)) (p : project)
  (items : list (str * Py.value)) :
  Py.truthy (Py.field info "success" Py.VNone) = true ->
  In p projects -> valid p = true ->
  collect completed !! project_id p = Some (Py.VDict items) ->
  Py.truthy (Py.field items "success" Py.VNone) = true ->
  (forall s, Py.field items "city" (Py.VStr []) <> Py.VStr s)
  \/ (forall s, Py.field items "region" (Py.VStr []) <> Py.VStr s) ->
  exists ex, match_projects_by_location rt (Py.VDict info) projects completed = Py.Raise ex.
Proof.
  intros S I V L Su Bad.
  assert (R : exists ex, score_project rt (client_of rt info) (collect completed) p
                         = Py.Raise ex).
  { unfold score_project, raw_score. rewrite L. cbn [default id].
    assert (T : Py.truthy (Py.VDict items) = true).
    { destruct items; [|reflexivity]. vm_compute in Su. discriminate. }
    unfold geocode_of. rewrite T, Su. cbn [andb Py.bind]. unfold score_geocoded.
    destruct Bad as [B|B].
    - destruct (Py.field items "city" (Py.VStr [])) as [| | | |name| |] eqn:C;
        cbn [str_strip Py.bind]; eauto.
      destruct (B name eq_refl).
    - destruct (str_strip (Py.field items "city" (Py.VStr []))); cbn [Py.bind]; eauto.
      destruct (Py.field items "region" (Py.VStr [])) as [| | | |name| |] eqn:C;
        cbn [str_strip Py.bind]; eauto.
      destruct (B name eq_refl). }
  destruct R as [ex R].
  unfold match_projects_by_location, ranked. rewrite S. cbn [negb].
  assert (Iv : In p (List.filter valid projects)) by (apply filter_In; auto).
  destruct (List.filter valid projects) as [|q qs] eqn:F; [destruct Iv|].
  destruct (score_all_raises rt _ _ (q :: qs) p ex Iv R) as [ex' ->].
  cbn [Py.bind]. eauto.
Qed.

Lemma bad_geocode_aborts_run_witness :
  exists ex,
    match_projects_by_location small_angle (Py.VDict tiananmen) some_projects
      [(near_project, Py.VDict near_venue); (far_project, Py.VDict Samples.listed_venue)]
    = Py.Raise ex.
Proof.
  apply (bad_geocode_aborts_run small_angle tiananmen some_projects _ far_project
           Samples.listed_venue).
  - vm_compute. reflexivity.
  - left. reflexivity.
  - vm_compute. reflexivity.
  - vm_compute. reflexivity.
  - vm_compute. reflexivity.
  - left. intros s. vm_compute. discriminate.
Defined.

(** X21. [calculate_distance] does not check that its arguments are numbers:
    when all four are true and one of them is a string, a list or a
    dictionary, it raises, with [TypeError] unless an integer too large for a
    float raises [OverflowError] before; for a candidate with a geocode the
    exception leaves the scorer. *)
Theorem distance_needs_numbers (rt : Py.runtime) (lat1 lon1 lat2 lon2 : Py.value) :
  forallb Py.truthy [lat1; lon1; lat2; lon2] = true ->
  forallb numeric [lat1; lon1; lat2; lon2] = false ->
  arithmetic_error (calculate_distance rt lat1 lon1 lat2 lon2)
  /\ forall (c : client) (hl : list (str * Py.value)) (city region : str),
       ip_lat c = lat1 -> ip_lon c = lon1 ->
       Py.field hl "latitude" Py.VNone = lat2 -> Py.field hl "longitude" Py.VNone = lon2 ->
       Py.field hl "city" (Py.VStr []) = Py.VStr city ->
       Py.field hl "region" (Py.VStr []) = Py.VStr region ->
       arithmetic_error (score_geocoded rt c hl).
Proof.
  intros T N. pose proof (calculate_distance_numbers rt lat1 lon1 lat2 lon2 T N) as E.
  split; [exact E|]. intros c hl city region <- <- <- <- Hc Hr.
  unfold score_geocoded. rewrite Hc, Hr. cbn [str_strip Py.bind].
  cbn [forallb] in T. rewrite andb_true_r in T.
  apply andb_true_iff in T as [T1 T]. apply andb_true_iff in T as [T2 T].
  apply andb_true_iff in T as [T3 T4]. rewrite T1, T2, T3, T4. cbn [andb].
  destruct E as [-> | ->]; [left|right]; reflexivity.
Qed.

(** A latitude of the client that is a string. *)
Lemma distance_needs_numbers_witness :
  arithmetic_error
    (calculate_distance small_angle (Py.VStr (u "39.9163")) (Py.VFloat (decimal4 1163971))
       (Py.VFloat (decimal4 399205)) (Py.VFloat (decimal4 1164100))).
Proof.
  apply (distance_needs_numbers small_angle); reflexivity.
Defined.

(** X22. A record of the keyed provider never counts as abroad: its country is
    "中国", so that a client that this provider located gets no penalty,
    when [str.lower] leaves "中国" as it is. *)
Theorem keyed_provider_never_abroad (rt : Py.runtime) (ip : Py.value) (r : option response)
  (items : list (str * Py.value)) :
  Py.str_lower rt (u "中国") = u "中国" ->
  amap_location rt ip r = Some (Py.VDict items) ->
  is_vpn (client_of rt items) = false.
Proof.
  intros L. unfold amap_location. destruct (answer r) as [data|]; [|discriminate].
  destruct (_ && _); [|discriminate].
  destruct (negb _ && negb _); [discriminate|].
  intros [= <-]. unfold is_vpn, client_of. cbn [ip_country_lower].
  change (text_of rt (Py.field _ "country" (Py.VStr []))) with (u "中国").
  unfold lower. rewrite L. vm_compute. reflexivity.
Qed.

Lemma keyed_provider_never_abroad_witness :
  exists items,
    amap_location small_angle an_address (Some Samples.amap_beijing) = Some (Py.VDict items)
    /\ is_vpn (client_of small_angle items) = false.
Proof.
  eexists. split; [vm_compute; reflexivity|].
  refine (keyed_provider_never_abroad small_angle an_address (Some Samples.amap_beijing)
            _ _ _); reflexivity.
Defined.

(** X23. A record of the first free provider holds the country code of the
    answer as its country; with the code "CN" a client in China that this
    provider located counts as abroad and its scores are reduced, when
    [str.lower] turns "CN" into "cn". *)
Theorem country_code_counts_as_abroad (rt : Py.runtime) (ip : Py.value)
  (resp : response) (data items : list (str * Py.value)) :
  Py.str_lower rt (u "CN") = u "cn" ->
  status_code resp = 200 -> json resp = Some (Py.VDict data) ->
  Py.field data "country" (Py.VStr []) = Py.VStr (u "CN") ->
  ipinfo_location rt ip (Some resp) = Some (Py.VDict items) ->
  Py.field items "country" (Py.VStr []) = Py.VStr (u "CN")
  /\ is_vpn (client_of rt items) = true.
Proof.
  intros L St J C. unfold ipinfo_location, answer. rewrite St, J.
  change (200 =? 200) with true. cbv iota.
  destruct (Py.truthy (Py.or_else _ _)); [|discriminate].
  destruct (Py.field data "loc" empty); try discriminate.
  destruct (coordinate_of _ _ _) as [lat|]; [|discriminate].
  destruct (coordinate_of _ _ _) as [lon|]; [|discriminate].
  intros [= <-].
  assert (F : Py.field
                [(u "city", Py.field data "city" empty);
                 (u "region", Py.field data "region" empty);
                 (u "country", Py.field data "country" empty);
                 (u "country_code", Py.field data "country" empty);
                 (u "ip", Py.field data "ip" ip);
                 (u "latitude", lat); (u "longitude", lon);
                 (u "timezone", Py.field data "timezone" empty);
                 (u "isp", Py.field data "org" empty);
                 (u "success", Py.VBool true)] "country" (Py.VStr [])
              = Py.VStr (u "CN")) by exact C.
  split; [exact F|]. unfold is_vpn, client_of. cbn [ip_country_lower].
  rewrite F. change (text_of rt (Py.VStr (u "CN"))) with (u "CN").
  unfold lower. rewrite L. vm_compute. reflexivity.
Qed.

Lemma country_code_counts_as_abroad_witness :
  exists items,
    ipinfo_location small_angle an_address (Some Samples.ipinfo_answer)
    = Some (Py.VDict items)
    /\ is_vpn (client_of small_angle items) = true.
Proof.
  eexists. split; [vm_compute; reflexivity|].
  refine (proj2 (country_code_counts_as_abroad small_angle an_address
                   Samples.ipinfo_answer _ _ _ _ _ _ _)); reflexivity.
Defined.

End Matching.

(** ** The worker threads and the writes of the caches *)

Module Overlap.

Import Resolver Matcher Notions Runs Examples.

Ltac fields := cbn [_location_cache _hospital_cache sent clock_reads fst snd].
Ltac worlds := unfold tick, with_hospital_cache, with_sent; fields.

Lemma min_from_In {K} (best : K * (Py.value * float)) (rest : Cache.cache K) :
  In (Cache.min_from best rest) (best :: rest).
Proof.
  revert best. induction rest as [|item rest IH]; intros best; [left; reflexivity|].
  cbn [Cache.min_from].
  destruct (IH (if flt (snd (snd item)) (snd (snd best)) then item else best)) as [E|I].
  - rewrite <- E. destruct (flt _ _); [right; left|left]; reflexivity.
  - right. right. exact I.
Qed.

Lemma lookup_In (k : str) (v : Py.value * float) (c : Cache.cache str) :
  In (k, v) c -> Dict.lookup PyStr.eqb k c <> None.
Proof.
  induction c as [|[k' v'] c IH]; [intros []|]. intros [E|I]; cbn [Dict.lookup].
  - injection E as -> ->. rewrite str_eqb_refl. discriminate.
  - destruct (PyStr.eqb k k'); [discriminate|exact (IH I)].
Qed.

Lemma oldest_key_present (c : Cache.cache str) (oldest : str) :
  Cache.oldest_key c = Some oldest -> Dict.lookup PyStr.eqb oldest c <> None.
Proof.
  destruct c as [|best rest]; [discriminate|]. cbn [Cache.oldest_key]. intros [= <-].
  pose proof (min_from_In best rest) as I.
  destruct (Cache.min_from best rest) as [k v]. exact (lookup_In k v _ I).
Qed.

Section Overlap.
Variable rt : Py.runtime.
Variable e : env.

Lemma steps_S n pt w :
  Workers.steps rt e (S n) pt w
  = Workers.steps rt e n (fst (Workers.step rt e pt w)) (snd (Workers.step rt e pt w)).
Proof. cbn [Workers.steps]. apply Locating.bind_eq. Qed.

Lemma steps_returned n v w :
  Workers.steps rt e n (Workers.Returned v) w = (Workers.Returned v, w).
Proof.
  induction n as [|n IH]; [reflexivity|]. rewrite steps_S. exact IH.
Qed.

(** The statements one by one. *)
Lemma step_called hospital_name project_name city w :
  PyStr.truthy (AMAP_API_KEY e) = true ->
  opt_truthy (opt_or hospital_name project_name) = true ->
  Workers.step rt e (Workers.Called hospital_name project_name city) w
  = (match Dict.lookup PyStr.eqb (hospital_key hospital_name project_name city)
             (_hospital_cache w) with
     | Some _ => Workers.Reading
     | None => Workers.Requesting
     end (hospital_key hospital_name project_name city)
         (if opt_truthy city
          then opt_str city ++ opt_str (opt_or hospital_name project_name)
          else opt_str (opt_or hospital_name project_name)), w).
Proof.
  intros K Q. unfold Workers.step, hospital_key. rewrite K, Q. cbn [negb].
  unfold bind, get_hospital_cache, ret.
  destruct (Dict.lookup PyStr.eqb _ (_hospital_cache w)); reflexivity.
Qed.

Lemma step_reading key address w :
  Workers.step rt e (Workers.Reading key address) w
  = (match Dict.lookup PyStr.eqb key (_hospital_cache w) with
     | Some (result, timestamp) => Workers.Comparing key address result timestamp
     | None => Workers.Raised Py.KeyError
     end, w).
Proof.
  unfold Workers.step, bind, get_hospital_cache, ret.
  destruct (Dict.lookup PyStr.eqb key (_hospital_cache w)) as [[v t]|]; reflexivity.
Qed.

Lemma step_comparing key address result timestamp w :
  Workers.step rt e (Workers.Comparing key address result timestamp) w
  = (if Cache.fresh (now e w) timestamp then Workers.Returned result
     else Workers.Expiring key address, tick w).
Proof.
  unfold Workers.step, bind, time, ret, now. fields.
  destruct (Cache.fresh _ timestamp); reflexivity.
Qed.

Lemma step_expiring key address w :
  Workers.step rt e (Workers.Expiring key address) w
  = match Dict.lookup PyStr.eqb key (_hospital_cache w) with
    | Some _ => (Workers.Requesting key address,
                 with_hospital_cache w (Dict.del PyStr.eqb key (_hospital_cache w)))
    | None => (Workers.Raised Py.KeyError, w)
    end.
Proof.
  unfold Workers.step, bind, get_hospital_cache, set_hospital_cache, ret.
  destruct (Dict.lookup PyStr.eqb key (_hospital_cache w)); reflexivity.
Qed.

Lemma step_requesting key address w :
  let rq := {| url := u "https://restapi.amap.com/v3/geocode/geo";
               params := [(u "key", AMAP_API_KEY e); (u "address", address);
                          (u "output", u "json")];
               headers := []; timeout := 5 |} in
  Workers.step rt e (Workers.Requesting key address) w
  = (match geocode_location rt (http_get e (length (sent w)) rq) with
     | Some location_result => Workers.Storing key location_result
     | None => Workers.Returned Py.VNone
     end, with_sent w [rq]).
Proof.
  intros rq. unfold Workers.step. fold rq. rewrite Locating.bind_eq, Locating.requests_get_eq.
  fields. unfold ret. destruct (geocode_location rt _); reflexivity.
Qed.

Lemma step_storing key v w :
  Workers.step rt e (Workers.Storing key v) w
  = (Workers.Measuring v,
     tick (with_hospital_cache w (Dict.set PyStr.eqb key (v, now e w) (_hospital_cache w)))).
Proof. reflexivity. Qed.

Lemma step_measuring v w :
  Workers.step rt e (Workers.Measuring v) w
  = (if Dict.len (_hospital_cache w) >? 200 then Workers.Choosing v
     else Workers.Returned v, w).
Proof.
  unfold Workers.step, bind, get_hospital_cache, ret.
  destruct (Dict.len _ >? 200); reflexivity.
Qed.

Lemma step_choosing v w :
  Workers.step rt e (Workers.Choosing v) w
  = (match Cache.oldest_key (_hospital_cache w) with
     | Some oldest_key => Workers.Deleting v oldest_key
     | None => Workers.Returned Py.VNone
     end, w).
Proof.
  unfold Workers.step, bind, get_hospital_cache, ret.
  destruct (Cache.oldest_key _); reflexivity.
Qed.

Lemma step_deleting v oldest_key w :
  Workers.step rt e (Workers.Deleting v oldest_key) w
  = match Dict.lookup PyStr.eqb oldest_key (_hospital_cache w) with
    | Some _ => (Workers.Returned v,
                 with_hospital_cache w (Dict.del PyStr.eqb oldest_key (_hospital_cache w)))
    | None => (Workers.Returned Py.VNone, w)
    end.
Proof.
  unfold Workers.step, bind, get_hospital_cache, set_hospital_cache, ret.
  destruct (Dict.lookup PyStr.eqb oldest_key (_hospital_cache w)); reflexivity.
Qed.

(** The write of lines 383-387, statement by statement, by a thread that is
    not interrupted: it is the write of [Cache.put]. *)
Lemma store_uninterrupted n key v w :
  Workers.steps rt e (4 + n) (Workers.Storing key v) w
  = (Workers.Returned v,
     tick (with_hospital_cache w
             (Cache.put PyStr.eqb 200 (now e w) key v (_hospital_cache w)))).
Proof.
  change (4 + n)%nat with (S (S (S (S n)))).
  rewrite steps_S, step_storing. worlds.
  rewrite steps_S, step_measuring. worlds.
  unfold Cache.put.
  set (c1 := Dict.set PyStr.eqb key (v, now e w) (_hospital_cache w)).
  destruct (Dict.len c1 >? 200) eqn:L; [|rewrite steps_returned; reflexivity].
  rewrite steps_S, step_choosing. worlds.
  destruct (Cache.oldest_key c1) as [oldest|] eqn:O.
  - rewrite steps_S, step_deleting. worlds.
    pose proof (oldest_key_present c1 oldest O) as P.
    destruct (Dict.lookup PyStr.eqb oldest c1); [|congruence].
    fields. rewrite steps_returned. reflexivity.
  - exfalso. destruct c1; [|discriminate]. discriminate.
Qed.

Lemma uninterrupted hospital_name project_name city w :
  Workers.steps rt e 9 (Workers.Called hospital_name project_name city) w
  = (Workers.Returned (fst (get_hospital_location rt e hospital_name project_name city w)),
     snd (get_hospital_location rt e hospital_name project_name city w)).
Proof.
  apply (Geocoding.get_hospital_location_cases rt e hospital_name project_name city w
           (fun run => Workers.steps rt e 9 (Workers.Called hospital_name project_name city) w
                       = (Workers.Returned (fst run), snd run))).
  - intros K. rewrite steps_S. unfold Workers.step. rewrite K. cbn [negb]. unfold ret. fields.
    apply steps_returned.
  - intros Q. rewrite steps_S. unfold Workers.step. rewrite Q.
    destruct (negb (PyStr.truthy _)); cbn [negb]; unfold ret; fields; apply steps_returned.
  - intros v t K Q L F. rewrite steps_S, (step_called _ _ _ _ K Q), L. fields.
    rewrite steps_S, step_reading, L. fields.
    rewrite steps_S, step_comparing, F. fields. apply steps_returned.
  - intros w1 v K Q C G. fields.
    rewrite steps_S, (step_called _ _ _ _ K Q).
    destruct (Geocoding.hospital_miss e _ w w1 C) as [[L ->]|(v0 & t & L & F & ->)];
      rewrite L; fields.
    + rewrite steps_S, step_requesting. cbv zeta.
      fold (geocode_request e hospital_name project_name city).
      rewrite G. fields.
      etransitivity; [apply (store_uninterrupted 3)|reflexivity].
    + rewrite steps_S, step_reading, L. fields.
      rewrite steps_S, step_comparing, F. fields.
      rewrite steps_S, step_expiring. worlds. rewrite L. fields.
      rewrite steps_S, step_requesting. cbv zeta.
      fold (geocode_request e hospital_name project_name city).
      worlds. rewrite G. fields.
      etransitivity; [apply (store_uninterrupted 0)|reflexivity].
  - intros w1 K Q C G. fields.
    rewrite steps_S, (step_called _ _ _ _ K Q).
    destruct (Geocoding.hospital_miss e _ w w1 C) as [[L ->]|(v0 & t & L & F & ->)];
      rewrite L; fields.
    + rewrite steps_S, step_requesting. cbv zeta.
      fold (geocode_request e hospital_name project_name city).
      rewrite G. fields. rewrite steps_returned. reflexivity.
    + rewrite steps_S, step_reading, L. fields.
      rewrite steps_S, step_comparing, F. fields.
      rewrite steps_S, step_expiring. worlds. rewrite L. fields.
      rewrite steps_S, step_requesting. cbv zeta.
      fold (geocode_request e hospital_name project_name city).
      worlds. rewrite G. fields. rewrite steps_returned. reflexivity.
Qed.

(** *** The writes of the resolvers *)

Lemma cut_back_put {K} (keq : K -> K -> bool) (max_entries : Z) (now : float) (k : K)
  (v : Py.value) (c : Cache.cache K) :
  sound keq -> keq k k = true -> is_nan now = false -> cache_ok keq max_entries c ->
  Dict.lookup keq k c = None ->
  cut_back max_entries (c ++ [(k, (v, now))]) (Cache.put keq max_entries now k v c).
Proof.
  intros S R N O A.
  destruct (put_spec keq S max_entries now k v c R N O) as (_ & Small & Large).
  cbv zeta in Small, Large. rewrite (set_absent keq k (v, now) c A) in Small, Large.
  split; assumption.
Qed.

Lemma venue_write hospital_name project_name city w v :
  clock_ok e -> world_ok w ->
  PyStr.truthy (AMAP_API_KEY e) = true ->
  opt_truthy (opt_or hospital_name project_name) = true ->
  Dict.lookup PyStr.eqb (hospital_key hospital_name project_name city) (_hospital_cache w)
  = None ->
  geocode_location rt
    (http_get e (length (sent w)) (geocode_request e hospital_name project_name city))
  = Some v ->
  fst (get_hospital_location rt e hospital_name project_name city w) = v
  /\ cut_back 200
       (_hospital_cache w
        ++ [(hospital_key hospital_name project_name city, (v, time_time e (clock_reads w)))])
       (_hospital_cache (snd (get_hospital_location rt e hospital_name project_name city w))).
Proof.
  intros C O K Q L G.
  apply (Geocoding.get_hospital_location_cases rt e hospital_name project_name city w
           (fun run =>
              fst run = v
              /\ cut_back 200
                   (_hospital_cache w
                    ++ [(hospital_key hospital_name project_name city,
                         (v, time_time e (clock_reads w)))])
                   (_hospital_cache (snd run)))).
  - congruence.
  - congruence.
  - intros v0 t _ _ L0 _. congruence.
  - intros w1 v0 _ _ Cm G0. rewrite G in G0. injection G0 as <-.
    destruct (Geocoding.hospital_miss e _ w w1 Cm) as [[_ ->]|(v1 & t & L1 & _)];
      [|congruence].
    split; [reflexivity|]. worlds.
    apply cut_back_put; [apply str_eqb_sound|apply str_eqb_refl|apply C|apply O|exact L].
  - intros w1 _ _ _ G0. congruence.
Qed.

Lemma location_write ip w v :
  clock_ok e -> world_ok w ->
  Py.truthy ip = true -> Py.hashable ip = true ->
  Dict.lookup Py.key_eqb ip (_location_cache w) = None ->
  fst (get_location_by_ip rt e ip w) = Py.Ok v ->
  Forall not_last (requests_of w (snd (get_location_by_ip rt e ip w))) ->
  cut_back 100
    (_location_cache w ++ [(ip, (v, time_time e (clock_reads w)))])
    (_location_cache (snd (get_location_by_ip rt e ip w))).
Proof.
  intros C O T H L.
  assert (E : get_location_by_ip rt e ip w = locate rt e ip w).
  { unfold get_location_by_ip. rewrite T. reflexivity. }
  rewrite E.
  apply (Locating.locate_cases rt e ip w
           (fun run =>
              fst run = Py.Ok v ->
              Forall not_last (requests_of w (snd run)) ->
              cut_back 100
                (_location_cache w ++ [(ip, (v, time_time e (clock_reads w)))])
                (_location_cache (snd run)))); [exact T|exact H| | |].
  - intros v0 t L0 _. congruence.
  - intros w1 i v0 Cm _ _ _ [= <-] _.
    destruct (Locating.cached_miss e ip w w1 Cm) as [[_ ->]|(v1 & t & L1 & _)];
      [|congruence].
    rewrite Locating.store_location_eq. unfold with_location_cache. worlds.
    apply cut_back_put;
      [apply key_eqb_sound|apply key_eqb_refl; exact H|apply C|apply O|exact L].
  - intros w1 i Cm _ _ _ N. exfalso.
    destruct (Locating.cached_miss e ip w w1 Cm) as [[_ ->]|(v1 & t & L1 & _)];
      [|congruence].
    unfold requests_of, with_sent in N. cbn [sent snd] in N. rewrite drop_app_length in N.
    unfold providers in N. rewrite List.map_app, Forall_app in N. destruct N as [_ N].
    cbn [List.map fst] in N. apply Forall_cons in N as [_ N]. apply Forall_cons in N as [_ N].
    apply Forall_cons in N as [N _]. unfold not_last, to_last_provider, ipsb_request in N.
    cbn [url] in N. rewrite geoip_prefix in N. discriminate.
Qed.

End Overlap.

End Overlap.

(** ** The batches of the worker threads *)

Module Pooling.

Import Resolver Matcher Notions Examples.

Ltac fields := cbn [_location_cache _hospital_cache sent clock_reads fst snd].

Section Pooling.
Variable rt : Py.runtime.
Variable e : env.

(** What one statement of a thread does to the world outside the venue
    cache. *)
Lemma step_effect at_point w :
  _location_cache (snd (Workers.step rt e at_point w)) = _location_cache w
  /\ exists rs,
       sent (snd (Workers.step rt e at_point w)) = sent w ++ rs
       /\ Forall to_geocoder rs
       /\ (length rs + Nat.b2n (before_request (fst (Workers.step rt e at_point w)))
           <= Nat.b2n (before_request at_point))%nat.
Proof.
  assert (Z : forall (pt : Workers.point) (b : bool),
            (Nat.b2n (before_request pt) <= Nat.b2n b)%nat ->
            _location_cache (snd (pt, w)) = _location_cache w
            /\ exists rs, sent (snd (pt, w)) = sent w ++ rs /\ Forall to_geocoder rs
                 /\ (length rs + Nat.b2n (before_request (fst (pt, w))) <= Nat.b2n b)%nat).
  { intros pt b L. split; [reflexivity|]. exists []. fields. rewrite app_nil_r.
    split; [reflexivity|]. split; [constructor|]. exact L. }
  destruct at_point as [h p c|key a|key a r t|key a|key a|key v|v|v|v o|v|x].
  - unfold Workers.step.
    destruct (negb (PyStr.truthy (AMAP_API_KEY e))); [apply Z; cbn; lia|].
    destruct (negb (opt_truthy (opt_or h p))); [apply Z; cbn; lia|].
    rewrite Locating.bind_eq. unfold get_hospital_cache, ret. fields.
    destruct (Dict.lookup PyStr.eqb _ (_hospital_cache w)); apply Z; cbn; lia.
  - rewrite Overlap.step_reading.
    destruct (Dict.lookup PyStr.eqb key (_hospital_cache w)) as [[r t]|]; apply Z; cbn; lia.
  - rewrite Overlap.step_comparing. split; [reflexivity|]. exists []. fields.
    rewrite app_nil_r. split; [reflexivity|]. split; [constructor|].
    destruct (Cache.fresh _ t); cbn; lia.
  - rewrite Overlap.step_expiring.
    destruct (Dict.lookup PyStr.eqb key (_hospital_cache w)); [|apply Z; cbn; lia].
    split; [reflexivity|]. exists []. fields. rewrite app_nil_r.
    split; [reflexivity|]. split; [constructor|]. cbn. lia.
  - rewrite Overlap.step_requesting. split; [reflexivity|]. eexists. fields.
    split; [reflexivity|]. split; [repeat constructor|].
    destruct (geocode_location rt _); cbn; lia.
  - rewrite Overlap.step_storing. split; [reflexivity|]. exists []. fields.
    rewrite app_nil_r. split; [reflexivity|]. split; [constructor|]. cbn. lia.
  - rewrite Overlap.step_measuring. destruct (_ >? 200); apply Z; cbn; lia.
  - rewrite Overlap.step_choosing. destruct (Cache.oldest_key _); apply Z; cbn; lia.
  - rewrite Overlap.step_deleting.
    destruct (Dict.lookup PyStr.eqb o (_hospital_cache w)); [|apply Z; cbn; lia].
    split; [reflexivity|]. exists []. fields. rewrite app_nil_r.
    split; [reflexivity|]. split; [constructor|]. cbn. lia.
  - apply Z. cbn. lia.
  - apply Z. cbn. lia.
Qed.

(** *** The moves of the pool *)

Lemma working_split (s : Workers.pool) i p at_point :
  Workers.working s !! i = Some (p, at_point) ->
  Workers.working s = take i (Workers.working s) ++ (p, at_point) :: drop (S i) (Workers.working s)
  /\ (forall y, <[i := y]> (Workers.working s)
                = take i (Workers.working s) ++ y :: drop (S i) (Workers.working s))
  /\ delete i (Workers.working s)
     = take i (Workers.working s) ++ drop (S i) (Workers.working s).
Proof.
  intros L. split; [symmetry; apply take_drop_middle; exact L|]. split.
  - intros y. apply insert_take_drop. eapply lookup_lt_Some. exact L.
  - apply delete_take_drop.
Qed.

Lemma pending_app (l1 l2 : list (project * Workers.point)) :
  length (List.filter (fun t => before_request (snd t)) (l1 ++ l2))
  = (length (List.filter (fun t => before_request (snd t)) l1)
     + length (List.filter (fun t => before_request (snd t)) l2))%nat.
Proof. rewrite List.filter_app, length_app. reflexivity. Qed.

Lemma pending_cons (x : project * Workers.point) (l : list (project * Workers.point)) :
  length (List.filter (fun t => before_request (snd t)) (x :: l))
  = (Nat.b2n (before_request (snd x))
     + length (List.filter (fun t => before_request (snd t)) l))%nat.
Proof. cbn [List.filter]. destruct (before_request (snd x)); reflexivity. Qed.

Lemma hand_over_left i p at_point v (s : Workers.pool) :
  Workers.working s !! i = Some (p, at_point) ->
  (requests_left (Workers.hand_over i p v s) + Nat.b2n (before_request at_point)
   = requests_left s)%nat.
Proof.
  intros L. destruct (working_split s i p at_point L) as (E & I & D).
  unfold requests_left, Workers.hand_over.
  destruct (Workers.waiting s) as [|next rest]; cbn [Workers.waiting Workers.working].
  - rewrite D. rewrite E at 3. rewrite !pending_app, pending_cons. cbn [snd length]. lia.
  - rewrite I. rewrite E at 3. rewrite !pending_app, !pending_cons. cbn [snd length].
    unfold Workers.task. cbn [snd before_request Nat.b2n]. lia.
Qed.

Lemma hand_over_candidates i p at_point v (s : Workers.pool) :
  Workers.working s !! i = Some (p, at_point) ->
  Permutation (candidates (Workers.hand_over i p v s)) (candidates s).
Proof.
  intros L. destruct (working_split s i p at_point L) as (E & I & D).
  unfold candidates, Workers.hand_over.
  destruct (Workers.waiting s) as [|next rest];
    cbn [Workers.waiting Workers.working Workers.recorded].
  - rewrite D. rewrite E at 3. rewrite !List.map_app. cbn [List.map fst].
    rewrite !app_nil_r. rewrite <- !app_assoc. cbn [app].
    set (r := List.map fst (Workers.recorded s)).
    set (l1 := List.map fst (take i (Workers.working s))).
    set (l2 := List.map fst (drop (S i) (Workers.working s))).
    clearbody r l1 l2. solve_Permutation.
  - rewrite I. rewrite E at 3. rewrite !List.map_app. cbn [List.map fst].
    unfold Workers.task. cbn [fst]. rewrite <- !app_assoc. cbn [app].
    set (r := List.map fst (Workers.recorded s)).
    set (l1 := List.map fst (take i (Workers.working s))).
    set (l2 := List.map fst (drop (S i) (Workers.working s))).
    clearbody r l1 l2. solve_Permutation.
Qed.

Lemma update_left i p at_point next (s : Workers.pool) :
  Workers.working s !! i = Some (p, at_point) ->
  (requests_left {| Workers.waiting := Workers.waiting s;
                    Workers.working := <[i := (p, next)]> (Workers.working s);
                    Workers.recorded := Workers.recorded s |}
   + Nat.b2n (before_request at_point)
   = requests_left s + Nat.b2n (before_request next))%nat.
Proof.
  intros L. destruct (working_split s i p at_point L) as (E & I & _).
  unfold requests_left. cbn [Workers.waiting Workers.working].
  rewrite I. rewrite E at 3. rewrite !pending_app, !pending_cons. cbn [snd]. lia.
Qed.

Lemma update_candidates i p at_point next (s : Workers.pool) :
  Workers.working s !! i = Some (p, at_point) ->
  candidates {| Workers.waiting := Workers.waiting s;
                Workers.working := <[i := (p, next)]> (Workers.working s);
                Workers.recorded := Workers.recorded s |}
  = candidates s.
Proof.
  intros L. destruct (working_split s i p at_point L) as (E & I & _).
  unfold candidates. cbn [Workers.waiting Workers.working Workers.recorded].
  rewrite I. rewrite E at 3. rewrite !List.map_app. reflexivity.
Qed.

Lemma hand_over_settled i p at_point v (s : Workers.pool) :
  Workers.working s !! i = Some (p, at_point) -> settled (Workers.hand_over i p v s).
Proof.
  intros L. destruct (working_split s i p at_point L) as (_ & I & _).
  unfold settled, Workers.hand_over.
  destruct (Workers.waiting s) as [|next rest]; cbn [Workers.waiting Workers.working];
    [reflexivity|].
  rewrite I. intros H. apply app_eq_nil in H as [_ H]. discriminate.
Qed.

Lemma move_effect i (s : Workers.pool) w :
  settled s ->
  settled (fst (Workers.move rt e i s w))
  /\ Permutation (candidates (fst (Workers.move rt e i s w))) (candidates s)
  /\ _location_cache (snd (Workers.move rt e i s w)) = _location_cache w
  /\ exists rs,
       sent (snd (Workers.move rt e i s w)) = sent w ++ rs
       /\ Forall to_geocoder rs
       /\ (length rs + requests_left (fst (Workers.move rt e i s w)) <= requests_left s)%nat.
Proof.
  intros St. unfold Workers.move.
  destruct (Workers.working s !! i) as [[p at_point]|] eqn:L.
  - rewrite Locating.bind_eq.
    destruct (step_effect at_point w) as (Lc & rs & Es & F & B).
    pose proof (fun v => hand_over_left i p at_point v s L) as HL.
    pose proof (fun v => hand_over_candidates i p at_point v s L) as HC.
    pose proof (fun v => hand_over_settled i p at_point v s L) as HS.
    pose proof (update_left i p at_point (fst (Workers.step rt e at_point w)) s L) as UL.
    pose proof (update_candidates i p at_point (fst (Workers.step rt e at_point w)) s L) as UC.
    assert (US : settled {| Workers.waiting := Workers.waiting s;
                            Workers.working :=
                              <[i := (p, fst (Workers.step rt e at_point w))]> (Workers.working s);
                            Workers.recorded := Workers.recorded s |}).
    { unfold settled. cbn [Workers.waiting Workers.working].
      destruct (working_split s i p at_point L) as (_ & I & _). rewrite I.
      intros H. apply app_eq_nil in H as [_ H]. discriminate. }
    destruct (fst (Workers.step rt e at_point w)) eqn:N; unfold ret; fields;
      cbn [before_request Nat.b2n] in B, UL;
      first
        [ split; [exact US|]; split; [rewrite UC; reflexivity|]; split; [exact Lc|];
          exists rs; split; [exact Es|]; split; [exact F|]; lia
        | split; [apply HS|]; split; [apply HC|]; split; [exact Lc|];
          exists rs; split; [exact Es|]; split; [exact F|];
          match goal with
          | |- context [Workers.hand_over i p ?v s] => specialize (HL v)
          end; lia ].
  - unfold ret. fields. split; [exact St|]. split; [reflexivity|]. split; [reflexivity|].
    exists []. rewrite app_nil_r. split; [reflexivity|]. split; [constructor|]. cbn. lia.
Qed.

Lemma run_effect schedule (s : Workers.pool) w :
  settled s ->
  settled (fst (Workers.run rt e schedule s w))
  /\ Permutation (candidates (fst (Workers.run rt e schedule s w))) (candidates s)
  /\ _location_cache (snd (Workers.run rt e schedule s w)) = _location_cache w
  /\ exists rs,
       sent (snd (Workers.run rt e schedule s w)) = sent w ++ rs
       /\ Forall to_geocoder rs
       /\ (length rs + requests_left (fst (Workers.run rt e schedule s w))
           <= requests_left s)%nat.
Proof.
  revert s w. induction schedule as [|i rest IH]; intros s w St.
  - cbn [Workers.run]. unfold ret. fields. split; [exact St|]. split; [reflexivity|].
    split; [reflexivity|]. exists []. rewrite app_nil_r.
    split; [reflexivity|]. split; [constructor|]. cbn. lia.
  - cbn [Workers.run]. rewrite Locating.bind_eq.
    destruct (move_effect i s w St) as (St1 & P1 & L1 & rs1 & E1 & F1 & B1).
    destruct (IH _ (snd (Workers.move rt e i s w)) St1) as (St2 & P2 & L2 & rs2 & E2 & F2 & B2).
    split; [exact St2|]. split; [rewrite P2; exact P1|]. split; [rewrite L2; exact L1|].
    exists (rs1 ++ rs2). rewrite E2, E1, app_assoc. split; [reflexivity|].
    split; [apply Forall_app; auto|]. rewrite length_app. lia.
Qed.

Lemma submit_left valid_projects :
  requests_left (Workers.submit valid_projects) = length valid_projects.
Proof.
  unfold requests_left, Workers.submit. cbn [Workers.waiting Workers.working].
  assert (A : forall l : list project,
            length (List.filter (fun t => before_request (snd t)) (List.map Workers.task l))
            = length l).
  { induction l as [|p l IH]; [reflexivity|]. cbn [List.map]. rewrite pending_cons, IH.
    reflexivity. }
  rewrite A, length_drop, length_take. lia.
Qed.

Lemma submit_candidates valid_projects :
  candidates (Workers.submit valid_projects) = valid_projects.
Proof.
  unfold candidates, Workers.submit. cbn [Workers.waiting Workers.working Workers.recorded].
  cbn [List.map app]. rewrite List.map_map. cbn [Workers.task fst].
  rewrite List.map_id. apply take_drop.
Qed.

Lemma submit_settled valid_projects : settled (Workers.submit valid_projects).
Proof.
  unfold settled, Workers.submit. cbn [Workers.waiting Workers.working].
  destruct valid_projects as [|p l]; [reflexivity|].
  change (Z.to_nat Cache._max_workers) with 5%nat. cbn [take List.map]. discriminate.
Qed.

End Pooling.

(** X25. Whatever the order in which the worker threads execute their
    statements, a batch of lookups sends at most one request for each
    candidate, all of them to the geocoder with a timeout of five seconds,
    and leaves the IP cache as it is. *)
Theorem batch_one_request_each (rt : Py.runtime) (e : env) (schedule : list nat)
  (valid_projects : list project) (w : world) :
  let run := Workers.run rt e schedule (Workers.submit valid_projects) w in
  sent (snd run) = sent w ++ requests_of w (snd run)
  /\ (length (requests_of w (snd run)) <= length valid_projects)%nat
  /\ Forall to_geocoder (requests_of w (snd run))
  /\ _location_cache (snd run) = _location_cache w.
Proof.
  cbv zeta.
  destruct (run_effect rt e schedule (Workers.submit valid_projects) w
              (submit_settled valid_projects)) as (_ & _ & L & rs & E & F & B).
  assert (R : requests_of w (snd (Workers.run rt e schedule (Workers.submit valid_projects) w))
              = rs).
  { unfold requests_of. rewrite E, drop_app_length. reflexivity. }
  rewrite R. rewrite submit_left in B. split; [exact E|]. split; [lia|]. auto.
Qed.

(** X26. Whatever the order in which the worker threads execute their
    statements, no candidate is lost and none is served twice: the candidates
    whose lookup is recorded, those that the threads are at and those that
    wait are the candidates of the batch; and when all the threads are
    through, one lookup is recorded for each candidate. *)
Theorem every_candidate_recorded (rt : Py.runtime) (e : env) (schedule : list nat)
  (valid_projects : list project) (w : world) :
  let s := fst (Workers.run rt e schedule (Workers.submit valid_projects) w) in
  Permutation (candidates s) valid_projects
  /\ (Workers.working s = [] ->
      Workers.waiting s = []
      /\ Permutation (List.map fst (Workers.recorded s)) valid_projects).
Proof.
  cbv zeta.
  destruct (run_effect rt e schedule (Workers.submit valid_projects) w
              (submit_settled valid_projects)) as (St & P & _).
  rewrite submit_candidates in P. split; [exact P|].
  intros Wk. pose proof (St Wk) as Wt. split; [exact Wt|].
  unfold candidates in P. rewrite Wk, Wt in P. cbn [List.map] in P.
  rewrite !app_nil_r in P. exact P.
Qed.

(** Two threads, each at one statement in turn, on two candidates: both
    lookups are recorded. *)
Lemma every_candidate_recorded_witness :
  Permutation
    (List.map fst
       (Workers.recorded
          (fst (Workers.run Samples.reading Samples.geocoder Samples.in_turn
                  (Workers.submit [near_project; far_project]) Samples.full_world))))
    [near_project; far_project].
Proof.
  apply (every_candidate_recorded Samples.reading Samples.geocoder Samples.in_turn
           [near_project; far_project] Samples.full_world).
  vm_compute. reflexivity.
Defined.

End Pooling.

(** * The claims *)

Module Claims.

Import Resolver Matcher Examples Notions.

(** ** The tiers of the score *)

(** C1, as amended. For a candidate with a geocode, when the lowered city of
    the client and that of the venue are not empty, the tier of the city is
    the first of: 50 when they are equal; 45 when their normalized forms are
    equal and not empty; 40 when one contains the other; 35 when the
    normalized forms are both not empty and one contains the other; 0
    otherwise. It is one of these five values. The normalized form of a name
    without 地区 is the name without its characters 市, 县 and 区, then without
    its occurrences of 自治州, then without its characters 盟. In the first scenario (client
    in "北京市", geocode in "北京", no regions, no coordinates of the client)
    the score is 45, which reaches the threshold. *)
Theorem city_tier_first_match (rt : Py.runtime) :
  (forall (info : list (str * Py.value)) (h : str),
    let a := lower rt (text_of rt (Py.field info "city" (Py.VStr []))) in
    let an := normalize_city a in
    let hn := normalize_city h in
    let points := city_tier (client_of rt info) h in
    a <> [] -> h <> [] ->
    (a = h -> points = 50)
    /\ (a <> h -> an = hn -> an <> [] -> points = 45)
    /\ (a <> h -> ~ (an = hn /\ an <> []) ->
        contains a h = true \/ contains h a = true -> points = 40)
    /\ (a <> h -> ~ (an = hn /\ an <> []) ->
        contains a h = false -> contains h a = false ->
        an <> [] -> hn <> [] ->
        contains an hn = true \/ contains hn an = true -> points = 35)
    /\ (a <> h -> ~ (an = hn /\ an <> []) ->
        contains a h = false -> contains h a = false ->
        an = [] \/ hn = [] \/ contains an hn = false /\ contains hn an = false ->
        points = 0)
    /\ (points = 50 \/ points = 45 \/ points = 40 \/ points = 35 \/ points = 0))
  /\ (forall s : str,
        contains (u "地区") s = false ->
        normalize_city s
        = without (u "盟") (replace (u "自治州") [] (without (u "市县区") s)))
  /\ (forall p : project,
        Py.str_lower rt [] = [] ->
        Py.str_lower rt (u "北京市") = u "北京市" ->
        Py.str_lower rt (u "北京") = u "北京" ->
        score_project rt (client_of rt scenario1_client)
          (<[project_id p := Py.VDict scenario1_venue]> ∅) p = Py.Ok (45, None)
        /\ 10 <= 45).
Proof.
  split; [|split; [intros s _; apply Normalizing.normalize_city_spec|];
           intros p L0 L1 L2; split; [apply scenario1_score; assumption|lia]].
  intros info h a an hn points Ha Hh.
  assert (P : points = tier 50 45 40 35 a an h hn) by reflexivity.
  rewrite P. unfold tier.
  apply truthy_nonempty in Ha, Hh. rewrite Ha, Hh. cbn [andb].
  repeat split.
  - intros E. apply eqb_eq in E. rewrite E. reflexivity.
  - intros N E Ne. apply eqb_neq in N. rewrite N.
    apply truthy_nonempty in Ne. rewrite Ne.
    rewrite <- E, Ne. cbn [andb]. rewrite (proj2 (eqb_eq an an) eq_refl). reflexivity.
  - intros N M C. apply eqb_neq in N. rewrite N.
    assert (X : PyStr.truthy an && PyStr.truthy hn && PyStr.eqb an hn = false).
    { destruct (PyStr.truthy an) eqn:T; [|reflexivity].
      destruct (PyStr.truthy hn); [|reflexivity]. cbn.
      apply eqb_neq. intros E. apply M. split; [exact E|]. apply truthy_nonempty. exact T. }
    rewrite X. destruct C as [-> | ->]; rewrite ?orb_true_r; reflexivity.
  - intros N M C1 C2 Ne1 Ne2 C. apply eqb_neq in N. rewrite N, C1, C2.
    apply truthy_nonempty in Ne1, Ne2. rewrite Ne1, Ne2. cbn [andb orb].
    assert (X : PyStr.eqb an hn = false).
    { apply eqb_neq. intros E. apply M. split; [exact E|]. apply truthy_nonempty. exact Ne1. }
    rewrite X. destruct C as [-> | ->]; rewrite ?orb_true_r; reflexivity.
  - intros N M C1 C2 C. apply eqb_neq in N. rewrite N, C1, C2. cbn [orb].
    assert (X : PyStr.truthy an && PyStr.truthy hn && PyStr.eqb an hn = false).
    { destruct (PyStr.truthy an) eqn:T; [|reflexivity].
      destruct (PyStr.truthy hn); [|reflexivity]. cbn.
      apply eqb_neq. intros E. apply M. split; [exact E|]. apply truthy_nonempty. exact T. }
    rewrite X. destruct C as [C | [C | [-> ->]]].
    + apply truthy_empty in C. rewrite C. reflexivity.
    + apply truthy_empty in C. rewrite C, andb_false_r. reflexivity.
    + cbn [orb]. destruct (PyStr.truthy an && PyStr.truthy hn); reflexivity.
  - repeat case_match; auto 10.
Qed.

(** The first scenario, a normalized match and the normalized form of a
    prefecture, on the example runtime. *)
Lemma city_tier_first_match_witness :
  score_project small_angle (client_of small_angle scenario1_client)
    (<[project_id near_project := Py.VDict scenario1_venue]> ∅) near_project
  = Py.Ok (45, None)
  /\ city_tier (client_of small_angle scenario1_client) (u "北京") = 45
  /\ normalize_city (u "延边朝鲜族自治州") = u "延边朝鲜族".
Proof.
  destruct (city_tier_first_match small_angle) as (T & N & S). split; [|split].
  - apply (S near_project); reflexivity.
  - apply (T scenario1_client (u "北京")); [discriminate|discriminate|discriminate|reflexivity|discriminate].
  - rewrite (N (u "延边朝鲜族自治州")); vm_compute; reflexivity.
Defined.

(** C1 as it is stated fails on names made of administrative suffixes: the
    client is in "市区" and the geocode in "县"; both names are not empty, they
    differ, and their normalized forms are equal (both empty), so that the
    claim gives 45, but the code gives 0 and drops the candidate. *)
Lemma city_tier_counterexample :
  ip_city_lower (client_of small_angle suffix_client) <> [] /\ u "县" <> []
  /\ claimed_city_tier (ip_city_lower (client_of small_angle suffix_client)) (u "县") = 45
  /\ city_tier (client_of small_angle suffix_client) (u "县") = 0
  /\ score_project small_angle (client_of small_angle suffix_client)
       (<[1 := Py.VDict suffix_venue]> ∅) near_project
     = Py.Ok (0, None).
Proof. vm_compute. repeat split; discriminate. Qed.

(** C2. The penalty applies exactly when the lowered country of the client
    is not empty and contains neither "china" nor "中国"; the final score is
    then the integer part of the product of the score and 0.7 in binary64,
    which is [7 * s / 10] for every score that the tiers can give but 90,
    where the product is rounded below 63; a score of 40 becomes 28. The
    threshold is applied to this final score by [score_all]. *)
Theorem vpn_penalty (rt : Py.runtime) :
  (forall info : list (str * Py.value),
     let country := lower rt (text_of rt (Py.field info "country" (Py.VStr []))) in
     is_vpn (client_of rt info) = true <->
     country <> [] /\ contains (u "china") country = false
     /\ contains (u "中国") country = false)
  /\ (forall c hl p,
        score_project rt c hl p =
          let* sd := raw_score rt c hl p in
          Py.Ok (if is_vpn c then penalized (fst sd) else fst sd, snd sd))
  /\ (forall s, 0 <= s <= 110 ->
        to_int (fmul (of_int s) f0_7) = Some (penalized s))
  /\ penalized 40 = 28.
Proof.
  split; [|split; [|split]].
  - intros info country. unfold is_vpn. cbn [ip_country_lower client_of]. fold country.
    rewrite !andb_true_iff, !negb_true_iff, truthy_nonempty. tauto.
  - intros c hl p. unfold score_project.
    destruct (raw_score rt c hl p) as [[s d]|] eqn:R; cbn [Py.bind]; [|reflexivity].
    cbn [fst snd]. destruct (is_vpn c); [|reflexivity].
    rewrite (vpn_score_exact s (raw_score_bounds rt _ _ _ _ _ R)). reflexivity.
  - intros s B. pose proof (vpn_score_exact s B) as V. unfold vpn_score in V.
    assert (F : is_finite (of_int s) = true).
    { assert (A : forallb (fun z => is_finite (of_int z)) (List.map Z.of_nat (seq 0 111)) = true)
        by (vm_compute; reflexivity).
      rewrite forallb_forall in A. apply A.
      apply in_map_iff. exists (Z.to_nat s). split; [lia|]. apply in_seq. lia. }
    cbn [Py.as_float Py.bind] in V. rewrite F in V. cbn [Py.bind] in V.
    destruct (to_int _) as [z|]; [|discriminate]. congruence.
  - reflexivity.
Qed.


(** The fourth scenario: a client in the United States whose city contains
    that of the geocode has 40 points, and 28 after the penalty. *)
Lemma vpn_penalty_witness :
  is_vpn (client_of small_angle abroad_client) = true
  /\ to_int (fmul (of_int 40) f0_7) = Some 28
  /\ raw_score small_angle (client_of small_angle abroad_client)
       (<[1 := Py.VDict abroad_venue]> ∅) near_project = Py.Ok (40, None)
  /\ score_project small_angle (client_of small_angle abroad_client)
       (<[1 := Py.VDict abroad_venue]> ∅) near_project = Py.Ok (28, None).
Proof.
  destruct (vpn_penalty small_angle) as (V & S & T & _). split; [|split; [|split]].
  - apply (V abroad_client). repeat split; first [discriminate | reflexivity].
  - apply (T 40). lia.
  - reflexivity.
  - rewrite S. reflexivity.
Defined.

Lemma distance_tier_values d :
  distance_tier d = 30 \/ distance_tier d = 20 \/ distance_tier d = 10
  \/ distance_tier d = 5 \/ distance_tier d = 0.
Proof. unfold distance_tier. repeat case_match; auto. Qed.

Lemma distance_tier_antitone d1 d2 :
  fle d1 d2 = true -> distance_tier d2 <= distance_tier d1.
Proof.
  intros H. unfold distance_tier.
  assert (T : forall k, fle d2 k = true -> fle d1 k = true)
    by (intros k; apply fle_trans; exact H).
  destruct (fle d2 (of_int 10)) eqn:E10; [rewrite (T _ E10); lia|].
  destruct (fle d2 (of_int 50)) eqn:E50;
    [rewrite (T _ E50); repeat case_match; lia|].
  destruct (fle d2 (of_int 100)) eqn:E100;
    [rewrite (T _ E100); repeat case_match; lia|].
  destruct (fle d2 (of_int 200)) eqn:E200;
    [rewrite (T _ E200); repeat case_match; lia|].
  repeat case_match; lia.
Qed.

(** C5, as amended. On four floats other than zero [calculate_distance]
    returns the haversine distance on a sphere of radius 6371 kilometres. For
    a candidate with a geocode, when none of the four coordinates is missing
    or zero and the distance is [d], the score is the sum of the tiers of the
    city, of the region and of the distance; the tier of the distance is 30
    up to 10 km, 20 up to 50 km, 10 up to 100 km, 5 up to 200 km and 0
    beyond. For a client and two positions of a venue, all at floats other
    than zero, when the haversine distance of the client to the second
    position is not greater than to the first, the venue has at both
    positions the same tiers of the city and of the region, and at the second
    a tier of the distance that is not smaller. *)
Theorem distance_tier_added (rt : Py.runtime) :
  (forall lat1 lon1 lat2 lon2 : float,
     PyFloat.truthy lat1 = true -> PyFloat.truthy lon1 = true ->
     PyFloat.truthy lat2 = true -> PyFloat.truthy lon2 = true ->
     calculate_distance rt (Py.VFloat lat1) (Py.VFloat lon1) (Py.VFloat lat2) (Py.VFloat lon2)
     = let* d := haversine rt lat1 lon1 lat2 lon2 in Py.Ok (Some d))
  /\ (forall (c : client) (hl : list (str * Py.value)) (city region : str) (d : float),
        Py.field hl "city" (Py.VStr []) = Py.VStr city ->
        Py.field hl "region" (Py.VStr []) = Py.VStr region ->
        Py.truthy (ip_lat c) = true -> Py.truthy (ip_lon c) = true ->
        Py.truthy (Py.field hl "latitude" Py.VNone) = true ->
        Py.truthy (Py.field hl "longitude" Py.VNone) = true ->
        calculate_distance rt (ip_lat c) (ip_lon c)
          (Py.field hl "latitude" Py.VNone) (Py.field hl "longitude" Py.VNone)
        = Py.Ok (Some d) ->
        score_geocoded rt c hl =
          Py.Ok (city_tier c (lower rt (strip city)) + region_tier c (lower rt (strip region))
                 + distance_tier d, Some d))
  /\ (forall d : float,
        (fle d (of_int 10) = true -> distance_tier d = 30)
        /\ (flt (of_int 10) d = true -> fle d (of_int 50) = true -> distance_tier d = 20)
        /\ (flt (of_int 50) d = true -> fle d (of_int 100) = true -> distance_tier d = 10)
        /\ (flt (of_int 100) d = true -> fle d (of_int 200) = true -> distance_tier d = 5)
        /\ (flt (of_int 200) d = true -> distance_tier d = 0))
  /\ (forall (c : client) (hl1 hl2 : list (str * Py.value)) (city region : str)
             (lat lon lat1 lon1 lat2 lon2 d1 d2 : float),
        ip_lat c = Py.VFloat lat -> ip_lon c = Py.VFloat lon ->
        PyFloat.truthy lat = true -> PyFloat.truthy lon = true ->
        venue_at hl1 city region lat1 lon1 ->
        venue_at hl2 city region lat2 lon2 ->
        haversine rt lat lon lat1 lon1 = Py.Ok d1 ->
        haversine rt lat lon lat2 lon2 = Py.Ok d2 ->
        fle d2 d1 = true ->
        let names :=
          city_tier c (lower rt (strip city)) + region_tier c (lower rt (strip region)) in
        score_geocoded rt c hl1 = Py.Ok (names + distance_tier d1, Some d1)
        /\ score_geocoded rt c hl2 = Py.Ok (names + distance_tier d2, Some d2)
        /\ distance_tier d1 <= distance_tier d2).
Proof.
  assert (H : forall lat1 lon1 lat2 lon2 : float,
            PyFloat.truthy lat1 = true -> PyFloat.truthy lon1 = true ->
            PyFloat.truthy lat2 = true -> PyFloat.truthy lon2 = true ->
            calculate_distance rt (Py.VFloat lat1) (Py.VFloat lon1)
              (Py.VFloat lat2) (Py.VFloat lon2)
            = let* d := haversine rt lat1 lon1 lat2 lon2 in Py.Ok (Some d)).
  { intros lat1 lon1 lat2 lon2 T1 T2 T3 T4. rewrite calculate_distance_floats.
    rewrite T1, T2, T3, T4. cbn [andb negb]. unfold haversine.
    destruct (half rt (fsub lat2 lat1)); cbn [Py.bind]; [|reflexivity].
    destruct (cos rt (radians lat1)); cbn [Py.bind]; [|reflexivity].
    destruct (cos rt (radians lat2)); cbn [Py.bind]; [|reflexivity].
    destruct (half rt (fsub lon2 lon1)); cbn [Py.bind]; [|reflexivity].
    destruct (sqrt rt _); cbn [Py.bind]; [|reflexivity].
    destruct (asin rt _); cbn [Py.bind]; reflexivity. }
  assert (A : forall (c : client) (hl : list (str * Py.value)) (city region : str) (d : float),
            Py.field hl "city" (Py.VStr []) = Py.VStr city ->
            Py.field hl "region" (Py.VStr []) = Py.VStr region ->
            Py.truthy (ip_lat c) = true -> Py.truthy (ip_lon c) = true ->
            Py.truthy (Py.field hl "latitude" Py.VNone) = true ->
            Py.truthy (Py.field hl "longitude" Py.VNone) = true ->
            calculate_distance rt (ip_lat c) (ip_lon c)
              (Py.field hl "latitude" Py.VNone) (Py.field hl "longitude" Py.VNone)
            = Py.Ok (Some d) ->
            score_geocoded rt c hl =
              Py.Ok (city_tier c (lower rt (strip city))
                     + region_tier c (lower rt (strip region))
                     + distance_tier d, Some d)).
  { intros c hl city region d Hc Hr H1 H2 H3 H4 Hd.
    unfold score_geocoded. rewrite Hc, Hr. cbn [str_strip Py.bind].
    rewrite H1, H2, H3, H4. cbn [andb]. rewrite Hd. reflexivity. }
  split; [exact H|]. split; [exact A|]. split.
  - intros d.
    assert (N : forall k, flt (of_int k) d = true -> is_nan (of_int k) = false -> fle d (of_int k) = false).
    { intros k L Hk. apply fle_false; auto. apply (flt_numbers _ _ L). }
    unfold distance_tier. repeat split.
    + intros ->. reflexivity.
    + intros L ->. rewrite (N 10 L eq_refl). reflexivity.
    + intros L ->. rewrite (N 50 L eq_refl).
      destruct (fle d (of_int 10)) eqn:E; [|reflexivity].
      pose proof (fle_trans _ _ (of_int 50) E eq_refl) as F. rewrite (N 50 L eq_refl) in F. discriminate.
    + intros L ->. rewrite (N 100 L eq_refl).
      destruct (fle d (of_int 10)) eqn:E.
      { pose proof (fle_trans _ _ (of_int 100) E eq_refl) as F. rewrite (N 100 L eq_refl) in F. discriminate. }
      destruct (fle d (of_int 50)) eqn:E'.
      { pose proof (fle_trans _ _ (of_int 100) E' eq_refl) as F. rewrite (N 100 L eq_refl) in F. discriminate. }
      reflexivity.
    + intros L.
      assert (Z : forall k, fle (of_int k) (of_int 200) = true -> fle d (of_int k) = false).
      { intros k Hk. destruct (fle d (of_int k)) eqn:E; [|reflexivity].
        pose proof (fle_trans _ _ _ E Hk) as F. rewrite (N 200 L eq_refl) in F. discriminate. }
      rewrite (Z 10 eq_refl), (Z 50 eq_refl), (Z 100 eq_refl), (Z 200 eq_refl). reflexivity.
  - intros c hl1 hl2 city region lat lon lat1 lon1 lat2 lon2 d1 d2 Elat Elon Tlat Tlon
      (C1 & R1 & La1 & Lo1 & T1 & U1) (C2 & R2 & La2 & Lo2 & T2 & U2) D1 D2 L names.
    split; [|split].
    + apply (A c hl1 city region d1 C1 R1); rewrite ?Elat, ?Elon, ?La1, ?Lo1; auto.
      rewrite (H lat lon lat1 lon1 Tlat Tlon T1 U1), D1. reflexivity.
    + apply (A c hl2 city region d2 C2 R2); rewrite ?Elat, ?Elon, ?La2, ?Lo2; auto.
      rewrite (H lat lon lat2 lon2 Tlat Tlon T2 U2), D2. reflexivity.
    + apply distance_tier_antitone. exact L.
Qed.

(** The second scenario, with the distance that the example runtime gives,
    and the same venue further from the client. *)
Lemma distance_tier_added_witness :
  (exists d,
     haversine small_angle (decimal4 399163) (decimal4 1163971)
       (decimal4 399205) (decimal4 1164100) = Py.Ok d
     /\ calculate_distance small_angle
          (Py.VFloat (decimal4 399163)) (Py.VFloat (decimal4 1163971))
          (Py.VFloat (decimal4 399205)) (Py.VFloat (decimal4 1164100)) = Py.Ok (Some d)
     /\ distance_tier d = 30
     /\ score_geocoded small_angle (client_of small_angle tiananmen) near_venue
        = Py.Ok (city_tier (client_of small_angle tiananmen) (lower small_angle (strip (u "北京市")))
                 + region_tier (client_of small_angle tiananmen) (lower small_angle (strip (u "北京市")))
                 + distance_tier d, Some d))
  /\ (exists d1 d2,
        score_geocoded small_angle (client_of small_angle tiananmen) suburb_venue
        = Py.Ok (0 + distance_tier d1, Some d1)
        /\ score_geocoded small_angle (client_of small_angle tiananmen) near_venue
           = Py.Ok (0 + distance_tier d2, Some d2)
        /\ distance_tier d1 <= distance_tier d2).
Proof.
  destruct (distance_tier_added small_angle) as (F & A & T & M). split.
  - eexists. split; [vm_compute; reflexivity|]. split; [|split].
    + rewrite F; [vm_compute|..]; reflexivity.
    + apply T. reflexivity.
    + apply (A _ near_venue (u "北京市") (u "北京市")); reflexivity.
  - destruct (haversine small_angle (decimal4 399163) (decimal4 1163971)
                (decimal4 401000) (decimal4 1166500)) as [d1|] eqn:D1;
      [|vm_compute in D1; discriminate].
    destruct (haversine small_angle (decimal4 399163) (decimal4 1163971)
                (decimal4 399205) (decimal4 1164100)) as [d2|] eqn:D2;
      [|vm_compute in D2; discriminate].
    exists d1, d2.
    apply (M (client_of small_angle tiananmen) suburb_venue near_venue (u "北京市") (u "北京市")
             (decimal4 399163) (decimal4 1163971)
             (decimal4 401000) (decimal4 1166500) (decimal4 399205) (decimal4 1164100)).
    + vm_compute. reflexivity.
    + vm_compute. reflexivity.
    + vm_compute. reflexivity.
    + vm_compute. reflexivity.
    + repeat split; vm_compute; reflexivity.
    + repeat split; vm_compute; reflexivity.
    + exact D1.
    + exact D2.
    + vm_compute in D1, D2. injection D1 as <-. injection D2 as <-. vm_compute. reflexivity.
Defined.

(** C5 as it is stated fails on the equator. The client is a hundredth of a
    degree north of it; the venue, three hundredths of a degree north, is at
    2.2 km and has the 30 points of the distance; moved onto the equator it
    is at 1.1 km, nearer, and has no points of the distance at all, its
    latitude 0.0 counting as missing. *)
Lemma closer_on_the_equator_counterexample :
  exists further nearer : float,
    haversine small_angle (decimal4 100) (decimal4 1093300) (decimal4 300) (decimal4 1093300)
    = Py.Ok further
    /\ haversine small_angle (decimal4 100) (decimal4 1093300) (decimal4 0) (decimal4 1093300)
       = Py.Ok nearer
    /\ flt nearer further = true
    /\ fle further (of_int 10) = true
    /\ score_geocoded small_angle (client_of small_angle pontianak) north_venue
       = Py.Ok (50 + 30, Some further)
    /\ score_geocoded small_angle (client_of small_angle pontianak) equator_venue
       = Py.Ok (50 + 0, None).
Proof.
  do 2 eexists. split; [vm_compute; reflexivity|]. split; [vm_compute; reflexivity|].
  vm_compute. auto.
Qed.


(** ** The threshold and the ranking *)

(** C3. In a run that returns, a candidate is in the result if and only if
    it was scored (the location of the client succeeded and the candidate has
    a name) and its final score, after the penalty, is at least 10; the
    result holds the candidates of the ranked elements, whose scores are all
    at least 10. *)
Theorem threshold_decides_membership (rt : Py.runtime) location_info projects completed out :
  match_projects_by_location rt location_info projects completed = Py.Ok out ->
  (forall p, In p out <->
     exists info s d,
       location_info = Py.VDict info
       /\ Py.truthy (Py.field info "success" Py.VNone) = true
       /\ In p projects /\ valid p = true
       /\ score_project rt (client_of rt info) (collect completed) p = Py.Ok (s, d)
       /\ 10 <= s)
  /\ (forall ms, ranked rt location_info projects completed = Py.Ok ms ->
        out = List.map project_of ms /\ Forall (fun m => 10 <= score m) ms).
Proof.
  unfold match_projects_by_location, ranked.
  destruct location_info as [| | | | | |info]; try discriminate.
  destruct (Py.truthy (Py.field info "success" Py.VNone)) eqn:Su; cbn [negb].
  2:{ cbn. intros [= <-]. split.
      - intros p. split; [intros []|].
        intros (info' & s & d & [= <-] & Su' & _). congruence.
      - intros ms [= <-]. split; [reflexivity|constructor]. }
  assert (V : forall p, In p (List.filter valid projects) <-> In p projects /\ valid p = true)
    by (intros p; apply filter_In).
  destruct (List.filter valid projects) as [|p0 ps] eqn:F.
  { cbn. intros [= <-]. split.
    - intros p. split; [intros []|].
      intros (info' & s & d & _ & _ & I & Vp & _). apply (proj2 (V p)). auto.
    - intros ms [= <-]. split; [reflexivity|constructor]. }
  destruct (score_all rt (client_of rt info) (collect completed) (p0 :: ps)) as [ms0|] eqn:Sa;
    [|discriminate].
  cbn [Py.bind]. intros [= <-].
  pose proof (score_all_spec rt _ _ _ _ Sa) as Sp.
  split.
  - intros p. rewrite in_map_iff. split.
    + intros (m & <- & I). apply (Permutation_in _ (sort_perm ms0)) in I.
      apply Sp in I as (I & E & T). apply V in I as [I Vp].
      exists info, (score m), (distance_km m). auto 10.
    + intros (info' & s & d & [= <-] & _ & I & Vp & E & T).
      exists {| project_of := p; score := s; distance_km := d |}. split; [reflexivity|].
      apply (Permutation_in _ (Permutation_sym (sort_perm ms0))).
      apply Sp. cbn. split; [apply V; auto|auto].
  - intros ms [= <-]. split; [reflexivity|].
    apply Forall_forall. intros m I. apply list_elem_of_In in I.
    apply (Permutation_in _ (sort_perm ms0)) in I. apply Sp in I. tauto.
Qed.

(** The run of the examples: the candidate in the centre is in the result. *)
Lemma threshold_decides_membership_witness :
  In near_project [near_project; suburb_project]
  <-> exists info s d,
        Py.VDict tiananmen = Py.VDict info
        /\ Py.truthy (Py.field info "success" Py.VNone) = true
        /\ In near_project some_projects /\ valid near_project = true
        /\ score_project small_angle (client_of small_angle info) (collect some_lookups)
             near_project = Py.Ok (s, d)
        /\ 10 <= s.
Proof.
  assert (E : match_projects_by_location small_angle (Py.VDict tiananmen) some_projects
                some_lookups = Py.Ok [near_project; suburb_project])
    by (vm_compute; reflexivity).
  exact (proj1 (threshold_decides_membership small_angle _ _ _ _ E) near_project).
Defined.

(** C4. In a run that returns and in which no distance is a NaN, the result
    holds the candidates of the ranked elements, and these are sorted: of two
    elements the earlier has the higher score, or the scores are equal and
    its distance is not greater, an unknown distance counting as infinite
    and so coming after every known finite distance. *)
Theorem ranking_sorted (rt : Py.runtime) location_info projects completed ms :
  ranked rt location_info projects completed = Py.Ok ms ->
  Forall distance_known ms ->
  match_projects_by_location rt location_info projects completed
    = Py.Ok (List.map project_of ms)
  /\ StronglySorted ranked_before ms.
Proof.
  intros R K. split.
  - unfold match_projects_by_location. rewrite R. reflexivity.
  - assert (S : exists l, ms = sort l).
    { unfold ranked in R. destruct location_info; try discriminate.
      destruct (negb _); [exists []; injection R as <-; reflexivity|].
      destruct (List.filter valid projects); [exists []; injection R as <-; reflexivity|].
      destruct (score_all _ _ _ _) as [l0|]; [|discriminate].
      exists l0. cbn in R. injection R as <-. reflexivity. }
    destruct S as [l ->].
    assert (StronglySorted key_le (sort l)) as S.
    { apply sort_sorted. rewrite <- (sort_perm l).
      eapply Forall_impl; [exact K|]. intros m. apply distance_known_key. }
    clear - S. induction S as [|m ms S IH F]; constructor; [assumption|].
    eapply Forall_impl; [exact F|]. intros b. apply key_le_ranked_before.
Qed.

Lemma ranking_sorted_witness :
  match_projects_by_location small_angle (Py.VDict tiananmen) some_projects some_lookups
    = Py.Ok (List.map project_of some_ranking)
  /\ StronglySorted ranked_before some_ranking.
Proof.
  apply ranking_sorted.
  - vm_compute. reflexivity.
  - repeat constructor; intros d [= <-]; reflexivity.
Defined.

(** ** The distance *)

(** C9, as amended. On floats [calculate_distance] is symmetric, whatever it
    returns, when the sine of the C library is odd and its square even. The
    distance of a point to itself is 0.0 when its coordinates are numbers
    other than zero, the cosine of its latitude is defined and the square of
    this cosine is a number; it is [None] when a coordinate is zero. *)
Theorem distance_symmetric_and_zero (rt : Py.runtime) (libm : libm_ok rt) :
  (forall lat1 lon1 lat2 lon2 : float,
     calculate_distance rt (Py.VFloat lat1) (Py.VFloat lon1) (Py.VFloat lat2) (Py.VFloat lon2)
     = calculate_distance rt (Py.VFloat lat2) (Py.VFloat lon2) (Py.VFloat lat1) (Py.VFloat lon1))
  /\ (forall lat lon c : float,
        PyFloat.truthy lat = true -> PyFloat.truthy lon = true ->
        is_finite lat = true -> is_finite lon = true ->
        Py.math_cos rt (radians lat) = Some c -> is_finite (fmul c c) = true ->
        calculate_distance rt (Py.VFloat lat) (Py.VFloat lon) (Py.VFloat lat) (Py.VFloat lon)
        = Py.Ok (Some (S754_zero false)))
  /\ (forall lat lon : float,
        PyFloat.truthy lat = false \/ PyFloat.truthy lon = false ->
        calculate_distance rt (Py.VFloat lat) (Py.VFloat lon) (Py.VFloat lat) (Py.VFloat lon)
        = Py.Ok None).
Proof.
  split; [|split].
  - intros lat1 lon1 lat2 lon2. rewrite !calculate_distance_floats.
    replace (PyFloat.truthy lat2 && PyFloat.truthy lon2 && PyFloat.truthy lat1 && PyFloat.truthy lon1)
      with (PyFloat.truthy lat1 && PyFloat.truthy lon1 && PyFloat.truthy lat2 && PyFloat.truthy lon2)
      by (destruct (PyFloat.truthy lat1), (PyFloat.truthy lon1), (PyFloat.truthy lat2),
            (PyFloat.truthy lon2); reflexivity).
    destruct (negb _); [reflexivity|].
    rewrite (half_swap rt libm lat2 lat1), (half_swap rt libm lon2 lon1).
    destruct (half rt (fsub lat2 lat1)) as [a|]; cbn [Py.bind]; [|reflexivity].
    unfold cos.
    destruct (Py.math_cos rt (radians lat1)) as [c1|],
             (Py.math_cos rt (radians lat2)) as [c2|]; cbn; try reflexivity.
    rewrite (fmul_comm c2 c1). reflexivity.
  - intros lat lon c T1 T2 F1 F2 C Fc. rewrite calculate_distance_floats.
    rewrite T1, T2. cbn [andb negb].
    rewrite (fsub_diag lat F1), (fsub_diag lon F2), (half_zero rt libm). cbn [Py.bind].
    unfold cos. rewrite C. cbn [Py.or_raise Py.bind].
    destruct (fmul_zero_r _ Fc) as [s ->].
    replace (fadd (S754_zero false) (S754_zero s)) with (S754_zero false)
      by (destruct s; reflexivity).
    unfold sqrt, asin. rewrite (sqrt_zero rt libm). cbn [Py.or_raise Py.bind].
    rewrite (asin_zero rt libm). reflexivity.
  - intros lat lon H. rewrite calculate_distance_floats.
    destruct H as [-> | ->]; rewrite ?andb_false_r; reflexivity.
Qed.

Lemma distance_symmetric_and_zero_witness :
  calculate_distance small_angle
    (Py.VFloat (decimal4 399163)) (Py.VFloat (decimal4 1163971))
    (Py.VFloat (decimal4 399205)) (Py.VFloat (decimal4 1164100))
  = calculate_distance small_angle
      (Py.VFloat (decimal4 399205)) (Py.VFloat (decimal4 1164100))
      (Py.VFloat (decimal4 399163)) (Py.VFloat (decimal4 1163971))
  /\ calculate_distance small_angle
       (Py.VFloat (decimal4 399163)) (Py.VFloat (decimal4 1163971))
       (Py.VFloat (decimal4 399163)) (Py.VFloat (decimal4 1163971))
     = Py.Ok (Some (S754_zero false)).
Proof.
  destruct (distance_symmetric_and_zero small_angle small_angle_libm) as (S & Z & _). split.
  - apply S.
  - apply (Z _ _ (of_int 1)); reflexivity.
Defined.

(** C9 as it is stated fails on the equator: the distance of the point of
    latitude 0 and longitude 100 to itself is [None], not 0. *)
Lemma distance_to_itself_counterexample :
  calculate_distance small_angle equator_lat equator_lon equator_lat equator_lon
  = Py.Ok None.
Proof. reflexivity. Qed.

(** C10. [calculate_distance] returns [None] when one of its arguments is
    [None] or a zero; for a candidate with a geocode, when the latitude or the
    longitude of the client or of the venue is [None] or a zero, the score is
    the sum of the tiers of the city and of the region alone and the distance
    is unknown; and in the ranking an element with a known finite distance
    comes before every element of the same score with an unknown distance. *)
Theorem zero_coordinate_is_absent (rt : Py.runtime) :
  (forall lat1 lon1 lat2 lon2,
     absent lat1 \/ absent lon1 \/ absent lat2 \/ absent lon2 ->
     calculate_distance rt lat1 lon1 lat2 lon2 = Py.Ok None)
  /\ (forall (c : client) (hl : list (str * Py.value)) (city region : str),
        Py.field hl "city" (Py.VStr []) = Py.VStr city ->
        Py.field hl "region" (Py.VStr []) = Py.VStr region ->
        absent (ip_lat c) \/ absent (ip_lon c)
        \/ absent (Py.field hl "latitude" Py.VNone)
        \/ absent (Py.field hl "longitude" Py.VNone) ->
        score_geocoded rt c hl =
          Py.Ok (city_tier c (lower rt (strip city)) + region_tier c (lower rt (strip region)),
                 None))
  /\ (forall (l : list matched) (a b : matched) (d : float),
        Forall distance_known l -> In a l -> In b l ->
        score a = score b ->
        distance_km a = Some d -> is_finite d = true -> distance_km b = None ->
        exists l1 l2 l3, sort l = l1 ++ a :: l2 ++ b :: l3).
Proof.
  split; [|split].
  - intros lat1 lon1 lat2 lon2 H. unfold calculate_distance. cbn [forallb].
    destruct H as [H|[H|[H|H]]]; rewrite (absent_falsy _ H);
      rewrite ?andb_false_r; reflexivity.
  - intros c hl city region Hc Hr H. unfold score_geocoded.
    rewrite Hc, Hr. cbn [str_strip Py.bind].
    destruct H as [H|[H|[H|H]]]; rewrite (absent_falsy _ H);
      rewrite ?andb_false_r; reflexivity.
  - intros l a b d K Ia Ib Es Ka Fd Nb.
    assert (S : StronglySorted key_le (sort l)).
    { apply sort_sorted. eapply Forall_impl; [exact K|]. intros m. apply distance_known_key. }
    apply (Permutation_in _ (Permutation_sym (sort_perm l))) in Ia, Ib.
    destruct (in_split _ _ Ia) as (l1 & l2 & E). rewrite E in Ib, S.
    apply in_app_or in Ib. destruct Ib as [Ib|[Ib|Ib]].
    + exfalso. destruct (in_split _ _ Ib) as (l1a & l1b & E1). rewrite E1 in S.
      rewrite <- app_assoc in S. cbn in S. apply sorted_suffix in S.
      rewrite Forall_forall in S.
      assert (Ia' : a ∈ l1b ++ a :: l2)
        by (apply list_elem_of_In, in_or_app; right; left; reflexivity).
      specialize (S a Ia'). apply key_le_ranked_before in S.
      destruct S as [S|[_ S]]; [lia|]. rewrite Nb, Ka in S. subst d. discriminate.
    + exfalso. subst b. congruence.
    + destruct (in_split _ _ Ib) as (l2a & l2b & E2). exists l1, l2a, l2b.
      rewrite E, E2. reflexivity.
Qed.

Lemma zero_coordinate_is_absent_witness :
  calculate_distance small_angle equator_lat equator_lon
    (Py.VFloat (decimal4 399205)) (Py.VFloat (decimal4 1164100)) = Py.Ok None
  /\ exists l1 l2 l3,
       sort tied
       = l1 ++ {| project_of := near_project; score := 30; distance_km := Some (of_int 3) |}
            :: l2 ++ {| project_of := far_project; score := 30; distance_km := None |} :: l3.
Proof.
  destruct (zero_coordinate_is_absent small_angle) as (D & _ & R). split.
  - apply D. left. right. right. exists false. reflexivity.
  - apply (R tied _ _ (of_int 3)); try reflexivity.
    + repeat constructor; intros d [= <-]; reflexivity.
    + right. left. reflexivity.
    + left. reflexivity.
Defined.


(** ** The caches *)

(** C6, as amended. A write stores the entry and, when the cache then holds
    more than [max_entries] entries, deletes one entry, the first of those
    with the least timestamp: the entries before it are younger and those
    after it are not older; a cache in order that held at most [max_entries]
    entries holds at most that many after a write and after a check. The IP
    cache and the venue cache are empty at first and stay within 100 and 200
    entries through every call of the resolvers that is not interrupted. In
    such a call, a record that [get_location_by_ip] accepts from a provider
    before the last, for an address that is not in the cache, is added to the
    IP cache, which is then cut back to 100 entries; a geocode that
    [get_hospital_location] obtains for a venue that is not in the cache is
    added to the venue cache, which is then cut back to 200 entries. A worker
    thread that executes the statements of [get_hospital_location] without
    being interrupted does what this call does. *)
Theorem caches_bounded_oldest_evicted :
  (forall (K : Type) (keq : K -> K -> bool) (max_entries : Z) (now : float) (k : K)
          (v : Py.value) (c : Cache.cache K),
     sound keq -> keq k k = true -> is_nan now = false -> cache_ok keq max_entries c ->
     let c1 := Dict.set keq k (v, now) c in
     cache_ok keq max_entries (Cache.put keq max_entries now k v c)
     /\ (Dict.len c1 <= max_entries -> Cache.put keq max_entries now k v c = c1)
     /\ (max_entries < Dict.len c1 ->
         exists l1 oldest l2,
           c1 = l1 ++ oldest :: l2
           /\ Cache.put keq max_entries now k v c = l1 ++ l2
           /\ Forall (older oldest) l1 /\ Forall (not_younger oldest) l2))
  /\ (forall (K : Type) (keq : K -> K -> bool) (max_entries : Z) (now : float) (k : K)
             (c : Cache.cache K),
        sound keq -> cache_ok keq max_entries c ->
        cache_ok keq max_entries (snd (Cache.get keq now k c)))
  /\ world_ok empty_world
  /\ (forall (rt : Py.runtime) (e : env) (w : world),
        clock_ok e -> world_ok w ->
        (forall ip, world_ok (snd (get_location_by_ip rt e ip w)))
        /\ (forall hospital_name project_name city,
              world_ok (snd (get_hospital_location rt e hospital_name project_name city w))))
  /\ (forall (rt : Py.runtime) (e : env) (ip : Py.value) (w : world) (v : Py.value),
        clock_ok e -> world_ok w ->
        Py.truthy ip = true -> Py.hashable ip = true ->
        Dict.lookup Py.key_eqb ip (_location_cache w) = None ->
        fst (get_location_by_ip rt e ip w) = Py.Ok v ->
        Forall not_last (requests_of w (snd (get_location_by_ip rt e ip w))) ->
        cut_back 100
          (_location_cache w ++ [(ip, (v, time_time e (clock_reads w)))])
          (_location_cache (snd (get_location_by_ip rt e ip w))))
  /\ (forall (rt : Py.runtime) (e : env) (hospital_name project_name city : option str)
             (w : world) (v : Py.value),
        clock_ok e -> world_ok w ->
        PyStr.truthy (AMAP_API_KEY e) = true ->
        opt_truthy (opt_or hospital_name project_name) = true ->
        Dict.lookup PyStr.eqb (hospital_key hospital_name project_name city)
          (_hospital_cache w) = None ->
        geocode_location rt
          (http_get e (length (sent w)) (geocode_request e hospital_name project_name city))
        = Some v ->
        fst (get_hospital_location rt e hospital_name project_name city w) = v
        /\ cut_back 200
             (_hospital_cache w
              ++ [(hospital_key hospital_name project_name city,
                   (v, time_time e (clock_reads w)))])
             (_hospital_cache
                (snd (get_hospital_location rt e hospital_name project_name city w))))
  /\ (forall (rt : Py.runtime) (e : env) (hospital_name project_name city : option str)
             (w : world),
        Workers.steps rt e 9 (Workers.Called hospital_name project_name city) w
        = (Workers.Returned
             (fst (get_hospital_location rt e hospital_name project_name city w)),
           snd (get_hospital_location rt e hospital_name project_name city w))).
Proof.
  split; [|split; [|split; [|split; [|split; [|split]]]]].
  - intros K keq max_entries now k v c S R N O. apply put_spec; assumption.
  - intros K keq max_entries now k c S O. apply get_spec; assumption.
  - apply empty_world_ok.
  - intros rt e w C O. split.
    + intros ip. destruct (get_location_by_ip rt e ip w) as [r w'] eqn:G.
      apply (get_location_by_ip_resolved rt e C ip w r w' O G).
    + intros h p c. destruct (get_hospital_location rt e h p c w) as [r w'] eqn:G.
      apply (get_hospital_location_ok rt e C h p c w r w' O G).
  - intros rt e ip w v. apply Overlap.location_write.
  - intros rt e h p c w v. apply Overlap.venue_write.
  - intros rt e h p c w. apply Overlap.uninterrupted.
Qed.

Lemma answering_clock prefix document key : clock_ok (answering prefix document key).
Proof. intros n. apply of_int_number. Qed.

Lemma three_entries_ok : cache_ok PyStr.eqb 3 three_entries.
Proof.
  split; [split|unfold Dict.len; cbn; lia].
  - vm_compute. repeat constructor; rewrite ?list_elem_of_In; cbn; intuition discriminate.
  - repeat constructor.
  - repeat constructor.
Qed.

Lemma full_world_ok : world_ok Samples.full_world.
Proof.
  split; (split; [split|]).
  - constructor.
  - constructor.
  - constructor.
  - vm_compute. discriminate.
  - apply (bool_decide_unpack _). vm_compute. reflexivity.
  - apply Forall_forall. intros item _. apply str_eqb_refl.
  - apply (bool_decide_unpack _). vm_compute. reflexivity.
  - vm_compute. discriminate.
Qed.

(** A fourth entry in a cache of three: the oldest, "b", goes. A lookup in
    the empty world leaves the caches in order. And the geocode of a new
    venue in a venue cache of 200 entries: one entry, the oldest, goes. *)
Lemma caches_bounded_oldest_evicted_witness :
  (exists l1 oldest l2,
     Dict.set PyStr.eqb (u "d") (Py.VNone, of_int 40) three_entries = l1 ++ oldest :: l2
     /\ Cache.put PyStr.eqb 3 (of_int 40) (u "d") Py.VNone three_entries = l1 ++ l2
     /\ Forall (older oldest) l1 /\ Forall (not_younger oldest) l2)
  /\ world_ok (snd (get_location_by_ip small_angle ipinfo_hangzhou an_address empty_world))
  /\ (exists l1 oldest l2,
        _hospital_cache Samples.full_world
        ++ [(hospital_key Samples.union_hospital None Samples.beijing,
             (fst (get_hospital_location Samples.reading Samples.geocoder
                     Samples.union_hospital None Samples.beijing Samples.full_world),
              of_int 1700000000))]
        = l1 ++ oldest :: l2
        /\ _hospital_cache
             (snd (get_hospital_location Samples.reading Samples.geocoder
                     Samples.union_hospital None Samples.beijing Samples.full_world))
           = l1 ++ l2
        /\ Forall (older oldest) l1 /\ Forall (not_younger oldest) l2).
Proof.
  destruct caches_bounded_oldest_evicted as (P & _ & E & W & _ & V & _). split; [|split].
  - apply (P str PyStr.eqb 3 (of_int 40) (u "d") Py.VNone three_entries).
    + apply str_eqb_sound.
    + reflexivity.
    + reflexivity.
    + apply three_entries_ok.
    + vm_compute. reflexivity.
  - apply (W small_angle ipinfo_hangzhou empty_world (answering_clock _ _ _) E).
  - destruct (V Samples.reading Samples.geocoder Samples.union_hospital None Samples.beijing
                Samples.full_world
                (fst (get_hospital_location Samples.reading Samples.geocoder
                        Samples.union_hospital None Samples.beijing Samples.full_world)))
      as (_ & _ & Large).
    + apply answering_clock.
    + apply full_world_ok.
    + reflexivity.
    + reflexivity.
    + vm_compute. reflexivity.
    + vm_compute. reflexivity.
    + apply Large. vm_compute. reflexivity.
Defined.

(** C6 as it is stated fails when the lookups overlap. Two worker threads
    look up two venues that are not in a venue cache of 200 entries, each
    thread executing one statement in turn. Both store their geocode, which
    makes 202 entries, both find the same oldest entry, the first thread
    deletes it and the second fails on deleting it again: its [KeyError] is
    caught and its lookup gives [None]. Both lookups are complete and the
    cache holds 201 entries. *)
Lemma overlapping_lookups_counterexample :
  world_ok Samples.full_world
  /\ Dict.len (_hospital_cache Samples.full_world) = 200
  /\ Workers.working
       (fst (Workers.run Samples.reading Samples.geocoder Samples.in_turn
               (Workers.submit [near_project; far_project]) Samples.full_world)) = []
  /\ (exists v,
        Py.truthy v = true
        /\ Workers.recorded
             (fst (Workers.run Samples.reading Samples.geocoder Samples.in_turn
                     (Workers.submit [near_project; far_project]) Samples.full_world))
           = [(near_project, v); (far_project, Py.VNone)])
  /\ Dict.len
       (_hospital_cache
          (snd (Workers.run Samples.reading Samples.geocoder Samples.in_turn
                  (Workers.submit [near_project; far_project]) Samples.full_world))) = 201.
Proof.
  split; [exact full_world_ok|]. split; [vm_compute; reflexivity|].
  split; [vm_compute; reflexivity|]. split.
  - eexists. split; [|vm_compute; reflexivity]. reflexivity.
  - vm_compute. reflexivity.
Qed.

(** ** The chain of the providers *)

(** C7, as amended. A record accepted from the keyed provider, from the first
    free provider or from the last provider succeeded and has a city or a
    region that is not empty; the second free provider accepts every answer
    of status 200 without an error, with the city and the region of the
    answer or the empty string. For an address that is not in the cache the
    resolver returns the first record that a provider accepts, in the order
    of the chain, and the failure record when none does. When the resolver returns a record without having
    asked the last provider, this record is in the IP cache afterwards, under
    the address that was given when there is one, provided that the clock is
    not behind the entries of the cache. *)
Theorem accepted_records_cached (rt : Py.runtime) (e : env) :
  clock_ok e ->
  (forall ip r v,
     amap_location rt ip r = Some v \/ ipinfo_location rt ip r = Some v
     \/ ipsb_location ip r = Some v ->
     located v)
  /\ (forall ip text data,
        Py.truthy (Py.field data "error" Py.VNone) = false ->
        exists items,
          ipapi_location ip
            (Some {| status_code := 200; text := text; json := Some (Py.VDict data) |})
          = Some (Py.VDict items)
          /\ Py.field items "success" Py.VNone = Py.VBool true
          /\ Py.field items "city" Py.VNone = Py.field data "city" (Py.VStr [])
          /\ Py.field items "region" Py.VNone = Py.field data "region" (Py.VStr []))
  /\ (forall ip w,
        Py.truthy ip = true -> Py.hashable ip = true ->
        Dict.lookup Py.key_eqb ip (_location_cache w) = None ->
        fst (get_location_by_ip rt e ip w)
        = Py.Ok (chain_result rt e ip (length (sent w))))
  /\ (forall ip w r w' v,
        world_ok w -> clock_ahead e w ->
        get_location_by_ip rt e ip w = (r, w') -> r = Py.Ok v ->
        Forall not_last (requests_of w w') ->
        exists key t,
          Dict.lookup Py.key_eqb key (_location_cache w') = Some (v, t)
          /\ (Py.truthy ip = true -> key = ip)).
Proof.
  intros C. split; [|split; [|split]].
  - intros ip r v [H|[H|H]].
    + exact (amap_located rt ip r v H).
    + exact (ipinfo_located rt ip r v H).
    + exact (ipsb_located ip r v H).
  - intros ip text data E. unfold ipapi_location, answer. cbn [status_code json].
    change (200 =? 200) with true. cbv iota. rewrite E. cbn [negb].
    eexists. split; [reflexivity|]. repeat split; vm_compute; reflexivity.
  - intros ip w. apply locate_chain.
  - intros ip w r w' v O A G Hr N.
    destruct (get_location_by_ip_resolved rt e C ip w r w' O G) as (_ & _ & P).
    exact (P v Hr A N).
Qed.

(** The first free provider answers with a city: the record is cached. *)
Lemma accepted_records_cached_witness :
  exists v key t,
    fst (get_location_by_ip small_angle ipinfo_hangzhou an_address empty_world) = Py.Ok v
    /\ Dict.lookup Py.key_eqb key
         (_location_cache
            (snd (get_location_by_ip small_angle ipinfo_hangzhou an_address empty_world)))
       = Some (v, t)
    /\ (Py.truthy an_address = true -> key = an_address).
Proof.
  destruct (accepted_records_cached small_angle ipinfo_hangzhou (answering_clock _ _ _))
    as (_ & _ & Ch & P).
  destruct (get_location_by_ip small_angle ipinfo_hangzhou an_address empty_world)
    as [r w'] eqn:G.
  assert (R : exists v, r = Py.Ok v).
  { pose proof (Ch an_address empty_world eq_refl eq_refl eq_refl) as X.
    rewrite G in X. eexists. exact X. }
  destruct R as [v Hr]. exists v.
  destruct (P an_address empty_world r w' v empty_world_ok) as (key & t & L & K).
  - intros n item [].
  - exact G.
  - exact Hr.
  - apply (f_equal snd) in G. vm_compute in G. rewrite <- G.
    vm_compute. repeat constructor.
  - exists key, t. cbn [fst snd]. auto.
Defined.

(** C7 as it is stated fails twice. An answer of the second free provider
    without any field is accepted: the record succeeded and its city, region
    and country are empty and its coordinates missing. And a record of the
    last provider is returned, with a city, without being written to the
    cache. *)
Lemma accepted_without_location_counterexample :
  (exists items,
     fst (get_location_by_ip small_angle ipapi_empty an_address empty_world)
       = Py.Ok (Py.VDict items)
     /\ Py.field items "success" Py.VNone = Py.VBool true
     /\ Py.field items "city" Py.VNone = Py.VStr []
     /\ Py.field items "region" Py.VNone = Py.VStr []
     /\ Py.field items "country" Py.VNone = Py.VStr []
     /\ Py.field items "latitude" Py.VNone = Py.VNone
     /\ Py.field items "longitude" Py.VNone = Py.VNone)
  /\ (exists items,
        fst (get_location_by_ip small_angle ipsb_paris an_address empty_world)
          = Py.Ok (Py.VDict items)
        /\ Py.field items "success" Py.VNone = Py.VBool true
        /\ Py.field items "city" Py.VNone = Py.VStr (u "Paris")
        /\ _location_cache
             (snd (get_location_by_ip small_angle ipsb_paris an_address empty_world)) = []).
Proof.
  split; eexists; (split; [vm_compute; reflexivity|]); vm_compute; auto 10.
Qed.


(** ** The venue geocoder without a key *)

(** C8. Without a key [get_hospital_location] returns its failure marker,
    [None], and leaves the world as it is: no request is sent. So does the
    task of every worker thread, which neither reads nor writes the caches.
    When the lookups gave [None], the score of a candidate before the penalty
    is the sum of three terms, without a distance. The first is the hint: the
    lowered city of the client is compared with the lowered region field of
    the candidate itself; it is 0 when one of them is empty, 30 when they are
    equal, 25 when one contains the other, and otherwise, when their
    normalized forms are not empty, 28 when these are equal and 22 when one
    of them contains the other. The second is 15 when the normalized city of
    the client has two characters or more and occurs in the lowered names of
    the candidate, the third 10 when the normalized region of the client
    does. *)
Theorem no_key_falls_back_to_hints (rt : Py.runtime) (e : env) :
  AMAP_API_KEY e = [] ->
  (forall hospital_name project_name city w,
     get_hospital_location rt e hospital_name project_name city w = (Py.VNone, w))
  /\ (forall p w, query_hospital_location rt e p w = ((p, Py.VNone), w))
  /\ (forall (c : client) (completed : list (project * Py.value)) (p : project),
        Forall (fun ph => snd ph = Py.VNone) completed ->
        let a := ip_city_lower c in
        let an := ip_city_normalized c in
        let gn := ip_region_normalized c in
        let region := clean (project_region p) in
        let r := lower rt region in
        let rn := normalize_city r in
        let names := lower rt (clean (project_name p) ++ u " " ++ clean (hospital_name p)) in
        exists hint : Z,
          raw_score rt c (collect completed) p
          = Py.Ok (hint
                   + (if (2 <=? length an)%nat && contains an names then 15 else 0)
                   + (if (2 <=? length gn)%nat && contains gn names then 10 else 0),
                   None)
          /\ (a = [] \/ region = [] \/ r = [] -> hint = 0)
          /\ (a <> [] -> region <> [] -> r <> [] ->
              (a = r -> hint = 30)
              /\ (a <> r -> contains a r = true \/ contains r a = true -> hint = 25)
              /\ (a <> r -> contains a r = false -> contains r a = false ->
                  (an = [] \/ rn = [] -> hint = 0)
                  /\ (an <> [] -> rn <> [] ->
                      (an = rn -> hint = 28)
                      /\ (an <> rn ->
                          contains an rn = true \/ contains rn an = true -> hint = 22)
                      /\ (an <> rn ->
                          contains an rn = false -> contains rn an = false -> hint = 0))))).
Proof.
  intros K. split; [|split].
  - intros. apply get_hospital_location_no_key. exact K.
  - intros p w. unfold query_hospital_location.
    rewrite Locating.bind_eq, (get_hospital_location_no_key rt e _ _ _ w K). reflexivity.
  - intros c completed p F a an gn region r rn names.
    exists (hint_tier c (if PyStr.truthy region then r else [])).
    split; [|split].
    + unfold raw_score. rewrite (collect_none completed _ F). cbn [geocode_of Py.truthy Py.bind].
      unfold score_text, name_points. fold region r names an gn.
      assert (T : forall s : str, PyStr.truthy s && (2 <=? length s)%nat = (2 <=? length s)%nat)
        by (intros [|x [|y s]]; reflexivity).
      rewrite !T. reflexivity.
    + unfold hint_tier. fold a. intros [H|[H|H]].
      * apply truthy_empty in H. rewrite H. reflexivity.
      * apply truthy_empty in H. rewrite H, andb_false_r. reflexivity.
      * rewrite H. destruct (PyStr.truthy region); rewrite andb_false_r; reflexivity.
    + intros Ha Hg Hr. apply truthy_nonempty in Hg. rewrite Hg.
      unfold hint_tier. fold a an rn.
      apply truthy_nonempty in Ha, Hr. rewrite Ha, Hr. cbn [andb].
      split; [|split].
      * intros E. apply eqb_eq in E. rewrite E. reflexivity.
      * intros N C. apply eqb_neq in N. rewrite N.
        destruct C as [-> | ->]; rewrite ?orb_true_r; reflexivity.
      * intros N C1 C2. apply eqb_neq in N. rewrite N, C1, C2. cbn [orb]. split.
        { intros [H|H]; apply truthy_empty in H; rewrite H, ?andb_false_r; reflexivity. }
        intros Hn Hrn. apply truthy_nonempty in Hn, Hrn. rewrite Hn, Hrn. cbn [andb].
        split; [|split].
        { intros E. apply eqb_eq in E. rewrite E. reflexivity. }
        { intros Ne C. apply eqb_neq in Ne. rewrite Ne.
          destruct C as [-> | ->]; rewrite ?orb_true_r; reflexivity. }
        { intros Ne D1 D2. apply eqb_neq in Ne. rewrite Ne, D1, D2. reflexivity. }
Qed.

(** A client in "北京市" and a candidate whose region field is "北京" and whose
    hospital is "北京协和医院": the lookup sends nothing, the hint gives 25
    points and the name of the hospital 15. *)
Lemma no_key_falls_back_to_hints_witness :
  query_hospital_location small_angle (answering "https://restapi.amap.com/" [] "")
    near_project empty_world
  = ((near_project, Py.VNone), empty_world)
  /\ raw_score small_angle (client_of small_angle scenario1_client)
       (collect (List.map (fun p => (p, Py.VNone)) some_projects)) near_project
     = Py.Ok (25 + 15 + 0, None).
Proof.
  destruct (no_key_falls_back_to_hints small_angle (answering "https://restapi.amap.com/" [] "")
              eq_refl) as (_ & Q & R).
  split; [apply Q|].
  destruct (R (client_of small_angle scenario1_client)
              (List.map (fun p => (p, Py.VNone)) some_projects) near_project)
    as (hint & E & _ & H).
  - repeat constructor.
  - rewrite E. destruct H as (_ & H & _); try (vm_compute; discriminate).
    rewrite H; [reflexivity|vm_compute; discriminate|right; vm_compute; reflexivity].
Defined.

End Claims.
